(** * SafeBite: the image-analysis layer ([src/utils/gemini-api.ts], [src/utils/llm.ts])

    A shallow embedding of the two API utility modules and the properties
    of their encoder, transports and orchestrator.

    Conventions.
    - A JavaScript string is a [string]: the bytes of its UTF-8 encoding.
    - [undefined] is [None]; a value that may be undefined is an [option].
    - A number is the text of a literal; what depends on its value as an
      IEEE double is kept behind the interface [JsNumber].
    - Asynchronous code is sequential here: every [await] is a bind of the
      monad [M], whose state is the [World] (scripted network, trace).
    - The callbacks [onChunk], [onError] and [onComplete] are taken to
      return normally; each of their invocations is an event of the trace,
      whichever function runs: the caller's, or the default that the
      options are destructured with.  What the invoked function writes is
      not an event of its own; for the defaults of llm.ts it is read off
      the invocation ([Llm.console_lines]).
    - The body of a streaming reply is a finite list of reads; a body that
      never ends, timeouts and cancellation are outside the model. *)

From Stdlib Require Import List String Ascii Bool Arith NArith ZArith Lia.
From Stdlib Require Import DecimalString.
From Stdlib Require QArith.
Import ListNotations.
Local Open Scope list_scope.
Local Open Scope string_scope.

Set Implicit Arguments.
Set Warnings "-register-all".

(* ===================================================================== *)
(** * Platform: strings                                                   *)
(* ===================================================================== *)

Module Js.

(** The double-quote character (code 34). *)
Definition dquote : ascii := Ascii false true false false false true false false.

(** [q s] is [s] with every apostrophe replaced by a double quote: a way of
    writing JSON text in this file. *)
Fixpoint q (s : string) : string :=
  match s with
  | EmptyString => EmptyString
  | String c r => String (if Ascii.eqb c "'"%char then dquote else c) (q r)
  end.

(** [String.prototype.startsWith]. *)
Fixpoint startsWith (s prefix : string) {struct prefix} : bool :=
  match prefix with
  | EmptyString => true
  | String p prefix' =>
      match s with
      | String c s' => (Ascii.eqb c p && startsWith s' prefix')%bool
      | EmptyString => false
      end
  end.

(** [String.prototype.split] with a one-character separator: the pieces
    between the separators, never an empty array. *)
Fixpoint split (sep : ascii) (s : string) : list string :=
  match s with
  | EmptyString => [EmptyString]
  | String c r =>
      if Ascii.eqb c sep then EmptyString :: split sep r
      else match split sep r with
           | p :: ps => String c p :: ps
           | [] => [String c EmptyString]
           end
  end.

(** [Array.prototype.pop]: the last element (or undefined) and what is left. *)
Fixpoint pop {A} (l : list A) : option A * list A :=
  match l with
  | [] => (None, [])
  | [x] => (Some x, [])
  | x :: r => let (o, r') := pop r in (o, x :: r')
  end.

(** [String.prototype.slice(n)] for a string whose first [n] characters are
    ASCII (the only use is [slice(6)] behind the test for the prefix
    `data: '). *)
Fixpoint slice (n : nat) (s : string) : string :=
  match n, s with
  | O, _ => s
  | S n', String _ r => slice n' r
  | S _, EmptyString => EmptyString
  end.

Definition lower_ascii (c : ascii) : ascii :=
  let n := nat_of_ascii c in
  if (Nat.leb 65 n && Nat.leb n 90)%bool then ascii_of_nat (n + 32) else c.

(** [String.prototype.toLowerCase] on the ASCII letters.  The two modules
    only compare the result with the ASCII words jpg, jpeg, png, gif, webp,
    bmp, svg (and look it up in an object literal).  Outside ASCII the
    only character whose lower case is an ASCII string is the Kelvin sign
    (k), a letter that none of these words has: the comparisons come out
    the same. *)
Fixpoint toLowerCase (s : string) : string :=
  match s with
  | EmptyString => EmptyString
  | String c r => String (lower_ascii c) (toLowerCase r)
  end.

Definition rev_string (s : string) : string :=
  string_of_list_ascii (rev (list_ascii_of_string s)).

(** White space and line terminators of ECMAScript, as UTF-8 byte
    sequences: TAB LF VT FF CR SP, U+00A0, U+1680, U+2000..U+200A, U+2028,
    U+2029, U+202F, U+205F, U+3000, U+FEFF. *)
Definition byte (n : nat) : ascii := ascii_of_nat n.

Definition str_of_bytes (l : list nat) : string :=
  string_of_list_ascii (map byte l).

Definition js_whitespace : list string :=
  map str_of_bytes
    ([[9]; [10]; [11]; [12]; [13]; [32]; [194; 160]; [225; 154; 128]]
     ++ map (fun k => [226; 128; 128 + k]) (seq 0 11)
     ++ [[226; 128; 168]; [226; 128; 169]; [226; 128; 175]; [226; 129; 159];
         [227; 128; 128]; [239; 187; 191]])%list.

(** Removes one white-space character from the front, if there is one. *)
Definition strip1 (ws : list string) (s : string) : option string :=
  match find (fun w => startsWith s w) ws with
  | Some w => Some (slice (String.length w) s)
  | None => None
  end.

Fixpoint trimStart_fuel (ws : list string) (fuel : nat) (s : string) : string :=
  match fuel with
  | O => s
  | S f => match strip1 ws s with
           | Some s' => trimStart_fuel ws f s'
           | None => s
           end
  end.

(** [trimStart]: each round removes at least one byte, so [length s] rounds
    are enough. *)
Definition trimStart (s : string) : string :=
  trimStart_fuel js_whitespace (String.length s) s.

Definition trimEnd (s : string) : string :=
  rev_string (trimStart_fuel (map rev_string js_whitespace) (String.length s) (rev_string s)).

(** [String.prototype.trim]. *)
Definition trim (s : string) : string := trimEnd (trimStart s).

(** [String.prototype.includes] for one character. *)
Fixpoint occurs (c : ascii) (s : string) : bool :=
  match s with
  | EmptyString => false
  | String x r => (Ascii.eqb x c || occurs c r)%bool
  end.

(** [Array.prototype.includes] on strings. *)
Definition includes (l : list string) (s : string) : bool :=
  existsb (String.eqb s) l.

(** [Array.prototype.join]. *)
Definition join (sep : string) (l : list string) : string := String.concat sep l.

Definition string_of_nat (n : nat) : string :=
  NilEmpty.string_of_uint (Nat.to_uint n).

Definition string_of_Z (z : Z) : string :=
  NilEmpty.string_of_int (Z.to_int z).

End Js.

(* ===================================================================== *)
(** * Platform: values, JSON                                              *)
(* ===================================================================== *)

(** A JavaScript number is kept as the text of a literal that denotes it
    (for a number of a JSON document, the literal of the document): the
    two modules never compute with numbers, they pass them along. *)
Definition number : Type := string.

(** The two operations of the language that look at the value of a
    number: [number_truthy n] says that [n] is neither zero nor NaN
    (ToBoolean), [Number_toString] is [Number.prototype.toString].  They
    depend on the value as an IEEE double and are kept abstract. *)
Class JsNumber : Type := {
  number_truthy : number -> bool;
  Number_toString : number -> string
}.

(** An instance to run examples with: a literal is truthy when its
    significand has a digit that is not zero, and prints as itself. *)
Definition literal_has_nonzero_digit (s : string) : bool :=
  let mantissa := hd EmptyString (Js.split "e" (Js.toLowerCase s)) in
  existsb (fun c => (Nat.leb 49 (nat_of_ascii c) && Nat.leb (nat_of_ascii c) 57)%bool)
          (list_ascii_of_string mantissa).

Definition LiteralNumber : JsNumber := {|
  number_truthy := literal_has_nonzero_digit;
  Number_toString := fun s => s
|}.

Module Json.
Import Js.

Section WithNumbers.
Context {Num : JsNumber}.

(** The values [JSON.parse] can return.  An object keeps its members in
    source order; a later member with the same key wins (see [lookup]). *)
Inductive JSON : Type :=
| JNull
| JBool (b : bool)
| JNum (n : number)
| JStr (s : string)
| JArr (items : list JSON)
| JObj (members : list (string * JSON)).

(** A JavaScript value as the two modules meet them: [undefined] or a
    JSON value. *)
Definition value : Type := option JSON.
Definition undefined : value := None.

(** ToBoolean. *)
Definition truthy (v : value) : bool :=
  match v with
  | None => false
  | Some JNull => false
  | Some (JBool b) => b
  | Some (JNum n) => number_truthy n
  | Some (JStr s) => negb (String.eqb s EmptyString)
  | Some (JArr _) => true
  | Some (JObj _) => true
  end.

(** ToString ([String(v)], template literals, [+=] on a string).  An array
    joins its elements with commas, null elements giving the empty string;
    a plain object gives `[object Object]'. *)
Fixpoint JSON_toString (j : JSON) : string :=
  match j with
  | JNull => "null"
  | JBool true => "true"
  | JBool false => "false"
  | JNum n => Number_toString n
  | JStr s => s
  | JArr items =>
      join "," (map (fun x => match x with JNull => EmptyString | _ => JSON_toString x end) items)
  | JObj _ => "[object Object]"
  end.

Definition toString (v : value) : string :=
  match v with
  | None => "undefined"
  | Some j => JSON_toString j
  end.

(** Whether ToString has a result.  An object with a member named
    [toString] has none: the member, which is never callable in a JSON
    value, hides [Object.prototype.toString], [valueOf] gives the object
    back, and the conversion throws a TypeError; an array converts its
    elements.  [JSON_toString] is the conversion where there is one; the
    declared types of what the two modules convert ([reason], [message]
    and [content], all strings) have one. *)
Fixpoint JSON_converts (j : JSON) : bool :=
  match j with
  | JArr items => forallb JSON_converts items
  | JObj members => negb (existsb (fun m => String.eqb (fst m) "toString") members)
  | _ => true
  end.

Definition converts (v : value) : bool :=
  match v with
  | None => true
  | Some j => JSON_converts j
  end.

(** The last member named [k]. *)
Fixpoint lookup (k : string) (members : list (string * JSON)) : value :=
  match members with
  | [] => None
  | (k', v) :: r =>
      match lookup k r with
      | Some v' => Some v'
      | None => if String.eqb k k' then Some v else None
      end
  end.

(** The first character of a string (one UTF-8 sequence). *)
Definition is_continuation (c : ascii) : bool :=
  let n := nat_of_ascii c in (Nat.leb 128 n && Nat.leb n 191)%bool.

Fixpoint take_continuation (s : string) : string :=
  match s with
  | String c r => if is_continuation c then String c (take_continuation r) else EmptyString
  | EmptyString => EmptyString
  end.

Definition first_char (s : string) : value :=
  match s with
  | EmptyString => None
  | String c r => Some (JStr (String c (take_continuation r)))
  end.

(** [v.k] on a value that is neither null nor undefined, for the property
    names the two modules read: choices, delta, content, finish_reason,
    message, error, imageType, confidence, reason.  None of them is a
    property of [Object.prototype], [Array.prototype], [String.prototype],
    [Number.prototype] or [Boolean.prototype], so only own members of an
    object are found. *)
Definition field (j : JSON) (k : string) : value :=
  match j with
  | JObj members => lookup k members
  | _ => None
  end.

(** [v[0]] on a value that is neither null nor undefined: an element of an
    array, the member `0' of an object, the first character of a string
    (for a character outside the Basic Multilingual Plane JavaScript gives
    its first UTF-16 unit; here the whole character stands for it: either
    is a string, and every use reads a named property of it next). *)
Definition index0 (j : JSON) : value :=
  match j with
  | JArr items => nth_error items 0
  | JObj members => lookup "0" members
  | JStr s => first_char s
  | _ => None
  end.

Definition nullish (v : value) : bool :=
  match v with
  | None | Some JNull => true
  | _ => false
  end.

(** Optional chaining [v?.k] and [v?.[0]]. *)
Definition opt_field (v : value) (k : string) : value :=
  match v with
  | None | Some JNull => None
  | Some j => field j k
  end.

Definition opt_index0 (v : value) : value :=
  match v with
  | None | Some JNull => None
  | Some j => index0 j
  end.


(** ** [JSON.parse]

    A lexer (strings with their escapes, numbers, the three literals, the
    six punctuators, white space) and a push-down recogniser that builds
    the value. *)

Inductive Token : Type :=
| TLBrace | TRBrace | TLBracket | TRBracket | TColon | TComma
| TStr (s : string) | TNum (literal : string) | TTrue | TFalse | TNull.

(** A character of a string literal: a byte of the text, or the 16-bit
    unit of a `\u' escape. *)
Inductive SUnit : Type := Raw (c : ascii) | Esc (n : N).

Definition hex_digit (c : ascii) : option N :=
  let n := N_of_ascii c in
  if (N.leb 48 n && N.leb n 57)%bool then Some (n - 48)%N
  else if (N.leb 97 n && N.leb n 102)%bool then Some (n - 87)%N
  else if (N.leb 65 n && N.leb n 70)%bool then Some (n - 55)%N
  else None.

Definition hex4 (a b c d : ascii) : option N :=
  match hex_digit a, hex_digit b, hex_digit c, hex_digit d with
  | Some x, Some y, Some z, Some w => Some (((x * 16 + y) * 16 + z) * 16 + w)%N
  | _, _, _, _ => None
  end.

Definition simple_escape (e : ascii) : option ascii :=
  if Ascii.eqb e dquote then Some dquote
  else if Ascii.eqb e "\" then Some "\"%char
  else if Ascii.eqb e "/" then Some "/"%char
  else if Ascii.eqb e "b" then Some (byte 8)
  else if Ascii.eqb e "f" then Some (byte 12)
  else if Ascii.eqb e "n" then Some (byte 10)
  else if Ascii.eqb e "r" then Some (byte 13)
  else if Ascii.eqb e "t" then Some (byte 9)
  else None.

Definition option_cons {A} (x : A) (o : option (list A * string)) : option (list A * string) :=
  match o with
  | Some (l, r) => Some (x :: l, r)
  | None => None
  end.

(** The characters of a string literal, from behind its opening quote to
    its closing quote, and the text that follows.  Control characters
    below U+0020 are not allowed unescaped. *)
Fixpoint scan_string (s : string) : option (list SUnit * string) :=
  match s with
  | EmptyString => None
  | String c r =>
      if Ascii.eqb c dquote then Some ([], r)
      else if Ascii.eqb c "\" then
        match r with
        | String e r1 =>
            if Ascii.eqb e "u" then
              match r1 with
              | String h1 (String h2 (String h3 (String h4 r2))) =>
                  match hex4 h1 h2 h3 h4 with
                  | Some n => option_cons (Esc n) (scan_string r2)
                  | None => None
                  end
              | _ => None
              end
            else
              match simple_escape e with
              | Some c' => option_cons (Raw c') (scan_string r1)
              | None => None
              end
        | EmptyString => None
        end
      else if Nat.ltb (nat_of_ascii c) 32 then None
      else option_cons (Raw c) (scan_string r)
  end.

Definition string_of_Ns (l : list N) : string :=
  string_of_list_ascii (map ascii_of_N l).

(** UTF-8 of a code point (three bytes also for an unpaired surrogate). *)
Definition utf8 (n : N) : string :=
  (if n <? 128 then string_of_Ns [n]
   else if n <? 2048 then string_of_Ns [192 + n / 64; 128 + n mod 64]
   else if n <? 65536 then
     string_of_Ns [224 + n / 4096; 128 + (n / 64) mod 64; 128 + n mod 64]
   else
     string_of_Ns [240 + n / 262144; 128 + (n / 4096) mod 64;
                   128 + (n / 64) mod 64; 128 + n mod 64])%N.

Definition is_high_surrogate (n : N) : bool := (N.leb 55296 n && N.leb n 56319)%bool.
Definition is_low_surrogate (n : N) : bool := (N.leb 56320 n && N.leb n 57343)%bool.

(** The bytes of a scanned string literal; an escaped high surrogate
    followed by an escaped low surrogate is one character. *)
Fixpoint encode_units (l : list SUnit) : string :=
  match l with
  | [] => EmptyString
  | Raw c :: r => String c (encode_units r)
  | Esc hi :: r =>
      match r with
      | Esc lo :: r' =>
          if (is_high_surrogate hi && is_low_surrogate lo)%bool
          then utf8 (65536 + (hi - 55296) * 1024 + (lo - 56320))%N ++ encode_units r'
          else utf8 hi ++ encode_units r
      | _ => utf8 hi ++ encode_units r
      end
  end.

Definition is_digit (c : ascii) : bool :=
  (Nat.leb 48 (nat_of_ascii c) && Nat.leb (nat_of_ascii c) 57)%bool.

Fixpoint span_digits (s : string) : string * string :=
  match s with
  | String c r =>
      if is_digit c then let (d, r') := span_digits r in (String c d, r') else (EmptyString, s)
  | EmptyString => (EmptyString, EmptyString)
  end.

(** A number literal at the front of [s] and the text that follows: an
    optional minus sign; a zero, or a digit from 1 to 9 and more digits;
    optionally a point and one digit or more; optionally e or E, an
    optional sign and one digit or more. *)
Definition scan_int (s : string) : option (string * string) :=
  match s with
  | String c r =>
      if Ascii.eqb c "0" then Some ("0", r)
      else if is_digit c then let (d, r') := span_digits r in Some (String c d, r')
      else None
  | EmptyString => None
  end.

Definition scan_frac (s : string) : option (string * string) :=
  match s with
  | String "." r =>
      match span_digits r with
      | (EmptyString, _) => None
      | (d, r') => Some (String "." d, r')
      end
  | _ => Some (EmptyString, s)
  end.

Definition scan_exp (s : string) : option (string * string) :=
  match s with
  | String c r =>
      if (Ascii.eqb c "e" || Ascii.eqb c "E")%bool then
        let (sign, r1) :=
          match r with
          | String "+" r1 => ("+", r1)
          | String "-" r1 => ("-", r1)
          | _ => (EmptyString, r)
          end in
        match span_digits r1 with
        | (EmptyString, _) => None
        | (d, r') => Some (String c (sign ++ d), r')
        end
      else Some (EmptyString, s)
  | EmptyString => Some (EmptyString, s)
  end.

Definition scan_number (s : string) : option (string * string) :=
  let (sign, s1) := match s with String "-" r => ("-", r) | _ => (EmptyString, s) end in
  match scan_int s1 with
  | None => None
  | Some (i, s2) =>
      match scan_frac s2 with
      | None => None
      | Some (f, s3) =>
          match scan_exp s3 with
          | None => None
          | Some (e, s4) => Some (sign ++ i ++ f ++ e, s4)
          end
      end
  end.

Definition is_json_ws (c : ascii) : bool :=
  let n := nat_of_ascii c in
  (Nat.eqb n 32 || Nat.eqb n 9 || Nat.eqb n 10 || Nat.eqb n 13)%bool.

Definition punctuator (c : ascii) : option Token :=
  if Ascii.eqb c "{" then Some TLBrace
  else if Ascii.eqb c "}" then Some TRBrace
  else if Ascii.eqb c "[" then Some TLBracket
  else if Ascii.eqb c "]" then Some TRBracket
  else if Ascii.eqb c ":" then Some TColon
  else if Ascii.eqb c "," then Some TComma
  else None.

Definition option_tok (t : Token) (o : option (list Token)) : option (list Token) :=
  match o with
  | Some l => Some (t :: l)
  | None => None
  end.

(** Every round consumes at least one character: [length s] rounds of
    fuel read all of [s]. *)
Fixpoint lex (fuel : nat) (s : string) : option (list Token) :=
  match s with
  | EmptyString => Some []
  | String c r =>
      match fuel with
      | O => None
      | S f =>
          if is_json_ws c then lex f r
          else match punctuator c with
          | Some t => option_tok t (lex f r)
          | None =>
              if Ascii.eqb c dquote then
                match scan_string r with
                | Some (units, r') => option_tok (TStr (encode_units units)) (lex f r')
                | None => None
                end
              else if startsWith s "true" then option_tok TTrue (lex f (slice 4 s))
              else if startsWith s "false" then option_tok TFalse (lex f (slice 5 s))
              else if startsWith s "null" then option_tok TNull (lex f (slice 4 s))
              else
                match scan_number s with
                | Some (lit, r') => option_tok (TNum lit) (lex f r')
                | None => None
                end
          end
      end
  end.

(** The containers that are open: an array with its elements so far, an
    object with its members so far and the key whose value is awaited
    (both lists latest first). *)
Inductive Frame : Type :=
| FArr (done : list JSON)
| FObj (done : list (string * JSON)) (key : string).

Inductive PState : Type :=
| PValue (stack : list Frame)
| PArrStart (stack : list Frame)
| PArrNext (done : list JSON) (stack : list Frame)
| PObjStart (stack : list Frame)
| PObjNext (done : list (string * JSON)) (stack : list Frame)
| PKey (done : list (string * JSON)) (stack : list Frame)
| PColon (done : list (string * JSON)) (key : string) (stack : list Frame)
| PDone (v : JSON).

(** A value is complete: it goes to the innermost open container. *)
Definition complete (v : JSON) (stack : list Frame) : PState :=
  match stack with
  | [] => PDone v
  | FArr done :: st => PArrNext (v :: done) st
  | FObj done key :: st => PObjNext ((key, v) :: done) st
  end.

Definition start_value (stack : list Frame) (t : Token) : option PState :=
  match t with
  | TNull => Some (complete JNull stack)
  | TTrue => Some (complete (JBool true) stack)
  | TFalse => Some (complete (JBool false) stack)
  | TNum lit => Some (complete (JNum lit) stack)
  | TStr s => Some (complete (JStr s) stack)
  | TLBracket => Some (PArrStart stack)
  | TLBrace => Some (PObjStart stack)
  | _ => None
  end.

Definition step (st : PState) (t : Token) : option PState :=
  match st, t with
  | PValue stack, _ => start_value stack t
  | PArrStart stack, TRBracket => Some (complete (JArr []) stack)
  | PArrStart stack, _ => start_value (FArr [] :: stack) t
  | PArrNext done stack, TComma => Some (PValue (FArr done :: stack))
  | PArrNext done stack, TRBracket => Some (complete (JArr (rev done)) stack)
  | PObjStart stack, TRBrace => Some (complete (JObj []) stack)
  | PObjStart stack, TStr k => Some (PColon [] k stack)
  | PObjNext done stack, TComma => Some (PKey done stack)
  | PObjNext done stack, TRBrace => Some (complete (JObj (rev done)) stack)
  | PKey done stack, TStr k => Some (PColon done k stack)
  | PColon done k stack, TColon => Some (PValue (FObj done k :: stack))
  | _, _ => None
  end.

Fixpoint run (st : PState) (ts : list Token) : option PState :=
  match ts with
  | [] => Some st
  | t :: r => match step st t with
              | Some st' => run st' r
              | None => None
              end
  end.

(** [JSON.parse] of a string: [None] when it throws a SyntaxError. *)
Definition JSON_parse (s : string) : option JSON :=
  match lex (String.length s) s with
  | None => None
  | Some ts =>
      match run (PValue []) ts with
      | Some (PDone v) => Some v
      | _ => None
      end
  end.

End WithNumbers.
End Json.

(* ===================================================================== *)
(** * Platform: exceptions, network, trace                                *)
(* ===================================================================== *)

Module Runtime.
Import Js Json.

Section WithNumbers.
Context {Num : JsNumber}.

Inductive ErrorClass : Type := ErrorC | TypeErrorC | SyntaxErrorC.

(** What a [throw] or a rejected promise carries: an Error object, or some
    other value (of which [String(v)] is kept). *)
Inductive Thrown : Type :=
| Exn (class : ErrorClass) (message : string)
| NonError (rendering : string).

(** [new Error(message)]. *)
Definition new_Error (message : string) : Thrown := Exn ErrorC message.

(** [error instanceof Error ? error : new Error(String(error))]. *)
Definition as_Error (error : Thrown) : Thrown :=
  match error with
  | Exn _ _ => error
  | NonError s => new_Error s
  end.

(** The TypeError of reading a property of null or undefined (its message
    depends on the engine). *)
Definition null_property_error : Thrown :=
  Exn TypeErrorC "Cannot read properties of null".

(** The TypeError of a conversion that has no result. *)
Definition no_primitive_value : Thrown :=
  Exn TypeErrorC "Cannot convert object to primitive value".

(** The SyntaxError of [JSON.parse]. *)
Definition json_syntax_error : Thrown :=
  Exn SyntaxErrorC "Unexpected token in JSON".

Inductive Settled (A : Type) : Type :=
| Fulfilled (a : A)
| Rejected (e : Thrown).
Arguments Rejected {A} e.

(** ** Requests *)

Inductive Detail : Type := auto | low | high.
Inductive Role : Type := system | user | assistant.

(** The prompt templates of gemini-api.ts. *)
Inductive Template : Type :=
| typePrompt | extractIngredientsPrompt | extractMenuPrompt
| ingredientsPrompt | menuPrompt | foodPhotoPrompt | allergensPrompt.

(** The text of a message: a string of the caller, or a template with the
    texts spliced into it (the constant wording of the templates is not
    reproduced). *)
Inductive Text : Type :=
| Literal (s : string)
| Filled (t : Template) (spliced : list string).

Inductive ContentPart : Type :=
| TextPart (text : Text)
| ImagePart (url : string) (detail : Detail).

Inductive Content : Type :=
| Plain (text : Text)
| Parts (parts : list ContentPart).

Record Message : Type := { role : Role; content : Content }.

Inductive ThinkingType : Type := enabled | disabled | auto_thinking.

Record ThinkingConfig : Type := {
  thinking_type : ThinkingType;
  budget_tokens : option Z;
  include_thoughts : option bool
}.

(** The JSON body of a request, before [JSON.stringify].  Token counts
    are integers. *)
Record RequestBody : Type := {
  model : string;
  messages : list Message;
  stream : bool;
  temperature : number;
  max_tokens : Z;
  top_p : option number;
  thinking : option ThinkingConfig;
  user_id : option string;
  response_format : option string
}.

Inductive Request : Type :=
| Get (url : string)
| Post (url : string) (authorization : string) (body : RequestBody).

(** ** Responses

    A response is what its consumers can see of it: [response.json()],
    the reads of [response.body.getReader()] (already through the
    TextDecoder; the end of the list is [done]), [response.blob()]. *)

Record Blob : Type := {
  blob_type : string;
  readAsDataURL : option string   (* the FileReader result; None: the read fails *)
}.

Record Response : Type := {
  ok : bool;
  status : nat;
  statusText : string;
  json : Settled JSON;
  body : option (list (Settled string));
  blob : Settled Blob
}.

(** ** The world *)

Inductive Level : Type := LogLevel | WarnLevel | ErrorLevel.

Inductive Event : Type :=
| Fetch (r : Request)                 (* fetch was called *)
| Encode (url : string)               (* convertImageToBase64 was entered *)
| OnChunk (chunk : JSON)              (* onChunk was invoked *)
| OnComplete                          (* onComplete was invoked *)
| OnError (e : Thrown)                (* onError was invoked *)
| Console (level : Level).            (* console.log / warn / error *)

(** [import.meta.env]. *)
Record Env : Type := {
  VITE_GEMINI_API_KEY : option string;
  VITE_GEMINI_BASE_URL : option string
}.

(** The network is a script: the n-th call of [fetch] settles as the n-th
    entry says; past its end, [fetch] rejects. *)
Record World : Type := {
  env : Env;
  network : list (Settled Response);
  trace : list Event
}.

Definition failed_to_fetch : Thrown := Exn TypeErrorC "Failed to fetch".

(** ** The monad of asynchronous code *)

Inductive Result (A : Type) : Type :=
| Return (a : A)
| Throw (e : Thrown).
Arguments Throw {A} e.

Definition M (A : Type) : Type := World -> Result A * World.

Definition ret {A} (a : A) : M A := fun w => (Return a, w).

Definition bind {A B} (m : M A) (k : A -> M B) : M B :=
  fun w => match m w with
           | (Return a, w') => k a w'
           | (Throw e, w') => (Throw e, w')
           end.

Definition throw {A} (e : Thrown) : M A := fun w => (Throw e, w).

(** [try { m } catch (e) { handler e }]. *)
Definition try_catch {A} (m : M A) (handler : Thrown -> M A) : M A :=
  fun w => match m w with
           | (Return a, w') => (Return a, w')
           | (Throw e, w') => handler e w'
           end.

Definition emit (e : Event) : M unit :=
  fun w => (Return tt, {| env := env w; network := network w; trace := trace w ++ [e] |}).

Definition get_env : M Env := fun w => (Return (env w), w).

(** [await fetch(...)]. *)
Definition fetch (r : Request) : M Response :=
  fun w =>
    let t := (trace w ++ [Fetch r])%list in
    match network w with
    | [] => (Throw failed_to_fetch, {| env := env w; network := []; trace := t |})
    | Fulfilled resp :: rest => (Return resp, {| env := env w; network := rest; trace := t |})
    | Rejected e :: rest => (Throw e, {| env := env w; network := rest; trace := t |})
    end.

(** [await p] for a promise that is already settled. *)
Definition await {A} (p : Settled A) : M A :=
  match p with
  | Fulfilled a => ret a
  | Rejected e => throw e
  end.

(** [v.k]: a TypeError on null and undefined. *)
Definition prop (v : value) (k : string) : M value :=
  match v with
  | None | Some JNull => throw null_property_error
  | Some j => ret (field j k)
  end.

(** [JSON.parse(v)]: ToString, then the parser. *)
Definition JSON_parse_value (v : value) : M JSON :=
  match JSON_parse (toString v) with
  | Some j => ret j
  | None => throw json_syntax_error
  end.

(** [`${v}`]: the conversion, or its TypeError. *)
Definition to_text (v : value) : M string :=
  if converts v then ret (toString v) else throw no_primitive_value.

End WithNumbers.

Arguments Rejected {A} e.
Arguments Throw {A} e.

Declare Scope js_scope.
Notation "x <- m ;; k" := (bind m (fun x => k))
  (at level 61, m at next level, right associativity) : js_scope.
Notation "m ;; k" := (bind m (fun _ => k))
  (at level 61, right associativity) : js_scope.

(** ** Counting in a trace *)

Section Counting.
Context {Num : JsNumber}.

Definition is_fetch (e : Event) : bool :=
  match e with Fetch _ => true | _ => false end.

(** A request to the model: a POST to the chat-completions endpoint. *)
Definition is_model_call (e : Event) : bool :=
  match e with Fetch (Post _ _ _) => true | _ => false end.

Definition is_image_fetch (e : Event) : bool :=
  match e with Fetch (Get _) => true | _ => false end.

Definition is_encode (e : Event) : bool :=
  match e with Encode _ => true | _ => false end.

Definition is_complete (e : Event) : bool :=
  match e with OnComplete => true | _ => false end.

Definition is_error (e : Event) : bool :=
  match e with OnError _ => true | _ => false end.

Definition is_chunk (e : Event) : bool :=
  match e with OnChunk _ => true | _ => false end.

Definition count (p : Event -> bool) (t : list Event) : nat :=
  List.length (filter p t).

End Counting.

End Runtime.

(* ===================================================================== *)
(** * The event-stream loop                                               *)
(* ===================================================================== *)

(** The [while (true)] loop that reads the body of a streaming response is
    the same text in [callGeminiAPIForStream] (gemini-api.ts),
    [callGemini25Pro] and [callGemini25ProWithHistory] (llm.ts), up to the
    arguments of [console.warn].  [onChunk] is a closure of the caller: its
    effect on the variable it captures is the function [onChunk] on the
    accumulator [acc]; that it was invoked is recorded in the trace. *)
Module Sse.
Import Js Json Runtime.
Local Open Scope js_scope.

Section Loop.
Context {Num : JsNumber}.
Variable A : Type.
Variable onChunk : JSON -> A -> A.

(** The [try] block of one `data: ' line that is not the sentinel. *)
Definition handle_data (data : string) (acc : A) : M A :=
  try_catch
    (parsed <- JSON_parse_value (Some (JStr data)) ;;
     choices <- prop (Some parsed) "choices" ;;
     let content := opt_field (opt_field (opt_index0 choices) "delta") "content" in
     acc' <- match content with
             | Some chunk =>
                 if truthy content
                 then emit (OnChunk chunk) ;; ret (onChunk chunk acc)
                 else ret acc
             | None => ret acc
             end ;;
     choices' <- prop (Some parsed) "choices" ;;
     let finishReason := opt_field (opt_index0 choices') "finish_reason" in
     (if truthy finishReason then emit OnComplete else ret tt) ;;
     ret acc')
    (fun parseError => emit (Console WarnLevel) ;; ret acc).

(** The body of [for (const line of lines)]: [true] when the function
    returned from inside the loop (the sentinel was read). *)
Fixpoint process_lines (lines : list string) (acc : A) : M (bool * A) :=
  match lines with
  | [] => ret (false, acc)
  | line :: rest =>
      let trimmedLine := trim line in
      if (String.eqb trimmedLine EmptyString || startsWith trimmedLine ":")%bool
      then process_lines rest acc
      else if startsWith trimmedLine "data: " then
        let data := slice 6 trimmedLine in
        if String.eqb data "[DONE]"
        then emit OnComplete ;; ret (true, acc)
        else acc' <- handle_data data acc ;; process_lines rest acc'
      else process_lines rest acc
  end.

(** [while (true) { const { done, value } = await reader.read(); ... }] on
    the reads that the body has in store. *)
Fixpoint read_loop (reads : list (Settled string)) (buffer : string) (acc : A) : M A :=
  match reads with
  | [] => emit OnComplete ;; ret acc
  | Rejected e :: _ => throw e
  | Fulfilled chunk :: rest =>
      let buffer1 := buffer ++ chunk in
      let (last, lines) := pop (split (byte 10) buffer1) in
      let buffer2 := match last with Some l => l | None => EmptyString end in
      r <- process_lines lines acc ;;
      if fst r then ret (snd r) else read_loop rest buffer2 (snd r)
  end.

(** [const reader = response.body?.getReader(); if (!reader) throw ...]
    and the loop. *)
Definition read_body (response : Response) (acc : A) : M A :=
  match body response with
  | None => throw (new_Error "Response body is not readable")
  | Some reads => read_loop reads EmptyString acc
  end.

End Loop.
End Sse.

(* ===================================================================== *)
(** * src/utils/gemini-api.ts                                             *)
(* ===================================================================== *)

Module GeminiApi.
Import Js Json Runtime.
Local Open Scope js_scope.

(** What [getMimeTypeFromUrl] can return: a string, or (for the extensions
    `constructor' and `__proto__', found on the prototype of the object
    literal [mimeTypes]) the function [Object] or [Object.prototype]. *)
Inductive Mime : Type :=
| MimeType (s : string)
| ObjectFunction
| ObjectPrototype.

(** A value of [Mime] in a template literal. *)
Definition Mime_toString (m : Mime) : string :=
  match m with
  | MimeType s => s
  | ObjectFunction => "function Object() { [native code] }"
  | ObjectPrototype => "[object Object]"
  end.

(** The longest prefix without [;] and [,]: the group of
    [/^data:([^;,]+)/] behind `data:'. *)
Fixpoint media_type_prefix (s : string) : string :=
  match s with
  | String c r =>
      if (Ascii.eqb c ";" || Ascii.eqb c ",")%bool then EmptyString
      else String c (media_type_prefix r)
  | EmptyString => EmptyString
  end.

(** [url.match(/^data:([^;,]+)/)]: the group, when the pattern matches. *)
Definition match_data_prefix (url : string) : option string :=
  if startsWith url "data:" then
    match media_type_prefix (slice 5 url) with
    | EmptyString => None
    | m => Some m
    end
  else None.

(** [mimeTypes[key]]: the seven entries of the literal and the two
    lower-case properties that the literal inherits. *)
Definition mimeTypes (key : string) : option Mime :=
  if String.eqb key "jpg" then Some (MimeType "image/jpeg")
  else if String.eqb key "jpeg" then Some (MimeType "image/jpeg")
  else if String.eqb key "png" then Some (MimeType "image/png")
  else if String.eqb key "gif" then Some (MimeType "image/gif")
  else if String.eqb key "webp" then Some (MimeType "image/webp")
  else if String.eqb key "bmp" then Some (MimeType "image/bmp")
  else if String.eqb key "svg" then Some (MimeType "image/svg+xml")
  else if String.eqb key "constructor" then Some ObjectFunction
  else if String.eqb key "__proto__" then Some ObjectPrototype
  else None.

Definition getMimeTypeFromUrl (url : string) : Mime :=
  match (if startsWith url "data:" then match_data_prefix url else None) with
  | Some m => MimeType m
  | None =>
      let extension :=
        match fst (pop (split "." url)) with
        | Some last => Some (hd EmptyString (split "?" (toLowerCase last)))
        | None => None
        end in
      match mimeTypes (match extension with Some e => e | None => EmptyString end) with
      | Some m => m
      | None => MimeType "image/jpeg"
      end
  end.

(** What [convertImageToBase64] resolves to. *)
Record EncodedImage : Type := {
  base64 : option string;
  mimeType : Mime
}.

(** [`data:${mimeType};base64,${base64}`]. *)
Definition data_url (e : EncodedImage) : string :=
  "data:" ++ Mime_toString (mimeType e) ++ ";base64,"
  ++ match base64 e with Some b => b | None => "undefined" end.

Section WithNumbers.
Context {Num : JsNumber}.

(** The promise around the FileReader: [onloadend] resolves it with the
    part of the result behind the first comma, [onerror] rejects it with
    the event. *)
Definition read_blob (b : Blob) (mimeType : Mime) : M EncodedImage :=
  match readAsDataURL b with
  | Some result => ret {| base64 := nth_error (split "," result) 1; mimeType := mimeType |}
  | None => throw (NonError "[object ProgressEvent]")
  end.

(** The promise is returned from inside the [try] without an [await]: its
    rejection does not pass through the [catch]. *)
Definition convertImageToBase64 (url : string) : M EncodedImage :=
  emit (Encode url) ;;
  if startsWith url "data:" then
    let mimeType := getMimeTypeFromUrl url in
    let base64Data := nth_error (split "," url) 1 in
    ret {| base64 := base64Data; mimeType := mimeType |}
  else
    p <- try_catch
           (response <- fetch (Get url) ;;
            blob <- await (blob response) ;;
            let mimeType :=
              if String.eqb (blob_type blob) EmptyString
              then getMimeTypeFromUrl url
              else MimeType (blob_type blob) in
            ret (blob, mimeType))
           (fun error => emit (Console ErrorLevel) ;; throw (new_Error "无法加载图片")) ;;
    read_blob (fst p) (snd p).

(** [ImageAnalysisOptions].  The callbacks [onError] and [onComplete] (or
    their defaults) are not fields here: each of their invocations is an
    event of the trace. *)
Record ImageAnalysisOptions : Type := {
  apiKey : string;
  baseURL : option string;
  temperature : option number;
  maxTokens : option Z;
  detail : option Detail
}.

(** [a || b] on strings that may be undefined. *)
Definition or_string (a b : option string) : option string :=
  match a with
  | Some s => if String.eqb s EmptyString then b else a
  | None => b
  end.

Definition string_truthy (a : option string) : bool :=
  match a with
  | Some s => negb (String.eqb s EmptyString)
  | None => false
  end.

Definition default {A} (a : option A) (d : A) : A :=
  match a with Some x => x | None => d end.

Definition default_baseURL : string := "https://meta-backend-sandbox.camscanner.com/us/".

Definition missing_key : Thrown :=
  new_Error "API key is required. Provide it via options.apiKey or set VITE_GEMINI_API_KEY in your .env".

(** [options.apiKey || env.VITE_GEMINI_API_KEY]. *)
Definition resolve_apiKey (options : ImageAnalysisOptions) (e : Env) : option string :=
  or_string (Some (apiKey options)) (VITE_GEMINI_API_KEY e).

(** [optBaseURL || env.VITE_GEMINI_BASE_URL || '...']. *)
Definition resolve_baseURL (options : ImageAnalysisOptions) (e : Env) : string :=
  default (or_string (or_string (baseURL options) (VITE_GEMINI_BASE_URL e)) (Some default_baseURL))
          default_baseURL.

(** The branch [if (!response.ok)]: always throws. *)
Definition fail_with_status {A} (response : Response) : M A :=
  let errorMessage :=
    "API request failed: " ++ string_of_nat (status response) ++ " " ++ statusText response in
  msg <- try_catch
           (errorData <- await (json response) ;;
            emit (Console ErrorLevel) ;;
            err <- prop (Some errorData) "error" ;;
            let m := opt_field err "message" in
            if truthy m then ret (toString m) else ret errorMessage)
           (fun _ => ret errorMessage) ;;
  throw (new_Error msg).

Definition no_content : Thrown := new_Error "No content in API response".
Definition invalid_json : Thrown := new_Error "API 返回的不是有效的 JSON 格式".

(** [requestBody] of [callGeminiAPIForJSON]. *)
Definition json_body (messages : list Message) (options : ImageAnalysisOptions) : RequestBody :=
  {| model := "gemini-2.5-flash-preview-09-2025";
     messages := messages;
     stream := false;
     Runtime.temperature := default (temperature options) "0.3";
     max_tokens := default (maxTokens options) 4096%Z;
     top_p := None;
     thinking := None;
     user_id := None;
     response_format := Some "json_object" |}.

(** [requestBody] of [callGeminiAPIForStream]. *)
Definition stream_body (messages : list Message) (options : ImageAnalysisOptions) : RequestBody :=
  {| model := "gemini-2.5-flash-preview-09-2025";
     messages := messages;
     stream := true;
     Runtime.temperature := default (temperature options) "0.7";
     max_tokens := default (maxTokens options) 4096%Z;
     top_p := None;
     thinking := None;
     user_id := None;
     response_format := None |}.

(** The POST to [`${baseURL}v1/chat/completions`] with the header
    [Authorization: `Bearer ${apiKey}`]. *)
Definition chat_post (baseURL : string) (apiKey : option string) (body : RequestBody) : Request :=
  Post (baseURL ++ "v1/chat/completions") ("Bearer " ++ default apiKey "undefined") body.

(** [choices?.[0]?.message?.content]. *)
Definition message_content (choices : value) : value :=
  opt_field (opt_field (opt_index0 choices) "message") "content".

Definition callGeminiAPIForJSON (messages : list Message) (options : ImageAnalysisOptions)
  : M JSON :=
  e <- get_env ;;
  let apiKey := resolve_apiKey options e in
  let baseURL := resolve_baseURL options e in
  if negb (string_truthy apiKey) then throw missing_key
  else
    try_catch
      (response <- fetch (chat_post baseURL apiKey (json_body messages options)) ;;
       (if negb (ok response) then fail_with_status response else ret tt) ;;
       data <- await (json response) ;;
       choices <- prop (Some data) "choices" ;;
       let content := message_content choices in
       if negb (truthy content) then throw no_content
       else
         try_catch (JSON_parse_value content)
                   (fun parseError => emit (Console ErrorLevel) ;; throw invalid_json))
      (fun error =>
         let errorObj := as_Error error in
         emit (OnError errorObj) ;; throw errorObj).

Definition callGeminiAPIForStream {A} (messages : list Message) (onChunk : JSON -> A -> A)
           (options : ImageAnalysisOptions) (acc : A) : M A :=
  e <- get_env ;;
  let apiKey := resolve_apiKey options e in
  let baseURL := resolve_baseURL options e in
  if negb (string_truthy apiKey) then throw missing_key
  else
    try_catch
      (response <- fetch (chat_post baseURL apiKey (stream_body messages options)) ;;
       (if negb (ok response) then fail_with_status response else ret tt) ;;
       Sse.read_body onChunk response acc)
      (fun error =>
         let errorObj := as_Error error in
         emit (OnError errorObj) ;; throw errorObj).

Definition user_text (t : Text) : list Message :=
  [{| role := user; content := Plain t |}].

Definition user_text_image (t : Text) (url : string) (d : Detail) : list Message :=
  [{| role := user; content := Parts [TextPart t; ImagePart url d] |}].

Definition analyzeIngredientsAllergens (ingredientsText : string) (userAllergens : list string)
           (options : ImageAnalysisOptions) : M JSON :=
  let allergensText := join "、" userAllergens in
  let prompt := Filled ingredientsPrompt [ingredientsText; allergensText] in
  callGeminiAPIForJSON (user_text prompt) options.

Definition analyzeMenuRecommendations (menuText : string) (userAllergens : list string)
           (options : ImageAnalysisOptions) : M JSON :=
  let allergensText := join "、" userAllergens in
  let prompt := Filled menuPrompt [menuText; allergensText] in
  callGeminiAPIForJSON (user_text prompt) options.

Definition analyzeFoodPhoto (imageUrl : string) (userAllergens : list string)
           (options : ImageAnalysisOptions) : M JSON :=
  let allergensText := join "、" userAllergens in
  let prompt := Filled foodPhotoPrompt [allergensText] in
  image <- convertImageToBase64 imageUrl ;;
  callGeminiAPIForJSON
    (user_text_image prompt (data_url image) (default (detail options) high)) options.

(** [SmartAnalysisResult]; [result] is [JNull] for [null]. *)
Record SmartAnalysisResult : Type := {
  imageType : value;
  confidence : value;
  result : JSON;
  errorMessage : option string
}.

(** [v === 'literal']. *)
Definition is_string (v : value) (s : string) : bool :=
  match v with
  | Some (JStr x) => String.eqb x s
  | _ => false
  end.

(** [chunk => { text += chunk }]. *)
Definition append_chunk (chunk : JSON) (text : string) : string :=
  text ++ JSON_toString chunk.

(** The message of the first step, [typeMessages]. *)
Definition typeMessages (image : EncodedImage) (options : ImageAnalysisOptions) : list Message :=
  user_text_image (Filled typePrompt []) (data_url image) (default (detail options) auto).

Definition smartAnalyzeImage (imageUrl : string) (userAllergens : list string)
           (options : ImageAnalysisOptions) : M SmartAnalysisResult :=
  image <- convertImageToBase64 imageUrl ;;
  try_catch
    (typeResult <- callGeminiAPIForJSON (typeMessages image options) options ;;
     emit (Console LogLevel) ;;
     tag <- prop (Some typeResult) "imageType" ;;
     if is_string tag "ingredients" then
       let extractMessages :=
         user_text_image (Filled extractIngredientsPrompt []) (data_url image) high in
       ingredientsText <- callGeminiAPIForStream extractMessages append_chunk options EmptyString ;;
       analysisResult <- analyzeIngredientsAllergens ingredientsText userAllergens options ;;
       imageType' <- prop (Some typeResult) "imageType" ;;
       confidence' <- prop (Some typeResult) "confidence" ;;
       ret {| imageType := imageType'; confidence := confidence';
              result := analysisResult; errorMessage := None |}
     else if is_string tag "menu" then
       let extractMessages :=
         user_text_image (Filled extractMenuPrompt []) (data_url image) high in
       menuText <- callGeminiAPIForStream extractMessages append_chunk options EmptyString ;;
       analysisResult <- analyzeMenuRecommendations menuText userAllergens options ;;
       imageType' <- prop (Some typeResult) "imageType" ;;
       confidence' <- prop (Some typeResult) "confidence" ;;
       ret {| imageType := imageType'; confidence := confidence';
              result := analysisResult; errorMessage := None |}
     else if is_string tag "food" then
       analysisResult <- analyzeFoodPhoto imageUrl userAllergens options ;;
       imageType' <- prop (Some typeResult) "imageType" ;;
       confidence' <- prop (Some typeResult) "confidence" ;;
       ret {| imageType := imageType'; confidence := confidence';
              result := analysisResult; errorMessage := None |}
     else
       confidence' <- prop (Some typeResult) "confidence" ;;
       reason <- prop (Some typeResult) "reason" ;;
       ret {| imageType := Some (JStr "unknown"); confidence := confidence';
              result := JNull;
              errorMessage := Some ("无法识别图片类型。" ++ toString reason) |})
    (fun error => emit (Console ErrorLevel) ;; throw error).

(** [analyzeAllergens], the streaming analysis kept for compatibility. *)
Definition analyzeAllergens {A} (imageUrl : string) (concernedAllergens : list string)
           (onChunk : JSON -> A -> A) (options : ImageAnalysisOptions) (acc : A) : M A :=
  let allergensText :=
    match concernedAllergens with
    | [] => "所有常见过敏原"
    | _ => join "、" concernedAllergens
    end in
  let prompt := Filled allergensPrompt (allergensText :: concernedAllergens) in
  image <- convertImageToBase64 imageUrl ;;
  callGeminiAPIForStream
    (user_text_image prompt (data_url image) (default (detail options) high))
    onChunk options acc.

End WithNumbers.
End GeminiApi.

(* ===================================================================== *)
(** * src/utils/llm.ts                                                    *)
(* ===================================================================== *)

Module Llm.
Import Js Json Runtime.
Local Open Scope js_scope.

(** [isValidImageFormat]. *)
Definition supportedFormats : list string :=
  ["image/jpeg"; "image/jpg"; "image/png"; "image/gif"; "image/webp"].

Definition isValidImageFormat (base64OrUrl : string) : bool :=
  if startsWith base64OrUrl "data:" then
    existsb (fun format => startsWith base64OrUrl ("data:" ++ format)) supportedFormats
  else if (startsWith base64OrUrl "http://" || startsWith base64OrUrl "https://")%bool then
    let ext :=
      match fst (pop (split "." base64OrUrl)) with
      | Some last => Some (toLowerCase last)
      | None => None
      end in
    includes ["jpg"; "jpeg"; "png"; "gif"; "webp"]
             (match ext with Some e => e | None => EmptyString end)
  else false.

Section WithNumbers.
Context {Num : JsNumber}.

(** A function that the caller passes as [onError] or [onComplete]. *)
Inductive Callback : Type := CallerFunction.

(** [CallGeminiOptions] and, with [detail], [ImageAnalysisOptions].
    [onError] and [onComplete] are the callback of the caller, or [None]
    when the options name none and the default of the destructuring runs
    in its place.  Either way an invocation is an event of the trace, as
    in gemini-api.ts; what the default then writes is told by
    [console_lines]. *)
Record ImageAnalysisOptions : Type := {
  apiKey : string;
  baseURL : option string;
  temperature : option number;
  maxTokens : option Z;
  topP : option number;
  thinking : option ThinkingConfig;
  user : option string;
  detail : option Detail;
  onError : option Callback;
  onComplete : option Callback
}.

(** The console lines that an event of a transport stands for: the line
    itself, or the line of the default that the invocation ran,
    [onError = (error) => console.error('Error:', error)] and
    [onComplete = () => console.log('Stream completed')].  What a callback
    of the caller writes is not the transport's. *)
Definition console_lines (options : ImageAnalysisOptions) (e : Event) : list Level :=
  match e with
  | Console level => [level]
  | OnError _ => match onError options with Some _ => [] | None => [ErrorLevel] end
  | OnComplete => match onComplete options with Some _ => [] | None => [LogLevel] end
  | _ => []
  end.

(** What a run that added [events] to the trace has written to the
    console. *)
Definition console_output (options : ImageAnalysisOptions) (events : list Event)
  : list Level :=
  flat_map (console_lines options) events.

Definition default {A} (a : option A) (d : A) : A :=
  match a with Some x => x | None => d end.

Definition default_baseURL : string := "https://meta-backend-sandbox.camscanner.com/us/".

(** [fileToBase64]: the FileReader result, or the rejection by [onerror]. *)
Definition fileToBase64 (file : Blob) : M string :=
  match readAsDataURL file with
  | Some result => ret result
  | None => throw (NonError "[object ProgressEvent]")
  end.

(** [urlToBase64]. *)
Definition urlToBase64 (url : string) : M string :=
  response <- fetch (Get url) ;;
  blob <- await (blob response) ;;
  fileToBase64 blob.

Definition api_key_required : Thrown := new_Error "API key is required".
Definition prompt_required : Thrown := new_Error "Prompt must be a non-empty string".
Definition messages_required : Thrown := new_Error "Messages array must not be empty".
Definition invalid_tuning : Thrown :=
  new_Error "max_tokens must be greater than thinking.budget_tokens".
Definition invalid_source : Thrown :=
  new_Error "Invalid image source: must be a valid URL or base64 string".
Definition unsupported_format : Thrown :=
  new_Error "Unsupported image format. Supported formats: JPEG, PNG, GIF, WebP".
Definition unsupported_formats : Thrown :=
  new_Error "One or more images have unsupported format".
Definition no_image : Thrown := new_Error "At least one image is required".

(** [thinking?.budget_tokens && thinking.budget_tokens >= maxTokens]. *)
Definition budget_exceeds (thinking : option ThinkingConfig) (maxTokens : Z) : bool :=
  match thinking with
  | Some t =>
      match budget_tokens t with
      | Some b => (negb (Z.eqb b 0) && Z.geb b maxTokens)%bool
      | None => false
      end
  | None => false
  end.

(** The branch [if (!response.ok)]: always throws.  The message of the
    provider is converted inside the [try]: one without a conversion is
    ignored like a body that is not JSON. *)
Definition fail_with_status {A} (response : Response) : M A :=
  let errorMessage :=
    "API request failed: " ++ string_of_nat (status response) ++ " " ++ statusText response in
  msg <- try_catch
           (errorData <- await (json response) ;;
            err <- prop (Some errorData) "error" ;;
            let m := opt_field err "message" in
            if truthy m
            then (text <- to_text m ;; ret (errorMessage ++ ". " ++ text))
            else ret errorMessage)
           (fun _ => ret errorMessage) ;;
  throw (new_Error msg).

(** The request body of both transports of this module. *)
Definition requestBody (messages : list Message) (options : ImageAnalysisOptions) : RequestBody :=
  {| model := "gemini-2.5-pro-002";
     messages := messages;
     stream := true;
     Runtime.temperature := default (temperature options) "0.7";
     max_tokens := default (maxTokens options) 8192%Z;
     top_p := topP options;
     Runtime.thinking := thinking options;
     user_id := match user options with
                | Some u => if String.eqb u EmptyString then None else Some u
                | None => None
                end;
     response_format := None |}.

(** From [try] to the end of both transports.  [onError(errorObj)] and,
    in the loop, [onComplete()] invoke the callback of the options or its
    default: the event is the invocation, [console_lines] the line that
    the default writes. *)
Definition send_stream {A} (messages : list Message) (onChunk : JSON -> A -> A)
           (options : ImageAnalysisOptions) (acc : A) : M A :=
  try_catch
    (response <- fetch (Post (default (baseURL options) default_baseURL ++ "v1/chat/completions")
                             ("Bearer " ++ apiKey options) (requestBody messages options)) ;;
     (if negb (ok response) then fail_with_status response else ret tt) ;;
     Sse.read_body onChunk response acc)
    (fun error =>
       let errorObj := as_Error error in
       emit (OnError errorObj) ;; throw errorObj).

(** [callGemini25Pro].  [prompt] is a string and [onChunk] a function by
    their types: of the two tests on them, only the one for the empty
    prompt can fail. *)
Definition callGemini25Pro {A} (prompt : string) (onChunk : JSON -> A -> A)
           (options : ImageAnalysisOptions) (acc : A) : M A :=
  if String.eqb (apiKey options) EmptyString then throw api_key_required
  else if String.eqb prompt EmptyString then throw prompt_required
  else if budget_exceeds (thinking options) (default (maxTokens options) 8192%Z)
  then throw invalid_tuning
  else send_stream [{| role := Runtime.user; content := Plain (Literal prompt) |}]
                   onChunk options acc.

(** [callGemini25ProWithHistory]. *)
Definition callGemini25ProWithHistory {A} (messages : list Message) (onChunk : JSON -> A -> A)
           (options : ImageAnalysisOptions) (acc : A) : M A :=
  if String.eqb (apiKey options) EmptyString then throw api_key_required
  else if Nat.eqb (List.length messages) 0 then throw messages_required
  else if budget_exceeds (thinking options) (default (maxTokens options) 8192%Z)
  then throw invalid_tuning
  else send_stream messages onChunk options acc.

(** [File | Blob | string]. *)
Inductive ImageSource : Type :=
| SourceString (s : string)
| SourceBlob (b : Blob).

Definition default_prompt : string := "请详细分析这张图片的内容".

(** [analyzeImage]. *)
Definition analyzeImage {A} (imageSource : ImageSource) (prompt : option string)
           (onChunk : JSON -> A -> A) (options : ImageAnalysisOptions) (acc : A) : M A :=
  imageUrl <-
    match imageSource with
    | SourceString s =>
        if (startsWith s "http://" || startsWith s "https://")%bool then ret s
        else if startsWith s "data:" then ret s
        else throw invalid_source
    | SourceBlob b => fileToBase64 b
    end ;;
  if negb (isValidImageFormat imageUrl) then throw unsupported_format
  else
    let messages :=
      [{| role := Runtime.user;
          content := Parts [TextPart (Literal (default prompt default_prompt));
                            ImagePart imageUrl (default (detail options) auto)] |}] in
    callGemini25ProWithHistory messages onChunk options acc.

(** The loop [for (const source of imageSources)] of [analyzeMultipleImages]. *)
Fixpoint to_urls (imageSources : list ImageSource) : M (list string) :=
  match imageSources with
  | [] => ret []
  | SourceString s :: rest => urls <- to_urls rest ;; ret (s :: urls)
  | SourceBlob b :: rest =>
      base64 <- fileToBase64 b ;; urls <- to_urls rest ;; ret (base64 :: urls)
  end.

(** [analyzeMultipleImages]. *)
Definition analyzeMultipleImages {A} (imageSources : list ImageSource) (prompt : option string)
           (onChunk : JSON -> A -> A) (options : ImageAnalysisOptions) (acc : A) : M A :=
  if Nat.eqb (List.length imageSources) 0 then throw no_image
  else
    imageUrls <- to_urls imageSources ;;
    if negb (forallb isValidImageFormat imageUrls) then throw unsupported_formats
    else
      let contentParts :=
        (TextPart (Literal (default prompt "请分析这些图片"))
         :: map (fun url => ImagePart url (default (detail options) auto)) imageUrls)%list in
      callGemini25ProWithHistory
        [{| role := Runtime.user; content := Parts contentParts |}] onChunk options acc.

End WithNumbers.
(** [imageConversation].  [messages] is a copy of the history, but its
    last element is the caller's object: when the user wrote it, its
    content is replaced in place by an array of parts, the parts it had
    (a string content becoming one text part) followed by one image part
    per source. *)
Definition attach_images (imageUrls : list string) (d : Detail) (history : list Message)
  : list Message :=
  match pop history with
  | (Some lastMessage, front) =>
      match role lastMessage with
      | Runtime.user =>
          let parts :=
            match content lastMessage with
            | Plain text => [TextPart text]
            | Parts parts => parts
            end in
          (front ++ [{| role := Runtime.user;
                        content := Parts (parts ++ map (fun url => ImagePart url d) imageUrls) |}])%list
      | _ => history
      end
  | (None, _) => history
  end.

Definition imageConversation {Num : JsNumber} {A : Type} (imageSources : list ImageSource)
           (conversationHistory : list Message) (onChunk : JSON -> A -> A)
           (options : ImageAnalysisOptions) (acc : A) : M A :=
  imageUrls <- to_urls imageSources ;;
  callGemini25ProWithHistory
    (attach_images imageUrls (default (detail options) auto) conversationHistory)
    onChunk options acc.

End Llm.

(* ===================================================================== *)
(** * src/components/analysis-result.vue                                  *)
(* ===================================================================== *)

(** The script of the component that runs the analysis and shows its
    outcome.  Its refs are the fields of [State]; the callbacks [onError]
    and [onComplete] that it hands to [smartAnalyzeImage] act on these
    refs only, so their effect is that of [on_callback] on the events
    that the call has added to the trace, in order. *)
Module AnalysisResult.
Import Js Json Runtime.

(** The calls of [ElMessage] and of [console.error] made by the script. *)
Inductive Notice : Type :=
| MessageError (text : string)
| MessageSuccess (text : string)
| MessageWarning (text : string)
| ConsoleError.

(** [defineProps]. *)
Record Props : Type := {
  imageUrl : option string;
  allergens : option string
}.

(** [import.meta.env.VITE_DASHSCOPE_API_KEY] and [..._BASE_URL], read
    once when the script is set up. *)
Record Setup : Type := {
  API_KEY : option string;
  BASE_URL : option string
}.

(** The refs.  [errorMessage] is [None] when it holds [undefined]. *)
Record State : Type := {
  allergenList : list string;
  isAnalyzing : bool;
  analysisResult : option GeminiApi.SmartAnalysisResult;
  errorMessage : option string;
  notices : list Notice
}.

Definition initial : State :=
  {| allergenList := []; isAnalyzing := true; analysisResult := None;
     errorMessage := Some EmptyString; notices := [] |}.

Definition set_allergenList (l : list string) (st : State) : State :=
  {| allergenList := l; isAnalyzing := isAnalyzing st; analysisResult := analysisResult st;
     errorMessage := errorMessage st; notices := notices st |}.

Definition set_isAnalyzing (b : bool) (st : State) : State :=
  {| allergenList := allergenList st; isAnalyzing := b; analysisResult := analysisResult st;
     errorMessage := errorMessage st; notices := notices st |}.

Definition set_analysisResult (r : option GeminiApi.SmartAnalysisResult) (st : State) : State :=
  {| allergenList := allergenList st; isAnalyzing := isAnalyzing st; analysisResult := r;
     errorMessage := errorMessage st; notices := notices st |}.

Definition set_errorMessage (m : option string) (st : State) : State :=
  {| allergenList := allergenList st; isAnalyzing := isAnalyzing st;
     analysisResult := analysisResult st; errorMessage := m; notices := notices st |}.

Definition notify (n : Notice) (st : State) : State :=
  {| allergenList := allergenList st; isAnalyzing := isAnalyzing st;
     analysisResult := analysisResult st; errorMessage := errorMessage st;
     notices := (notices st ++ [n])%list |}.

(** [error.message]. *)
Definition message (error : Thrown) : option string :=
  match error with
  | Exn _ m => Some m
  | NonError _ => None
  end.

(** A string that may be undefined, in a concatenation. *)
Definition text_of (s : option string) : string :=
  match s with Some t => t | None => "undefined" end.

Definition missing_key_text : string :=
  "未配置 API 密钥，请在 .env 中设置 VITE_DASHSCOPE_API_KEY".

(** The callbacks of the options: [onError] and [onComplete]. *)
Definition onError (error : Thrown) (st : State) : State :=
  notify (MessageError ("分析失败：" ++ text_of (message error)))
    (set_errorMessage (message error) (notify ConsoleError st)).

Definition onComplete (st : State) : State :=
  let st1 := set_isAnalyzing false st in
  if GeminiApi.string_truthy (errorMessage st1) then st1
  else notify (MessageSuccess "分析完成") st1.

Definition on_callback (st : State) (e : Event) : State :=
  match e with
  | OnError error => onError error st
  | OnComplete => onComplete st
  | _ => st
  end.

(** The events that a call has added to the trace of [w]. *)
Definition added (w w' : World) : list Event :=
  skipn (List.length (trace w)) (trace w').

Section WithNumbers.
Context {Num : JsNumber}.

(** The options of the call in [performAnalysis]. *)
Definition analysis_options (key : string) (setup : Setup) : GeminiApi.ImageAnalysisOptions :=
  {| GeminiApi.apiKey := key;
     GeminiApi.baseURL := BASE_URL setup;
     GeminiApi.temperature := Some "0.3";
     GeminiApi.maxTokens := Some 4096%Z;
     GeminiApi.detail := Some high |}.

(** [performAnalysis]. *)
Definition performAnalysis (setup : Setup) (props : Props) (st : State) (w : World)
  : State * World :=
  match imageUrl props with
  | None => (st, w)
  | Some url =>
      if String.eqb url EmptyString then (st, w)
      else
        let st1 := set_errorMessage (Some EmptyString)
                     (set_analysisResult None (set_isAnalyzing true st)) in
        match API_KEY setup with
        | Some key =>
            if String.eqb key EmptyString
            then (notify (MessageError missing_key_text)
                    (set_errorMessage (Some missing_key_text) (set_isAnalyzing false st1)), w)
            else
              let (outcome, w') :=
                GeminiApi.smartAnalyzeImage url (allergenList st1)
                  (analysis_options key setup) w in
              let st2 := fold_left on_callback (added w w') st1 in
              match outcome with
              | Return result =>
                  let st3 := set_isAnalyzing false (set_analysisResult (Some result) st2) in
                  if (GeminiApi.is_string (GeminiApi.imageType result) "unknown"
                      || negb (truthy (Some (GeminiApi.result result))))%bool
                  then (notify (MessageWarning "未能识别图片内容")
                          (set_errorMessage
                             (GeminiApi.or_string (GeminiApi.errorMessage result)
                                (Some "无法识别图片类型")) st3), w')
                  else (st3, w')
              | Throw error =>
                  (notify (MessageError "分析出错，请重试")
                     (set_errorMessage
                        (match error with
                         | Exn _ m => Some m
                         | NonError _ => Some "分析失败"
                         end)
                        (set_isAnalyzing false (notify ConsoleError st2))), w')
              end
        | None =>
            (notify (MessageError missing_key_text)
               (set_errorMessage (Some missing_key_text) (set_isAnalyzing false st1)), w)
        end
  end.

(** The hook [onMounted]. *)
Definition onMounted (setup : Setup) (props : Props) (st : State) (w : World)
  : State * World :=
  let st1 :=
    match allergens props with
    | Some a =>
        if String.eqb a EmptyString then st
        else set_allergenList
               (filter (fun s => negb (String.eqb s EmptyString)) (map trim (split "," a))) st
    | None => st
    end in
  if GeminiApi.string_truthy (imageUrl props) then performAnalysis setup props st1 w
  else (set_errorMessage (Some "未提供图片") (set_isAnalyzing false st1), w).

End WithNumbers.

(** The panel that the template shows. *)
Inductive Panel : Type :=
| Analyzing
| ErrorState (text : string)
| ResultContent (result : GeminiApi.SmartAnalysisResult)
| Nothing.

Definition panel (st : State) : Panel :=
  if isAnalyzing st then Analyzing
  else if GeminiApi.string_truthy (errorMessage st) then ErrorState (text_of (errorMessage st))
  else match analysisResult st with
       | Some r => ResultContent r
       | None => Nothing
       end.

Definition is_success (n : Notice) : bool :=
  match n with MessageSuccess _ => true | _ => false end.

End AnalysisResult.

(* ===================================================================== *)
(** * Platform: URLSearchParams, location.hash                            *)
(* ===================================================================== *)

Module Url.
Import Js Json.

(** The bytes that the serializer of application/x-www-form-urlencoded
    leaves as they are: ASCII letters and digits, [*], [-], [.], [_]. *)
Definition unreserved (c : ascii) : bool :=
  let n := nat_of_ascii c in
  ((Nat.leb 48 n && Nat.leb n 57) || (Nat.leb 65 n && Nat.leb n 90)
   || (Nat.leb 97 n && Nat.leb n 122)
   || Ascii.eqb c "*" || Ascii.eqb c "-" || Ascii.eqb c "." || Ascii.eqb c "_")%bool.

(** An upper-case hexadecimal digit. *)
Definition hex_char (n : nat) : ascii :=
  if Nat.ltb n 10 then ascii_of_nat (48 + n) else ascii_of_nat (55 + n).

Definition percent (c : ascii) : string :=
  String "%" (String (hex_char (nat_of_ascii c / 16))
                     (String (hex_char (nat_of_ascii c mod 16)) EmptyString)).

Definition encode_byte (c : ascii) : string :=
  if unreserved c then String c EmptyString
  else if Ascii.eqb c " " then "+"
  else percent c.

Fixpoint encode (s : string) : string :=
  match s with
  | EmptyString => EmptyString
  | String c r => encode_byte c ++ encode r
  end.

(** [new URLSearchParams(record).toString()]. *)
Definition toString (params : list (string * string)) : string :=
  join "&" (map (fun p => encode (fst p) ++ "=" ++ encode (snd p)) params).

(** Every [+] becomes a space, every [%] that two hexadecimal digits
    follow becomes the byte they denote. *)
Fixpoint decode (s : string) : string :=
  match s with
  | EmptyString => EmptyString
  | String c r0 =>
      if Ascii.eqb c "%" then
        match r0 with
        | String a (String b r) =>
            match hex_digit a, hex_digit b with
            | Some x, Some y => String (ascii_of_N (x * 16 + y)) (decode r)
            | _, _ => String c (decode r0)
            end
        | _ => String c (decode r0)
        end
      else String (if Ascii.eqb c "+" then " "%char else c) (decode r0)
  end.

(** A piece at its first [sep]: what is before, what is behind. *)
Fixpoint break_at (sep : ascii) (s : string) : string * string :=
  match s with
  | EmptyString => (EmptyString, EmptyString)
  | String c r =>
      if Ascii.eqb c sep then (EmptyString, r)
      else let (a, b) := break_at sep r in (String c a, b)
  end.

(** [new URLSearchParams(text)]: one leading [?] is dropped; the pieces
    between the [&] that are not empty give a name and a value each. *)
Definition parse (text : string) : list (string * string) :=
  let input := match text with
               | String c r => if Ascii.eqb c "?" then r else text
               | EmptyString => text
               end in
  map (fun piece => let (n, v) := break_at "=" piece in (decode n, decode v))
      (filter (fun piece => negb (String.eqb piece EmptyString)) (split "&" input)).

(** [params.get(name)]: the first value under the name; [None] is null. *)
Fixpoint get (name : string) (params : list (string * string)) : option string :=
  match params with
  | [] => None
  | (n, v) :: rest => if String.eqb n name then Some v else get name rest
  end.

(** The fragment percent-encode set: the C0 controls, space, the double
    quote, [<], [>], the backquote, and everything above [~]. *)
Definition fragment_encoded (c : ascii) : bool :=
  let n := nat_of_ascii c in
  (Nat.leb n 32 || Nat.leb 127 n || Nat.eqb n 34 || Nat.eqb n 60 || Nat.eqb n 62
   || Nat.eqb n 96)%bool.

Fixpoint fragment (s : string) : string :=
  match s with
  | EmptyString => EmptyString
  | String c r =>
      let n := nat_of_ascii c in
      if (Nat.eqb n 9 || Nat.eqb n 10 || Nat.eqb n 13)%bool then fragment r
      else if fragment_encoded c then percent c ++ fragment r
      else String c (fragment r)
  end.

(** What [window.location.hash] reads after [window.location.hash = value]:
    one leading [#] of the value is dropped, tabs and line ends are removed
    and the fragment is percent-encoded; an empty fragment reads as the
    empty string. *)
Definition hash_after (value : string) : string :=
  let input := match value with
               | String c r => if Ascii.eqb c "#" then r else value
               | EmptyString => value
               end in
  match fragment input with
  | EmptyString => EmptyString
  | f => String "#" f
  end.

End Url.

(* ===================================================================== *)
(** * Platform: JSON.stringify of a record of strings, localStorage       *)
(* ===================================================================== *)

Module JsonText.
Import Js Json.

(** A lower-case hexadecimal digit. *)
Definition hex_lower (n : nat) : ascii :=
  if Nat.ltb n 10 then ascii_of_nat (48 + n) else ascii_of_nat (87 + n).

(** QuoteJSONString on one byte: the quote and the backslash get a
    backslash, the control characters their short escape or [\u00xx]. *)
Definition escape_byte (c : ascii) : string :=
  let n := nat_of_ascii c in
  if Ascii.eqb c dquote then String "\" (String dquote EmptyString)
  else if Ascii.eqb c "\" then "\\"
  else if Nat.eqb n 8 then "\b"
  else if Nat.eqb n 12 then "\f"
  else if Nat.eqb n 10 then "\n"
  else if Nat.eqb n 13 then "\r"
  else if Nat.eqb n 9 then "\t"
  else if Nat.ltb n 32
       then "\u00" ++ String (hex_lower (n / 16)) (String (hex_lower (n mod 16)) EmptyString)
  else String c EmptyString.

Fixpoint escape (s : string) : string :=
  match s with
  | EmptyString => EmptyString
  | String c r => escape_byte c ++ escape r
  end.

(** [JSON.stringify] of a string. *)
Definition quote (s : string) : string :=
  String dquote (escape s ++ String dquote EmptyString).

(** [JSON.stringify] of an object whose own properties, in the order of
    their creation, are the strings [members]. *)
Fixpoint more_members (members : list (string * string)) : string :=
  match members with
  | [] => "}"
  | (k, v) :: rest => "," ++ quote k ++ ":" ++ quote v ++ more_members rest
  end.

Definition stringify_record (members : list (string * string)) : string :=
  match members with
  | [] => "{}"
  | (k, v) :: rest => "{" ++ quote k ++ ":" ++ quote v ++ more_members rest
  end.

(** The value that such an object is for [JSON.parse]. *)
Definition record_value (members : list (string * string)) : JSON :=
  JObj (map (fun p => (fst p, JStr (snd p))) members).

(** [localStorage]: the items, latest first. *)
Definition Storage : Type := list (string * string).

Fixpoint getItem (key : string) (items : Storage) : option string :=
  match items with
  | [] => None
  | (k, v) :: rest => if String.eqb k key then Some v else getItem key rest
  end.

Definition removeItem (key : string) (items : Storage) : Storage :=
  filter (fun item => negb (String.eqb (fst item) key)) items.

Definition setItem (key value : string) (items : Storage) : Storage :=
  (key, value) :: removeItem key items.

End JsonText.

(* ===================================================================== *)
(** * src/components/upload-image.vue                                     *)
(* ===================================================================== *)

Module UploadImage.
Import Js Json.

(** An entry of [allergensList] (its icon and colour are only shown). *)
Record Allergen : Type := { id : string; name : string }.

Definition allergensList : list Allergen :=
  [ {| id := "milk"; name := "牛奶" |};
    {| id := "eggs"; name := "鸡蛋" |};
    {| id := "fish"; name := "鱼类" |};
    {| id := "shellfish"; name := "贝类" |};
    {| id := "tree-nuts"; name := "坚果" |};
    {| id := "peanuts"; name := "花生" |};
    {| id := "wheat"; name := "小麦" |};
    {| id := "soybeans"; name := "大豆" |};
    {| id := "sesame"; name := "芝麻" |};
    {| id := "gluten"; name := "麸质" |} ].

(** [Array.prototype.indexOf]: [None] is -1. *)
Fixpoint indexOf (x : string) (l : list string) : option nat :=
  match l with
  | [] => None
  | y :: r => if String.eqb y x then Some 0
              else match indexOf x r with
                   | Some i => Some (S i)
                   | None => None
                   end
  end.

(** [splice(index, 1)]. *)
Fixpoint splice1 (index : nat) (l : list string) : list string :=
  match index, l with
  | _, [] => []
  | O, _ :: r => r
  | S i, y :: r => y :: splice1 i r
  end.

(** [toggleAllergen], on the value of [selectedAllergens]. *)
Definition toggleAllergen (allergenId : string) (selectedAllergens : list string)
  : list string :=
  match indexOf allergenId selectedAllergens with
  | Some index => splice1 index selectedAllergens
  | None => (selectedAllergens ++ [allergenId])%list
  end.

(** [isSelected]. *)
Definition isSelected (allergenId : string) (selectedAllergens : list string) : bool :=
  includes selectedAllergens allergenId.

(** What [beforeUpload] reads of the file. *)
Record RawFile : Type := { file_type : string; size : N }.

(** [rawFile.size / 1024 / 1024 > 10], with the quotient as a rational
    (a division of a double by a power of two is exact). *)
Definition over_10_MB (f : RawFile) : bool :=
  negb (QArith_base.Qle_bool
          (QArith_base.Qdiv
             (QArith_base.Qdiv (QArith_base.inject_Z (Z.of_N (size f)))
                               (QArith_base.inject_Z 1024))
             (QArith_base.inject_Z 1024))
          (QArith_base.inject_Z 10)).

(** [beforeUpload]: whether the upload goes on, and the error shown. *)
Definition beforeUpload (rawFile : RawFile) : bool * option string :=
  if negb (startsWith (file_type rawFile) "image/") then (false, Some "只能上传图片文件!")
  else if over_10_MB rawFile then (false, Some "图片大小不能超过 10MB!")
  else (true, None).

(** [allergensList.find(a => a.id === id)?.name]. *)
Definition name_of (allergenId : string) : option string :=
  match find (fun a => String.eqb (id a) allergenId) allergensList with
  | Some a => Some (name a)
  | None => None
  end.

(** [.map(id => ...).filter(Boolean)]: the names that are there and not
    empty. *)
Fixpoint selected_names (selectedAllergens : list string) : list string :=
  match selectedAllergens with
  | [] => []
  | allergenId :: rest =>
      match name_of allergenId with
      | Some n => if String.eqb n EmptyString then selected_names rest
                  else n :: selected_names rest
      | None => selected_names rest
      end
  end.

(** [allergenNames] and [targetHash] of [processFile]; [imageUrl] is what
    [URL.createObjectURL] gave. *)
Definition allergenNames (selectedAllergens : list string) : string :=
  join "," (selected_names selectedAllergens).

Definition targetHash (imageUrl : string) (selectedAllergens : list string) : string :=
  "#analysis?" ++ Url.toString [("image", imageUrl);
                                ("allergens", allergenNames selectedAllergens)].

End UploadImage.

(* ===================================================================== *)
(** * src/App.vue and the tabs of src/views/Home.vue                      *)
(* ===================================================================== *)

Module App.
Import Js Json.

Inductive Page : Type := home | analysis.

Record PageParams : Type := { image : option string; allergens : option string }.

Record State : Type := { currentPage : Page; pageParams : PageParams }.

(** [v || undefined] on what [get] gave. *)
Definition or_undefined (v : option string) : option string :=
  match v with
  | Some s => if String.eqb s EmptyString then None else Some s
  | None => None
  end.

(** [handleHashChange], on what [window.location.hash] reads. *)
Definition handleHashChange (location_hash : string) : State :=
  let hash := slice 1 location_hash in
  if startsWith hash "analysis" then
    let query := match nth_error (split "?" hash) 1 with
                 | Some text => text
                 | None => EmptyString
                 end in
    let params := Url.parse query in
    {| currentPage := analysis;
       pageParams := {| image := or_undefined (Url.get "image" params);
                        allergens := or_undefined (Url.get "allergens" params) |} |}
  else {| currentPage := home; pageParams := {| image := None; allergens := None |} |}.

End App.

Module Home.
Import Js Json.

Inductive TabType : Type := home | records | ai.

Definition tab_name (tab : TabType) : string :=
  match tab with home => "home" | records => "records" | ai => "ai" end.

(** [handleHashChange]: the tab after the change. *)
Definition handleHashChange (location_hash : string) (currentTab : TabType) : TabType :=
  let hash := slice 1 location_hash in
  if startsWith hash "analysis" then currentTab
  else if String.eqb hash "records" then records
  else if String.eqb hash "ai" then ai
  else if (String.eqb hash EmptyString || String.eqb hash "home")%bool then home
  else currentTab.

(** [switchTab]: the tab, and what the hash reads afterwards. *)
Definition switchTab (tab : TabType) : TabType * string :=
  (tab, Url.hash_after (match tab with home => EmptyString | _ => tab_name tab end)).

(** [Region] of region-selector.vue. *)
Record Region : Type := {
  code : string;
  flag : string;
  name : string;
  description : string
}.

(** The own properties of a region, in the order of the literal. *)
Definition region_members (region : Region) : list (string * string) :=
  [("code", code region); ("flag", flag region); ("name", name region);
   ("description", description region)].

(** The refs of Home.vue; [selectedRegion] is [JNull] for null, and what
    [JSON.parse] gave after a mount. *)
Record State : Type := { currentTab : TabType; selectedRegion : JSON }.

Definition initial : State := {| currentTab := home; selectedRegion := JNull |}.

(** The hook [onMounted]: the region saved, then the tab of the hash. *)
Definition onMounted (items : JsonText.Storage) (location_hash : string) (st : State) : State :=
  let region :=
    match JsonText.getItem "selectedRegion" items with
    | Some savedRegion =>
        if String.eqb savedRegion EmptyString then selectedRegion st
        else match JSON_parse savedRegion with
             | Some v => v
             | None => selectedRegion st
             end
    | None => selectedRegion st
    end in
  {| currentTab := handleHashChange location_hash (currentTab st); selectedRegion := region |}.

(** [handleRegionSelect] and [resetRegion], on the refs and the storage. *)
Definition handleRegionSelect (region : Region) (st : State) (items : JsonText.Storage)
  : State * JsonText.Storage :=
  ({| currentTab := currentTab st;
      selectedRegion := JsonText.record_value (region_members region) |},
   JsonText.setItem "selectedRegion" (JsonText.stringify_record (region_members region)) items).

Definition resetRegion (st : State) (items : JsonText.Storage) : State * JsonText.Storage :=
  ({| currentTab := currentTab st; selectedRegion := JNull |},
   JsonText.removeItem "selectedRegion" items).

End Home.

(* ===================================================================== *)
(** * Vocabulary of the properties, sample worlds                         *)
(* ===================================================================== *)

Module Spec.
Import Js Json Runtime.

(** The data URI [data:<mime>;base64,<payload>]. *)
Definition data_uri (mime payload : string) : string :=
  "data:" ++ mime ++ ";base64," ++ payload.

(** The media type [<mime>] without its parameters: what stands before
    its first [;]. *)
Definition without_parameters (mime : string) : string := hd EmptyString (split ";" mime).

(** The media type that the encoder gives back for [<mime>]. *)
Definition decoded_media_type (mime : string) : string :=
  if String.eqb mime EmptyString then "image/jpeg" else without_parameters mime.

Section WithNumbers.
Context {Num : JsNumber}.

(** The world after [m]. *)
Definition after {A} (m : M A) (w : World) : World := snd (m w).
Definition outcome {A} (m : M A) (w : World) : Result A := fst (m w).

(** [w] with [events] added to its trace. *)
Definition logged (w : World) (events : list Event) : World :=
  {| env := env w; network := network w; trace := (trace w ++ events)%list |}.

(** [w] after one reply of the network was consumed by [request]. *)
Definition consumed (w : World) (request : Request) : World :=
  {| env := env w; network := tl (network w); trace := (trace w ++ [Fetch request])%list |}.

(** The four documented values of [SmartAnalysisResult.imageType]. *)
Definition documented_imageType (v : value) : Prop :=
  v = Some (JStr "ingredients") \/ v = Some (JStr "menu")
  \/ v = Some (JStr "food") \/ v = Some (JStr "unknown").

(** The three values of [imageType] that have an analysis. *)
Definition analysed_type (tag : value) : bool :=
  (GeminiApi.is_string tag "ingredients" || GeminiApi.is_string tag "menu"
   || GeminiApi.is_string tag "food")%bool.

(** The terminal result for an image that is not analysed. *)
Definition unknown_result (typeResult : JSON) : GeminiApi.SmartAnalysisResult :=
  {| GeminiApi.imageType := Some (JStr "unknown");
     GeminiApi.confidence := field typeResult "confidence";
     GeminiApi.result := JNull;
     GeminiApi.errorMessage :=
       Some ("无法识别图片类型。" ++ toString (field typeResult "reason")) |}.

(** A string that [analyzeImage] takes for a URL or a data URI. *)
Definition is_url_or_data_uri (s : string) : bool :=
  (startsWith s "http://" || startsWith s "https://" || startsWith s "data:")%bool.

(** The text on which [analyzeImage] checks the format: the string itself,
    or the data URL that the FileReader makes of a blob. *)
Definition source_text (imageSource : Llm.ImageSource) : option string :=
  match imageSource with
  | Llm.SourceString s => Some s
  | Llm.SourceBlob b => readAsDataURL b
  end.


Definition image_unloadable : Thrown := new_Error "无法加载图片".
Definition reader_event : Thrown := NonError "[object ProgressEvent]".

End WithNumbers.

(** The request that [callGeminiAPIForJSON] sends in the environment [e]. *)
Definition json_request (messages : list Message) (options : GeminiApi.ImageAnalysisOptions)
    (e : Env) : Request :=
  GeminiApi.chat_post (GeminiApi.resolve_baseURL options e) (GeminiApi.resolve_apiKey options e)
                      (GeminiApi.json_body messages options).

(** The request that [callGeminiAPIForStream] sends in the environment [e]. *)
Definition stream_request (messages : list Message) (options : GeminiApi.ImageAnalysisOptions)
    (e : Env) : Request :=
  GeminiApi.chat_post (GeminiApi.resolve_baseURL options e) (GeminiApi.resolve_apiKey options e)
                      (GeminiApi.stream_body messages options).

(** The complete lines of a buffer and what follows the last separator. *)
Fixpoint cut (sep : ascii) (s : string) : list string * string :=
  match s with
  | EmptyString => ([], EmptyString)
  | String c r =>
      let (ls, rem) := cut sep r in
      if Ascii.eqb c sep then (EmptyString :: ls, rem)
      else match ls with
           | [] => ([], String c rem)
           | l :: ls' => (String c l :: ls', rem)
           end
  end.

(** The trace is only written:

    A computation is [framed] when it does not look at the trace it
    extends: on a world with the trace [tr] it does what it does on the
    same world with an empty trace, [tr] being put in front. *)

Definition with_history (tr : list Event) {X : Type} (p : Result X * World) : Result X * World :=
  (fst p, {| env := env (snd p); network := network (snd p);
             trace := (tr ++ trace (snd p))%list |}).

Definition framed {X : Type} (m : M X) : Prop :=
  forall en net tr,
    m {| env := en; network := net; trace := tr |}
    = with_history tr (m {| env := en; network := net; trace := [] |}).


(** The three outcomes of a streaming transport, as far as its callbacks
    go: no [onError] at all, and at least one [onComplete] if the call
    returns; or one [onError], last, with the error thrown. *)
Definition callbacks_in_order {A : Type} (res : Result A) (events : list Event) : Prop :=
  (count is_error events = 0 /\ forall a, res = Return a -> 1 <= count is_complete events)
  \/ exists before e,
       events = (before ++ [OnError e])%list /\ count is_error before = 0 /\ res = Throw e.

(** ** Vocabulary of the transports *)

(** A request for a streamed answer. *)
Definition is_stream_call (e : Event) : bool :=
  match e with Fetch (Post _ _ b) => stream b | _ => false end.

(** [`API request failed: ${response.status} ${response.statusText}`]. *)
Definition status_line (resp : Response) : string :=
  "API request failed: " ++ string_of_nat (status resp) ++ " " ++ statusText resp.

(** [errorData.error?.message] of a reply, when the body is JSON, not null,
    and the message is truthy. *)
Definition provider_message {Num : JsNumber} (resp : Response) : option string :=
  match json resp with
  | Fulfilled JNull => None
  | Fulfilled data =>
      let m := opt_field (field data "error") "message" in
      if truthy m then Some (toString m) else None
  | Rejected _ => None
  end.

(** The request that both transports of llm.ts send. *)
Definition llm_request (messages : list Message) (options : Llm.ImageAnalysisOptions) : Request :=
  Post (Llm.default (Llm.baseURL options) Llm.default_baseURL ++ "v1/chat/completions")
       ("Bearer " ++ Llm.apiKey options) (Llm.requestBody messages options).

(** The error that the transports of gemini-api.ts make of a reply that is
    not 2xx: the message of the provider when there is one, the status
    line otherwise. *)
Definition gemini_http_error {Num : JsNumber} (resp : Response) : Thrown :=
  new_Error (match provider_message resp with
             | Some m => m
             | None => status_line resp
             end).

(** The message that llm.ts adds to the status line: as above, and it
    must have a string conversion (the template literal that converts it
    stands inside the [try]). *)
Definition added_message {Num : JsNumber} (resp : Response) : option string :=
  match json resp with
  | Fulfilled JNull => None
  | Fulfilled data =>
      let m := opt_field (field data "error") "message" in
      if (truthy m && converts m)%bool then Some (toString m) else None
  | Rejected _ => None
  end.

(** The same for llm.ts: the status line, followed by the message of the
    provider when there is one. *)
Definition llm_http_error {Num : JsNumber} (resp : Response) : Thrown :=
  new_Error (match added_message resp with
             | Some m => status_line resp ++ ". " ++ m
             | None => status_line resp
             end).

(** An event of reading a stream body: an invocation of [onChunk] with a
    truthy chunk, an invocation of [onComplete], a console line. *)
Definition stream_event {Num : JsNumber} (e : Event) : bool :=
  match e with
  | OnChunk chunk => truthy (Some chunk)
  | OnComplete | Console _ => true
  | _ => false
  end.

(** The lines that the loop has in full once [text] was read: what is
    behind the last line feed is not among them. *)
Definition complete_lines (text : string) : list string := fst (cut (byte 10) text).

(** A line that the loop acts on: trimmed, it starts with `data: '. *)
Definition is_data_line (line : string) : bool := startsWith (trim line) "data: ".

(** The payloads of the data lines of a text, in order. *)
Definition payloads (text : string) : list string :=
  map (fun line => slice 6 (trim line)) (filter is_data_line (complete_lines text)).

(** The reply [resp] in front of the replies [rest], in a world. *)
Definition world_with (en : Env) (resp : Response) (rest : list (Settled Response))
    (tr : list Event) : World :=
  {| env := en; network := Fulfilled resp :: rest; trace := tr |}.

(** How a streaming transport ends once it has sent [request] from the
    world [w]: the request consumed one reply; then come the events of
    reading the body; a call that returns has invoked [onComplete]; a call
    that throws has invoked [onError] with what it throws, last. *)
Definition stream_run {Num : JsNumber} {A : Type} (w : World) (request : Request)
    (res : Result A) (w' : World) : Prop :=
  exists callbacks,
    forallb stream_event callbacks = true
    /\ ((exists a, res = Return a /\ w' = logged (consumed w request) callbacks
                   /\ 1 <= count is_complete callbacks)
        \/ (exists e, res = Throw e
                      /\ w' = logged (consumed w request) (callbacks ++ [OnError e])%list)).

(** The loop of [process_lines], seen on the payloads of the data lines. *)
Fixpoint run_payloads {Num : JsNumber} {A : Type} (onChunk : JSON -> A -> A)
    (data_lines : list string) (acc : A) : M (bool * A) :=
  match data_lines with
  | [] => ret (false, acc)
  | data :: rest =>
      if String.eqb data "[DONE]"
      then bind (emit OnComplete) (fun _ => ret (true, acc))
      else bind (Sse.handle_data onChunk data acc) (fun acc' => run_payloads onChunk rest acc')
  end.

(** ** Vocabulary of the navigation *)

(** Every byte of [s] satisfies [p]. *)
Fixpoint every (p : ascii -> bool) (s : string) : bool :=
  match s with
  | EmptyString => true
  | String c r => (p c && every p r)%bool
  end.

(** The bytes that the serializer of [URLSearchParams] writes. *)
Definition form_char (c : ascii) : bool :=
  (Url.unreserved c || Ascii.eqb c "+" || Ascii.eqb c "%")%bool.

(** The bytes that the setter of the hash leaves as they are. *)
Definition fragment_char (c : ascii) : bool :=
  let n := nat_of_ascii c in
  negb (Nat.eqb n 9 || Nat.eqb n 10 || Nat.eqb n 13 || Url.fragment_encoded c)%bool.

(** A name of the list of allergens as the two components need it: not
    empty, without a comma, and left as it is by [trim]. *)
Definition plain_name (n : string) : bool :=
  (negb (String.eqb n EmptyString) && negb (occurs "," n) && String.eqb (trim n) n)%bool.

(** The tokens of the members of a record of strings that follow the
    first, and the closing brace. *)
Fixpoint more_tokens (members : list (string * string)) : list Token :=
  match members with
  | [] => [TRBrace]
  | (k, v) :: rest => TComma :: TStr k :: TColon :: TStr v :: more_tokens rest
  end.

(** The unit that the lexer reads for a byte that [JSON.stringify] wrote. *)
Definition written_unit (c : ascii) : SUnit :=
  let n := nat_of_ascii c in
  if (Nat.ltb n 32 && negb (Nat.eqb n 8 || Nat.eqb n 9 || Nat.eqb n 10 || Nat.eqb n 12
                            || Nat.eqb n 13))%bool
  then Esc (N.of_nat n) else Raw c.

Fixpoint written_units (s : string) : list SUnit :=
  match s with
  | EmptyString => []
  | String c r => written_unit c :: written_units r
  end.

End Spec.

Module Sample.
Import Js Json Runtime.
#[local] Existing Instance LiteralNumber.

Definition nl : string := String (byte 10) EmptyString.

Definition no_env : Env := {| VITE_GEMINI_API_KEY := None; VITE_GEMINI_BASE_URL := None |}.
Definition env_with_key : Env :=
  {| VITE_GEMINI_API_KEY := Some "env-key"; VITE_GEMINI_BASE_URL := None |}.

Definition world (e : Env) (replies : list (Settled Response)) : World :=
  {| env := e; network := replies; trace := [] |}.

(** A 200 reply whose body is the JSON text [text]. *)
Definition json_reply (text : string) : Settled Response :=
  Fulfilled {| ok := true; status := 200; statusText := "OK";
               json := match JSON_parse text with
                       | Some j => Fulfilled j
                       | None => Rejected json_syntax_error
                       end;
               body := Some [Fulfilled text];
               blob := Fulfilled {| blob_type := "application/json"; readAsDataURL := None |} |}.

(** A 200 reply of the chat endpoint with [content] as the answer. *)
Definition chat_reply (content : string) : Settled Response :=
  Fulfilled {| ok := true; status := 200; statusText := "OK";
               json := Fulfilled
                         (JObj [("choices",
                                 JArr [JObj [("message", JObj [("content", JStr content)])]])]);
               body := None;
               blob := Rejected failed_to_fetch |}.

(** A 200 reply that streams [chunks]. *)
Definition stream_reply (chunks : list string) : Settled Response :=
  Fulfilled {| ok := true; status := 200; statusText := "OK";
               json := Rejected json_syntax_error;
               body := Some (map (fun c => Fulfilled c) chunks);
               blob := Rejected failed_to_fetch |}.

(** A 200 reply with a JPEG of three bytes. *)
Definition image_reply : Settled Response :=
  Fulfilled {| ok := true; status := 200; statusText := "OK";
               json := Rejected json_syntax_error;
               body := None;
               blob := Fulfilled {| blob_type := "image/jpeg";
                                    readAsDataURL := Some "data:image/jpeg;base64,QUJD" |} |}.

Definition gemini_options (key : string) : GeminiApi.ImageAnalysisOptions :=
  {| GeminiApi.apiKey := key; GeminiApi.baseURL := None; GeminiApi.temperature := None;
     GeminiApi.maxTokens := None; GeminiApi.detail := None |}.

Definition llm_options (key : string) (maxTokens : option Z) (budget : option Z)
  : Llm.ImageAnalysisOptions :=
  {| Llm.apiKey := key; Llm.baseURL := None; Llm.temperature := None;
     Llm.maxTokens := maxTokens; Llm.topP := None;
     Llm.thinking :=
       match budget with
       | Some b => Some {| thinking_type := enabled; budget_tokens := Some b;
                           include_thoughts := None |}
       | None => None
       end;
     Llm.user := None; Llm.detail := None;
     Llm.onError := None; Llm.onComplete := None |}.

(** [chunk => { text += chunk }] for the examples. *)
Definition append_text : JSON -> string -> string :=
  GeminiApi.append_chunk (Num := LiteralNumber).

Definition hello : list Message :=
  [{| role := user; content := Plain (Literal "hello") |}].

(** The four frames of the streaming example, one per line. *)
Definition frame_foo : string := q "data: {'choices':[{'delta':{'content':'foo'}}]}".
Definition frame_garbage : string := "data: garbage".
Definition frame_bar : string := q "data: {'choices':[{'delta':{'content':'bar'}}]}".
Definition frame_done : string := "data: [DONE]".
Definition four_frames : string :=
  frame_foo ++ nl ++ frame_garbage ++ nl ++ frame_bar ++ nl ++ frame_done ++ nl.

(** The line end of an event stream written with CR LF. *)
Definition crlf : string := String (byte 13) nl.

(** A frame with a finish reason, as the chat endpoints send it before
    the sentinel. *)
Definition frame_stop : string :=
  q "data: {'choices':[{'delta':{'content':'hi'},'finish_reason':'stop'}]}".
Definition stop_then_done : string := frame_stop ++ nl ++ nl ++ frame_done ++ nl ++ nl.

(** A reply that is not 2xx, whose body is the JSON text [text]. *)
Definition error_response (status : nat) (statusText text : string) : Response :=
  {| ok := false; status := status; statusText := statusText;
     json := match JSON_parse text with
             | Some j => Fulfilled j
             | None => Rejected json_syntax_error
             end;
     body := None;
     blob := Rejected failed_to_fetch |}.

(** A 200 reply whose body delivers [reads]. *)
Definition streaming (reads : list (Settled string)) : Response :=
  {| ok := true; status := 200; statusText := "OK";
     json := Rejected json_syntax_error;
     body := Some reads;
     blob := Rejected failed_to_fetch |}.

(** The same event stream, sent in two ways: with CR LF, a comment, a line
    of another field, an indented sentinel and an unfinished last line;
    and plainly. *)
Definition noisy_chunks : list string :=
  [frame_foo ++ crlf;
   ": keep-alive" ++ nl ++ "event: message" ++ nl ++ "  " ++ frame_done ++ nl
   ++ "data: {unfinished"].
Definition plain_chunks : list string := [frame_foo ++ nl ++ frame_done ++ nl].

(** A data URI of a PNG, and the answers of a run of the orchestrator. *)
Definition data_png : string := "data:image/png;base64,iVBORw0KGgo=".

Definition classified (tag : string) : Settled Response :=
  chat_reply (q ("{'imageType':'" ++ tag ++ "','confidence':0.9,'reason':'clear'}")).

Definition extraction : Settled Response :=
  stream_reply [frame_foo ++ nl; frame_bar ++ nl ++ frame_done ++ nl].

Definition safe_analysis : Settled Response := chat_reply (q "{'riskLevel':'safe'}").

(** A 404 reply with a page of HTML. *)
Definition not_found : Response :=
  {| ok := false; status := 404; statusText := "Not Found";
     json := Rejected json_syntax_error;
     body := None;
     blob := Fulfilled {| blob_type := "text/html";
                          readAsDataURL := Some "data:text/html;base64,PGh0bWw+" |} |}.

(** The component set up with the key [key], shown for the image [url]. *)
Definition view_setup (key : string) : AnalysisResult.Setup :=
  {| AnalysisResult.API_KEY := Some key; AnalysisResult.BASE_URL := None |}.

Definition view_props (url : string) : AnalysisResult.Props :=
  {| AnalysisResult.imageUrl := Some url; AnalysisResult.allergens := None |}.

End Sample.

(* ===================================================================== *)
(** * Properties                                                          *)
(* ===================================================================== *)

Import Js Json Runtime Spec.
Local Open Scope js_scope.
Unset Implicit Arguments.

(** Runs the binds of the monad in the goal. *)
Ltac run :=
  cbv beta iota zeta delta
    [bind ret throw try_catch emit get_env await fst snd env network trace].


(** Closes an equation between two outcomes whose worlds differ in the
    bracketing of their traces. *)
Ltac same_world :=
  repeat match goal with x := _ |- _ => subst x end;
  unfold logged, consumed; cbn [env network trace tl];
  rewrite <- ?app_assoc; cbn [app]; reflexivity.


(** Closes the goal for a transport that throws before its [try]. *)
Ltac early_throw e w :=
  exists (Throw e), w, []; split; [reflexivity|]; split; [now rewrite app_nil_r|];
  left; split; [reflexivity | discriminate].

(** Closes one case of the enumeration of the runs of a transport. *)
Ltac one_run :=
  eexists _, _, _; split; [reflexivity|];
  split; [cbn [trace]; rewrite <- ?app_assoc; reflexivity|];
  cbn [app]; repeat split; try (cbn; lia); try discriminate.

(** Evaluates the closed expression [m] and records its value as [H]. *)
Ltac run_to H m :=
  let v := eval vm_compute in m in
  assert (H : m = v) by (vm_compute; reflexivity).

(** ** Strings *)

Lemma split_without_separator (sep : ascii) (s : string) :
  occurs sep s = false -> split sep s = [s].
Proof.
  induction s as [|c r IH]; simpl; intros H; [reflexivity|].
  apply Bool.orb_false_iff in H as [Hc Hr].
  rewrite Hc, (IH Hr). reflexivity.
Qed.

Lemma split_at_first_separator (sep : ascii) (a b : string) :
  occurs sep a = false -> split sep (a ++ String sep b) = a :: split sep b.
Proof.
  induction a as [|c r IH]; simpl; intros H.
  - rewrite Ascii.eqb_refl. reflexivity.
  - apply Bool.orb_false_iff in H as [Hc Hr].
    rewrite Hc, (IH Hr). reflexivity.
Qed.

Lemma startsWith_data_uri (mime payload : string) :
  startsWith (data_uri mime payload) "data:" = true.
Proof. reflexivity. Qed.

Lemma string_app_assoc (a b c : string) : (a ++ b) ++ c = a ++ (b ++ c).
Proof. induction a as [|x a IH]; simpl; [reflexivity | now rewrite IH]. Qed.

Lemma occurs_app (c : ascii) (a b : string) :
  occurs c (a ++ b) = (occurs c a || occurs c b)%bool.
Proof.
  induction a as [|x a IH]; simpl; [reflexivity|].
  rewrite IH. now rewrite Bool.orb_assoc.
Qed.

Lemma media_type_prefix_parameters (m r : string) :
  occurs "," m = false ->
  GeminiApi.media_type_prefix (m ++ String ";" r) = without_parameters m.
Proof.
  unfold without_parameters.
  induction m as [|c m IH]; simpl; intros H; [reflexivity|].
  apply Bool.orb_false_iff in H as [Hc Hr].
  rewrite Hc, Bool.orb_false_r.
  destruct (Ascii.eqb c ";"); [reflexivity|].
  rewrite (IH Hr). destruct (split ";" m); reflexivity.
Qed.

Lemma without_parameters_plain (m : string) :
  occurs ";" m = false -> without_parameters m = m.
Proof.
  intros H. unfold without_parameters. rewrite (split_without_separator _ _ H). reflexivity.
Qed.

Lemma without_parameters_clean (sep : ascii) (m : string) :
  occurs sep m = false -> occurs sep (without_parameters m) = false.
Proof.
  unfold without_parameters.
  induction m as [|c m IH]; simpl; intros H; [reflexivity|].
  apply Bool.orb_false_iff in H as [Hc Hr].
  destruct (Ascii.eqb c ";"); [reflexivity|].
  specialize (IH Hr).
  destruct (split ";" m); simpl in *; rewrite Hc; [reflexivity | exact IH].
Qed.

Lemma without_parameters_no_semicolon (m : string) :
  occurs ";" (without_parameters m) = false.
Proof.
  unfold without_parameters.
  induction m as [|c m IH]; simpl; [reflexivity|].
  destruct (Ascii.eqb c ";") eqn:E; [reflexivity|].
  destruct (split ";" m); simpl in *; rewrite E; [reflexivity | exact IH].
Qed.

Lemma without_parameters_not_empty (m : string) :
  m <> EmptyString -> startsWith m ";" = false ->
  exists c r, without_parameters m = String c r /\ Ascii.eqb c ";" = false.
Proof.
  unfold without_parameters.
  destruct m as [|c m]; [congruence|]. intros _. simpl.
  rewrite Bool.andb_true_r. intros E. rewrite E.
  destruct (split ";" m); eexists _, _; split; try reflexivity; exact E.
Qed.

Lemma split_data_uri (mime payload : string) :
  occurs "," mime = false -> occurs "," payload = false ->
  split "," (data_uri mime payload) = ["data:" ++ mime ++ ";base64"; payload].
Proof.
  intros Hc Hp. unfold data_uri.
  replace ("data:" ++ mime ++ ";base64," ++ payload)
    with (("data:" ++ mime ++ ";base64") ++ String "," payload).
  - rewrite split_at_first_separator.
    + rewrite (split_without_separator _ _ Hp). reflexivity.
    + rewrite !occurs_app, Hc. reflexivity.
  - rewrite !string_app_assoc. reflexivity.
Qed.

Lemma getMimeTypeFromUrl_media_type (mime payload : string) :
  occurs "," mime = false -> mime <> EmptyString -> startsWith mime ";" = false ->
  GeminiApi.getMimeTypeFromUrl (data_uri mime payload)
  = GeminiApi.MimeType (without_parameters mime).
Proof.
  intros Hc Hne Hs.
  unfold GeminiApi.getMimeTypeFromUrl, GeminiApi.match_data_prefix, data_uri.
  simpl.
  change (mime ++ String ";" "base64," ++ payload)
    with (mime ++ String ";" ("base64," ++ payload)).
  rewrite (media_type_prefix_parameters _ _ Hc).
  destruct (without_parameters_not_empty mime Hne Hs) as (c & r & -> & _).
  reflexivity.
Qed.

Lemma getMimeTypeFromUrl_no_media_type (payload : string) :
  occurs "." payload = false ->
  GeminiApi.getMimeTypeFromUrl (data_uri EmptyString payload)
  = GeminiApi.MimeType "image/jpeg".
Proof.
  intros Hp.
  assert (Hs : split "." (data_uri EmptyString payload) = [data_uri EmptyString payload])
    by (apply split_without_separator; cbn; exact Hp).
  assert (Hk : exists r, hd EmptyString (split "?" (toLowerCase (data_uri EmptyString payload)))
                         = String "d" r).
  { unfold data_uri. cbn [append toLowerCase split].
    change (Ascii.eqb (lower_ascii "d") "?") with false. cbv iota.
    destruct (split "?" _); eexists; reflexivity. }
  destruct Hk as (r & Hk).
  unfold GeminiApi.getMimeTypeFromUrl.
  replace (GeminiApi.match_data_prefix (data_uri EmptyString payload)) with (@None string)
    by reflexivity.
  rewrite Hs. cbn [pop fst]. rewrite Hk.
  destruct (startsWith (data_uri EmptyString payload) "data:"); reflexivity.
Qed.

Lemma convertImageToBase64_data_uri (mime payload : string) (w : World) :
  occurs "," mime = false -> occurs "," payload = false ->
  startsWith mime ";" = false ->
  (mime = EmptyString -> occurs "." payload = false) ->
  GeminiApi.convertImageToBase64 (data_uri mime payload) w
  = (Return {| GeminiApi.base64 := Some payload;
               GeminiApi.mimeType := GeminiApi.MimeType (decoded_media_type mime) |},
     logged w [Encode (data_uri mime payload)]).
Proof.
  intros Hc Hp Hs Hdot.
  unfold GeminiApi.convertImageToBase64, bind, emit, ret.
  rewrite startsWith_data_uri, (split_data_uri _ _ Hc Hp).
  unfold decoded_media_type.
  destruct (String.eqb mime EmptyString) eqn:E.
  - apply String.eqb_eq in E. subst mime.
    rewrite (getMimeTypeFromUrl_no_media_type _ (Hdot eq_refl)). reflexivity.
  - apply String.eqb_neq in E.
    rewrite (getMimeTypeFromUrl_media_type _ _ Hc E Hs). reflexivity.
Qed.

Lemma decoded_media_type_decoded (mime : string) :
  occurs "," mime = false -> startsWith mime ";" = false ->
  let media := decoded_media_type mime in
  occurs "," media = false /\ startsWith media ";" = false
  /\ media <> EmptyString /\ decoded_media_type media = media.
Proof.
  intros Hc Hs. unfold decoded_media_type.
  destruct (String.eqb mime EmptyString) eqn:E.
  - repeat split; discriminate.
  - apply String.eqb_neq in E.
    pose proof (without_parameters_clean "," mime Hc) as Hc'.
    pose proof (without_parameters_no_semicolon mime) as Hs'.
    destruct (without_parameters_not_empty mime E Hs) as (c & r & Hw & Hcs).
    cbv zeta. rewrite (without_parameters_plain _ Hs').
    split; [exact Hc'|]. rewrite Hw in *.
    split; [cbn; rewrite Hcs; reflexivity|].
    split; [discriminate | reflexivity].
Qed.

Section EncoderProperties.
Context {Num : JsNumber}.

(** C9, as amended.  A data URI [data:<mime>;base64,<payload>] without a
    comma in its two parts is encoded to exactly its payload, the only
    event being the entry in the encoder (no fetch).  The media type comes
    back without its parameters: what stands before the first [;] of
    [<mime>], so [<mime>] itself when it has none; an empty [<mime>] comes
    back as `image/jpeg'.  Encoding the data URI that the callers assemble
    from this result ([data_url]) gives the same payload and media type,
    again without a fetch. *)
Theorem data_uri_decoded (mime payload : string) (w : World) :
  occurs "," mime = false -> occurs "," payload = false ->
  startsWith mime ";" = false ->
  (mime = EmptyString -> occurs "." payload = false) ->
  let image := {| GeminiApi.base64 := Some payload;
                  GeminiApi.mimeType := GeminiApi.MimeType (decoded_media_type mime) |} in
  GeminiApi.convertImageToBase64 (data_uri mime payload) w
  = (Return image, logged w [Encode (data_uri mime payload)])
  /\ count is_fetch (trace (after (GeminiApi.convertImageToBase64 (data_uri mime payload)) w))
     = count is_fetch (trace w)
  /\ (mime <> EmptyString -> occurs ";" mime = false -> decoded_media_type mime = mime)
  /\ forall w', GeminiApi.convertImageToBase64 (GeminiApi.data_url image) w'
                = (Return image, logged w' [Encode (GeminiApi.data_url image)]).
Proof.
  intros Hc Hp Hs Hdot image.
  pose proof (convertImageToBase64_data_uri mime payload w Hc Hp Hs Hdot) as E.
  split; [exact E | split; [|split]].
  - unfold after. rewrite E. simpl. unfold count.
    rewrite filter_app, length_app. simpl. lia.
  - intros Hne Hplain. unfold decoded_media_type.
    apply String.eqb_neq in Hne. rewrite Hne. apply (without_parameters_plain _ Hplain).
  - intros w'.
    destruct (decoded_media_type_decoded mime Hc Hs) as (Hc' & Hs' & Hne' & Hfix).
    change (GeminiApi.data_url image) with (data_uri (decoded_media_type mime) payload).
    rewrite (convertImageToBase64_data_uri _ payload w' Hc' Hp Hs'
               (fun H => False_ind _ (Hne' H))).
    subst image. rewrite Hfix. reflexivity.
Qed.

End EncoderProperties.

Lemma data_uri_decoded_witness :
  GeminiApi.convertImageToBase64
    "data:image/svg+xml;charset=utf-8;base64,PHN2Zz48L3N2Zz4=" (Sample.world Sample.no_env [])
  = (Return {| GeminiApi.base64 := Some "PHN2Zz48L3N2Zz4=";
               GeminiApi.mimeType := GeminiApi.MimeType "image/svg+xml" |},
     {| env := Sample.no_env; network := [];
        trace := [Encode "data:image/svg+xml;charset=utf-8;base64,PHN2Zz48L3N2Zz4="] |})
  /\ GeminiApi.convertImageToBase64
       "data:image/svg+xml;base64,PHN2Zz48L3N2Zz4=" (Sample.world Sample.no_env [])
     = (Return {| GeminiApi.base64 := Some "PHN2Zz48L3N2Zz4=";
                  GeminiApi.mimeType := GeminiApi.MimeType "image/svg+xml" |},
        {| env := Sample.no_env; network := [];
           trace := [Encode "data:image/svg+xml;base64,PHN2Zz48L3N2Zz4="] |})
  /\ GeminiApi.convertImageToBase64 "data:;base64,iVBORw0KGgo=" (Sample.world Sample.no_env [])
     = (Return {| GeminiApi.base64 := Some "iVBORw0KGgo=";
                  GeminiApi.mimeType := GeminiApi.MimeType "image/jpeg" |},
        {| env := Sample.no_env; network := [];
           trace := [Encode "data:;base64,iVBORw0KGgo="] |}).
Proof.
  destruct (data_uri_decoded "image/svg+xml;charset=utf-8" "PHN2Zz48L3N2Zz4="
              (Sample.world Sample.no_env []) eq_refl eq_refl eq_refl
              ltac:(discriminate)) as (H1 & _ & _ & H2).
  destruct (data_uri_decoded "" "iVBORw0KGgo=" (Sample.world Sample.no_env [])
              eq_refl eq_refl eq_refl (fun _ => eq_refl)) as (H3 & _).
  split; [exact H1 | split; [exact (H2 (Sample.world Sample.no_env [])) | exact H3]].
Defined.

(** C9, counterexample.  The media type of the data URI does not come
    back exactly when it has a parameter, nor when it is empty: the
    encoder returns `image/svg+xml', not `image/svg+xml;charset=utf-8',
    and `image/jpeg', not the empty string. *)
Lemma data_uri_media_type_not_returned :
  outcome (GeminiApi.convertImageToBase64
             (data_uri "image/svg+xml;charset=utf-8" "PHN2Zz48L3N2Zz4="))
          (Sample.world Sample.no_env [])
  <> Return {| GeminiApi.base64 := Some "PHN2Zz48L3N2Zz4=";
               GeminiApi.mimeType := GeminiApi.MimeType "image/svg+xml;charset=utf-8" |}
  /\ outcome (GeminiApi.convertImageToBase64
                (data_uri "image/svg+xml;charset=utf-8" "PHN2Zz48L3N2Zz4="))
             (Sample.world Sample.no_env [])
     = Return {| GeminiApi.base64 := Some "PHN2Zz48L3N2Zz4=";
                 GeminiApi.mimeType := GeminiApi.MimeType "image/svg+xml" |}
  /\ outcome (GeminiApi.convertImageToBase64 (data_uri "" "iVBORw0KGgo="))
             (Sample.world Sample.no_env [])
     = Return {| GeminiApi.base64 := Some "iVBORw0KGgo=";
                 GeminiApi.mimeType := GeminiApi.MimeType "image/jpeg" |}.
Proof.
  split; [|split]; [|vm_compute; reflexivity|vm_compute; reflexivity].
  vm_compute. intros H. discriminate H.
Qed.

(** ** The encoder and the format check *)

Section FormatProperties.
Context {Num : JsNumber}.

Lemma convertImageToBase64_data (url : string) (w : World) :
  startsWith url "data:" = true ->
  GeminiApi.convertImageToBase64 url w
  = (Return {| GeminiApi.base64 := nth_error (split "," url) 1;
               GeminiApi.mimeType := GeminiApi.getMimeTypeFromUrl url |},
     logged w [Encode url]).
Proof.
  intros H. unfold GeminiApi.convertImageToBase64, bind, emit, ret.
  rewrite H. reflexivity.
Qed.



End FormatProperties.



(** ** Validation before the request *)

Section ValidationProperties.
Context {Num : JsNumber}.

(** C7, as amended.  With an empty [options.apiKey] the two transports of
    llm.ts fail with the missing-key error; so do the two transports of
    gemini-api.ts when no (or an empty) VITE_GEMINI_API_KEY is there to
    replace it.  The world is left as it was: no request, no callback. *)
Theorem missing_credential_no_fetch
    {A : Type} (prompt : string) (messages : list Message) (onChunk : JSON -> A -> A)
    (llm_options : Llm.ImageAnalysisOptions) (gemini_options : GeminiApi.ImageAnalysisOptions)
    (acc : A) (w : World) :
  Llm.apiKey llm_options = EmptyString ->
  GeminiApi.apiKey gemini_options = EmptyString ->
  GeminiApi.string_truthy (VITE_GEMINI_API_KEY (env w)) = false ->
  Llm.callGemini25Pro prompt onChunk llm_options acc w = (Throw Llm.api_key_required, w)
  /\ Llm.callGemini25ProWithHistory messages onChunk llm_options acc w
     = (Throw Llm.api_key_required, w)
  /\ GeminiApi.callGeminiAPIForJSON messages gemini_options w = (Throw GeminiApi.missing_key, w)
  /\ GeminiApi.callGeminiAPIForStream messages onChunk gemini_options acc w
     = (Throw GeminiApi.missing_key, w).
Proof.
  intros Hl Hg He.
  assert (Hk : GeminiApi.string_truthy (GeminiApi.resolve_apiKey gemini_options (env w)) = false).
  { unfold GeminiApi.resolve_apiKey, GeminiApi.or_string. rewrite Hg. exact He. }
  repeat split.
  - unfold Llm.callGemini25Pro. rewrite Hl. reflexivity.
  - unfold Llm.callGemini25ProWithHistory. rewrite Hl. reflexivity.
  - unfold GeminiApi.callGeminiAPIForJSON, bind, get_env. rewrite Hk. reflexivity.
  - unfold GeminiApi.callGeminiAPIForStream, bind, get_env. rewrite Hk. reflexivity.
Qed.

(** C8, as amended.  The transports that take a reasoning budget are the
    two of llm.ts.  With a budget that is not zero and is at least
    [maxTokens] (8192 when absent) they fail and leave the world as it
    was (no request); the error is the invalid-tuning one when the API key
    and the prompt (the messages) are not empty, the tests on which come
    first. *)
Theorem invalid_tuning_no_fetch
    {A : Type} (prompt : string) (messages : list Message) (onChunk : JSON -> A -> A)
    (options : Llm.ImageAnalysisOptions) (acc : A) (w : World)
    (t : ThinkingConfig) (b : Z) :
  Llm.thinking options = Some t ->
  budget_tokens t = Some b ->
  b <> 0%Z ->
  (b >= Llm.default (Llm.maxTokens options) 8192)%Z ->
  (exists e, Llm.callGemini25Pro prompt onChunk options acc w = (Throw e, w)
             /\ (Llm.apiKey options <> EmptyString -> prompt <> EmptyString ->
                 e = Llm.invalid_tuning))
  /\ (exists e, Llm.callGemini25ProWithHistory messages onChunk options acc w = (Throw e, w)
                /\ (Llm.apiKey options <> EmptyString -> messages <> [] ->
                    e = Llm.invalid_tuning)).
Proof.
  intros Ht Hb Hz Hge.
  assert (Hx : Llm.budget_exceeds (Llm.thinking options)
                 (Llm.default (Llm.maxTokens options) 8192%Z) = true).
  { unfold Llm.budget_exceeds. rewrite Ht, Hb.
    apply Bool.andb_true_iff. split.
    - apply Bool.negb_true_iff, Z.eqb_neq, Hz.
    - rewrite Z.geb_leb. apply Z.leb_le. lia. }
  split.
  - unfold Llm.callGemini25Pro.
    destruct (String.eqb_spec (Llm.apiKey options) EmptyString) as [Hk|Hk].
    + eexists. split; [reflexivity | intros; congruence].
    + destruct (String.eqb_spec prompt EmptyString) as [Hp|Hp].
      * eexists. split; [reflexivity | intros; congruence].
      * rewrite Hx. eexists. split; [reflexivity | reflexivity].
  - unfold Llm.callGemini25ProWithHistory.
    destruct (String.eqb_spec (Llm.apiKey options) EmptyString) as [Hk|Hk].
    + eexists. split; [reflexivity | intros; congruence].
    + destruct messages as [|m ms]; simpl.
      * eexists. split; [reflexivity | intros; congruence].
      * rewrite Hx. eexists. split; [reflexivity | reflexivity].
Qed.

End ValidationProperties.

Lemma missing_credential_no_fetch_witness :
  Llm.callGemini25Pro (Num := LiteralNumber) "hello" Sample.append_text
    (Sample.llm_options "" None None) EmptyString
    (Sample.world Sample.no_env [Sample.stream_reply []])
  = (Throw Llm.api_key_required, Sample.world Sample.no_env [Sample.stream_reply []])
  /\ GeminiApi.callGeminiAPIForJSON (Num := LiteralNumber) Sample.hello (Sample.gemini_options "")
       (Sample.world Sample.no_env [Sample.stream_reply []])
     = (Throw GeminiApi.missing_key, Sample.world Sample.no_env [Sample.stream_reply []]).
Proof.
  destruct (missing_credential_no_fetch (Num := LiteralNumber) "hello" Sample.hello
              Sample.append_text (Sample.llm_options "" None None)
              (Sample.gemini_options "") EmptyString
              (Sample.world Sample.no_env [Sample.stream_reply []])
              eq_refl eq_refl eq_refl) as (H1 & _ & H3 & _).
  split; [exact H1 | exact H3].
Defined.

(** C7, counterexample.  With an empty [options.apiKey] and a key in the
    environment, [callGeminiAPIForJSON] sends the request with that key
    and returns the answer. *)
Lemma env_key_replaces_empty_apiKey :
  GeminiApi.apiKey (Sample.gemini_options "") = EmptyString
  /\ outcome (GeminiApi.callGeminiAPIForJSON (Num := LiteralNumber) Sample.hello
                (Sample.gemini_options ""))
             (Sample.world Sample.env_with_key [Sample.chat_reply "{}"])
     = Return (JObj [])
  /\ count is_fetch
       (trace (after (GeminiApi.callGeminiAPIForJSON (Num := LiteralNumber) Sample.hello
                        (Sample.gemini_options ""))
                     (Sample.world Sample.env_with_key [Sample.chat_reply "{}"])))
     = 1.
Proof. repeat split; vm_compute; reflexivity. Qed.

Lemma invalid_tuning_no_fetch_witness :
  Llm.callGemini25ProWithHistory (Num := LiteralNumber) Sample.hello Sample.append_text
    (Sample.llm_options "key" (Some 4096%Z) (Some 4096%Z)) EmptyString
    (Sample.world Sample.no_env [Sample.stream_reply []])
  = (Throw Llm.invalid_tuning, Sample.world Sample.no_env [Sample.stream_reply []]).
Proof.
  destruct (invalid_tuning_no_fetch (Num := LiteralNumber) "hello" Sample.hello
              Sample.append_text (Sample.llm_options "key" (Some 4096%Z) (Some 4096%Z))
              EmptyString (Sample.world Sample.no_env [Sample.stream_reply []])
              {| thinking_type := enabled; budget_tokens := Some 4096%Z;
                 include_thoughts := None |} 4096%Z
              eq_refl eq_refl ltac:(discriminate) ltac:(simpl; lia))
    as (_ & e & He & Hinv).
  rewrite He. f_equal. f_equal. apply Hinv; discriminate.
Defined.

(** C8, counterexample.  A budget above [maxTokens] with an empty API key
    fails with the missing-key error, not the invalid-tuning one; a budget
    of zero with [maxTokens] zero passes the test, and the request is
    sent. *)
Lemma budget_not_always_invalid_tuning :
  outcome (Llm.callGemini25ProWithHistory (Num := LiteralNumber) Sample.hello
             Sample.append_text (Sample.llm_options "" (Some 4096%Z) (Some 5000%Z))
             EmptyString)
          (Sample.world Sample.no_env [Sample.stream_reply []])
  = Throw Llm.api_key_required
  /\ Llm.api_key_required <> Llm.invalid_tuning
  /\ outcome (Llm.callGemini25ProWithHistory (Num := LiteralNumber) Sample.hello
                Sample.append_text (Sample.llm_options "key" (Some 0%Z) (Some 0%Z))
                EmptyString)
             (Sample.world Sample.no_env [Sample.stream_reply []])
     = Return EmptyString
  /\ count is_fetch
       (trace (after (Llm.callGemini25ProWithHistory (Num := LiteralNumber) Sample.hello
                        Sample.append_text
                        (Sample.llm_options "key" (Some 0%Z) (Some 0%Z)) EmptyString)
                     (Sample.world Sample.no_env [Sample.stream_reply []])))
     = 1.
Proof. repeat split; try (vm_compute; reflexivity). discriminate. Qed.

(** ** The monad *)

Section MonadLemmas.
Context {Num : JsNumber}.

Lemma bind_return_inv {A B : Type} (m : M A) (k : A -> M B) (w w' : World) (b : B) :
  bind m k w = (Return b, w') ->
  exists a w1, m w = (Return a, w1) /\ k a w1 = (Return b, w').
Proof.
  unfold bind. destruct (m w) as [[a|e] w1]; intros H.
  - exists a, w1. split; [reflexivity | exact H].
  - discriminate.
Qed.

Lemma try_catch_return_inv {A : Type} (m : M A) (h : Thrown -> M A) (w w' : World) (a : A) :
  try_catch m h w = (Return a, w') ->
  m w = (Return a, w') \/ exists e w1, m w = (Throw e, w1) /\ h e w1 = (Return a, w').
Proof.
  unfold try_catch. destruct (m w) as [[x|e] w1]; intros H.
  - left. exact H.
  - right. exists e, w1. split; [reflexivity | exact H].
Qed.

Lemma bind_of_return {A B : Type} (m : M A) (k : A -> M B) (w w1 : World) (a : A) :
  m w = (Return a, w1) -> bind m k w = k a w1.
Proof. unfold bind. intros ->. reflexivity. Qed.

Lemma bind_of_throw {A B : Type} (m : M A) (k : A -> M B) (w w1 : World) (e : Thrown) :
  m w = (Throw e, w1) -> bind m k w = (Throw e, w1).
Proof. unfold bind. intros ->. reflexivity. Qed.

Lemma prop_not_null (j : JSON) (k : string) :
  j <> JNull -> prop (Some j) k = ret (field j k).
Proof. destruct j; intros H; try reflexivity. contradiction. Qed.

Lemma count_app (p : Event -> bool) (a b : list Event) :
  count p (a ++ b) = count p a + count p b.
Proof. unfold count. rewrite filter_app, length_app. reflexivity. Qed.

End MonadLemmas.

(** ** The non-streaming transport and its validator *)

Section ValidatorProperties.
Context {Num : JsNumber}.

(** What [callGeminiAPIForJSON] does with a 2xx reply whose body is the
    JSON value [data], not null. *)
Lemma callGeminiAPIForJSON_ok (messages : list Message) (options : GeminiApi.ImageAnalysisOptions)
    (w : World) (resp : Response) (rest : list (Settled Response)) (data : JSON) :
  GeminiApi.string_truthy (GeminiApi.resolve_apiKey options (env w)) = true ->
  network w = Fulfilled resp :: rest ->
  ok resp = true ->
  json resp = Fulfilled data ->
  data <> JNull ->
  let content := GeminiApi.message_content (field data "choices") in
  let w1 := consumed w (json_request messages options (env w)) in
  GeminiApi.callGeminiAPIForJSON messages options w
  = if truthy content then
      match JSON_parse (toString content) with
      | Some j => (Return j, w1)
      | None => (Throw GeminiApi.invalid_json,
                 logged w1 [Console ErrorLevel; OnError GeminiApi.invalid_json])
      end
    else (Throw GeminiApi.no_content, logged w1 [OnError GeminiApi.no_content]).
Proof.
  intros Hkey Hnet Hok Hjson Hnull content w1.
  destruct w as [en net tr]. cbn [env network] in Hkey, Hnet. subst net.
  unfold GeminiApi.callGeminiAPIForJSON. run. rewrite Hkey.
  cbv beta iota delta [negb]. unfold fetch. run. rewrite Hok.
  cbv beta iota delta [negb]. rewrite Hjson. run.
  rewrite (prop_not_null data "choices" Hnull). run.
  fold content. unfold JSON_parse_value.
  destruct (truthy content); cbv beta iota delta [negb];
    [ destruct (JSON_parse (toString content)); run; same_world | same_world ].
Qed.

(** C6, as amended.  For a 2xx reply whose body is a JSON value other
    than null: when [choices[0].message.content] is absent or falsy (null,
    false, 0, the empty string) the call fails with the no-content error;
    when it is truthy and [JSON.parse] refuses its text, with the
    invalid-JSON error; otherwise the call returns exactly what
    [JSON.parse] returns, with no check of fields or types. *)
Theorem callGeminiAPIForJSON_validation
    (messages : list Message) (options : GeminiApi.ImageAnalysisOptions)
    (w : World) (resp : Response) (rest : list (Settled Response)) (data : JSON) :
  GeminiApi.string_truthy (GeminiApi.resolve_apiKey options (env w)) = true ->
  network w = Fulfilled resp :: rest ->
  ok resp = true ->
  json resp = Fulfilled data ->
  data <> JNull ->
  let content := GeminiApi.message_content (field data "choices") in
  let result := outcome (GeminiApi.callGeminiAPIForJSON messages options) w in
  (truthy content = false -> result = Throw GeminiApi.no_content)
  /\ (truthy content = true -> JSON_parse (toString content) = None ->
      result = Throw GeminiApi.invalid_json)
  /\ (forall j, truthy content = true -> JSON_parse (toString content) = Some j ->
      result = Return j).
Proof.
  intros Hkey Hnet Hok Hjson Hnull content result.
  subst result. unfold outcome.
  rewrite (callGeminiAPIForJSON_ok messages options w resp rest data Hkey Hnet Hok Hjson Hnull).
  fold content.
  repeat split.
  - intros ->. reflexivity.
  - intros -> ->. reflexivity.
  - intros j -> ->. reflexivity.
Qed.

End ValidatorProperties.

Lemma callGeminiAPIForJSON_validation_witness :
  outcome (GeminiApi.callGeminiAPIForJSON (Num := LiteralNumber) Sample.hello
             (Sample.gemini_options "key"))
          (Sample.world Sample.no_env [Sample.chat_reply (q "{'riskLevel':'high'}")])
  = Return (JObj [("riskLevel", JStr "high")])
  /\ outcome (GeminiApi.callGeminiAPIForJSON (Num := LiteralNumber) Sample.hello
                (Sample.gemini_options "key"))
             (Sample.world Sample.no_env [Sample.chat_reply "not json"])
     = Throw GeminiApi.invalid_json.
Proof.
  split.
  - refine (proj2 (proj2 (callGeminiAPIForJSON_validation (Num := LiteralNumber) Sample.hello
             (Sample.gemini_options "key")
             (Sample.world Sample.no_env [Sample.chat_reply (q "{'riskLevel':'high'}")])
             _ [] _ eq_refl eq_refl eq_refl eq_refl _)) _ eq_refl eq_refl).
    discriminate.
  - refine (proj1 (proj2 (callGeminiAPIForJSON_validation (Num := LiteralNumber) Sample.hello
             (Sample.gemini_options "key")
             (Sample.world Sample.no_env [Sample.chat_reply "not json"])
             _ [] _ eq_refl eq_refl eq_refl eq_refl _)) eq_refl eq_refl).
    discriminate.
Defined.

(** C6, counterexample.  An answer whose content is the empty string is
    there and is not JSON, and the call fails with the no-content error,
    not the invalid-JSON one; a body that is null fails with the
    TypeError of reading [choices] of null. *)
Lemma empty_content_is_no_content :
  GeminiApi.message_content 
    (field (JObj [("choices", JArr [JObj [("message", JObj [("content", JStr "")])]])])
           "choices")
  = Some (JStr "")
  /\ JSON_parse "" = None
  /\ outcome (GeminiApi.callGeminiAPIForJSON (Num := LiteralNumber) Sample.hello
                (Sample.gemini_options "key"))
             (Sample.world Sample.no_env [Sample.chat_reply ""])
     = Throw GeminiApi.no_content
  /\ GeminiApi.no_content <> GeminiApi.invalid_json
  /\ outcome (GeminiApi.callGeminiAPIForJSON (Num := LiteralNumber) Sample.hello
                (Sample.gemini_options "key"))
             (Sample.world Sample.no_env [Sample.json_reply "null"])
     = Throw null_property_error.
Proof. repeat split; try (vm_compute; reflexivity). discriminate. Qed.

(** ** The orchestrator *)

Section OrchestratorProperties.
Context {Num : JsNumber}.

(** The branch for a reply that is not 2xx throws, whatever the body. *)
Lemma gemini_fail_with_status_throws {A : Type} (resp : Response) (w : World) :
  exists msg events,
    GeminiApi.fail_with_status (A := A) resp w = (Throw (new_Error msg), logged w events)
    /\ (events = [] \/ events = [Console ErrorLevel]).
Proof.
  destruct w as [en net tr].
  unfold GeminiApi.fail_with_status. run.
  destruct (json resp) as [data|e]; run.
  - destruct data; unfold prop; run;
      try (eexists; exists [Console ErrorLevel]; split; [same_world | now right]).
    destruct (truthy (opt_field (field (JObj members) "error") "message")); run;
      eexists; exists [Console ErrorLevel]; (split; [same_world | now right]).
  - eexists; exists []. split; [|now left].
    unfold logged. cbn [env network trace]. rewrite app_nil_r. reflexivity.
Qed.

(** A call of [callGeminiAPIForJSON] that returns has consumed one reply
    with its one request, and has left no other event. *)
Lemma callGeminiAPIForJSON_return (messages : list Message)
    (options : GeminiApi.ImageAnalysisOptions) (w w' : World) (j : JSON) :
  GeminiApi.callGeminiAPIForJSON messages options w = (Return j, w') ->
  w' = consumed w (json_request messages options (env w)).
Proof.
  destruct w as [en net tr].
  unfold GeminiApi.callGeminiAPIForJSON. run.
  destruct (GeminiApi.string_truthy (GeminiApi.resolve_apiKey options en));
    cbv beta iota delta [negb]; [|discriminate].
  unfold fetch. run.
  destruct net as [|[resp|e] rest]; run; try discriminate.
  destruct (ok resp); cbv beta iota delta [negb].
  - destruct (json resp) as [data|e]; run; [|discriminate].
    destruct data; unfold prop; run; try discriminate;
      match goal with
      | |- context [truthy ?c] =>
          destruct (truthy c); cbv beta iota delta [negb]; run; [|discriminate];
          unfold JSON_parse_value; destruct (JSON_parse (toString c)); run;
          [intros [= _ <-]; reflexivity | discriminate]
      end.
  - destruct (gemini_fail_with_status_throws (A := unit) resp
                {| env := en; network := rest;
                   trace := tr ++ [Fetch (GeminiApi.chat_post
                                            (GeminiApi.resolve_baseURL options en)
                                            (GeminiApi.resolve_apiKey options en)
                                            (GeminiApi.json_body messages options))] |})
      as (msg & events & -> & _).
    discriminate.
Qed.

(** An encoding that returns has left the entry event and, for a source
    that is not a data URI, the one fetch of the source. *)
Lemma convertImageToBase64_return (url : string) (w w1 : World) (image : GeminiApi.EncodedImage) :
  GeminiApi.convertImageToBase64 url w = (Return image, w1) ->
  (startsWith url "data:" = true /\ w1 = logged w [Encode url])
  \/ (startsWith url "data:" = false /\ w1 = consumed (logged w [Encode url]) (Get url)).
Proof.
  destruct w as [en net tr].
  unfold GeminiApi.convertImageToBase64. run.
  destruct (startsWith url "data:").
  - intros [= _ <-]. left. split; reflexivity.
  - unfold fetch. run.
    destruct net as [|[resp|e0] rest]; run; try discriminate.
    destruct (blob resp) as [b|e1]; run; [|discriminate].
    unfold GeminiApi.read_blob. destruct (readAsDataURL b); run; [|discriminate].
    intros [= _ <-]. right. split; reflexivity.
Qed.

Lemma field_not_null (j : JSON) (k : string) (v : JSON) :
  field j k = Some v -> j <> JNull.
Proof. intros H ->. discriminate. Qed.



Lemma prop_return_inv (j : JSON) (k : string) (w w' : World) (v : value) :
  prop (Some j) k w = (Return v, w') -> j <> JNull /\ v = field j k /\ w' = w.
Proof.
  destruct j; unfold prop; run; try discriminate;
    intros [= <- <-]; (split; [discriminate | split; reflexivity]).
Qed.

Lemma is_string_true (v : value) (s : string) :
  GeminiApi.is_string v s = true -> v = Some (JStr s).
Proof.
  destruct v as [[| | |x| |]|]; cbn; try discriminate.
  intros H. apply String.eqb_eq in H. now subst.
Qed.

Lemma analysed_type_cases (tag : value) :
  analysed_type tag = true ->
  tag = Some (JStr "ingredients") \/ tag = Some (JStr "menu") \/ tag = Some (JStr "food").
Proof.
  unfold analysed_type. intros H.
  apply Bool.orb_true_iff in H as [H|H]; [apply Bool.orb_true_iff in H as [H|H]|];
    apply is_string_true in H; auto.
Qed.

(** The end of the three analysing branches: the result carries the
    classifier's [imageType] and [confidence]. *)
Lemma analysed_branch_end (typeResult analysisResult : JSON) (w w' : World)
    (r : GeminiApi.SmartAnalysisResult) :
  (imageType' <- prop (Some typeResult) "imageType" ;;
   confidence' <- prop (Some typeResult) "confidence" ;;
   ret {| GeminiApi.imageType := imageType'; GeminiApi.confidence := confidence';
          GeminiApi.result := analysisResult; GeminiApi.errorMessage := None |}) w
  = (Return r, w') ->
  GeminiApi.imageType r = field typeResult "imageType".
Proof.
  intros H.
  apply bind_return_inv in H as (t & wa & Ht & H).
  apply prop_return_inv in Ht as (_ & -> & ->).
  apply bind_return_inv in H as (c & wb & Hc & H).
  apply prop_return_inv in Hc as (_ & -> & ->).
  unfold ret in H. injection H as <- _. reflexivity.
Qed.

(** Whenever [smartAnalyzeImage] returns a result, the encoding and the
    classification have succeeded, and: if the classifier's [imageType]
    is exactly `ingredients', `menu' or `food', the result carries it;
    for any other value the result is the terminal one.  So a result that
    is not null comes only with one of the three analysed types, and the
    returned [imageType] is always one of the four documented values. *)
Lemma smartAnalyzeImage_returned
    (imageUrl : string) (userAllergens : list string)
    (options : GeminiApi.ImageAnalysisOptions)
    (w w' : World) (r : GeminiApi.SmartAnalysisResult) :
  GeminiApi.smartAnalyzeImage imageUrl userAllergens options w = (Return r, w') ->
  exists image w1 typeResult w2,
    GeminiApi.convertImageToBase64 imageUrl w = (Return image, w1)
    /\ GeminiApi.callGeminiAPIForJSON (GeminiApi.typeMessages image options) options w1
       = (Return typeResult, w2)
    /\ documented_imageType (GeminiApi.imageType r)
    /\ (analysed_type (field typeResult "imageType") = true ->
        GeminiApi.imageType r = field typeResult "imageType")
    /\ (analysed_type (field typeResult "imageType") = false ->
        r = unknown_result typeResult)
    /\ (GeminiApi.result r <> JNull ->
        analysed_type (field typeResult "imageType") = true).
Proof.
  intros H. unfold GeminiApi.smartAnalyzeImage in H.
  apply bind_return_inv in H as (image & w1 & Hconv & H).
  apply try_catch_return_inv in H as [H|(e & wx & _ & H)];
    [|revert H; run; discriminate].
  apply bind_return_inv in H as (typeResult & w2 & Hcall & H).
  apply bind_return_inv in H as (u & w3 & _ & H).
  apply bind_return_inv in H as (tag & w4 & Htag & H).
  apply prop_return_inv in Htag as (Hnull & -> & ->).
  exists image, w1, typeResult, w2.
  split; [exact Hconv | split; [exact Hcall|]].
  set (tag := field typeResult "imageType") in *.
  assert (Hcases :
            (analysed_type tag = true /\ GeminiApi.imageType r = tag)
            \/ (analysed_type tag = false /\ r = unknown_result typeResult)).
  { unfold analysed_type.
    destruct (GeminiApi.is_string tag "ingredients") eqn:E1.
    { left. split; [reflexivity|].
      apply bind_return_inv in H as (text & wa & _ & H).
      apply bind_return_inv in H as (analysis & wb & _ & H).
      apply (analysed_branch_end _ _ _ _ _ H). }
    destruct (GeminiApi.is_string tag "menu") eqn:E2.
    { left. split; [reflexivity|].
      apply bind_return_inv in H as (text & wa & _ & H).
      apply bind_return_inv in H as (analysis & wb & _ & H).
      apply (analysed_branch_end _ _ _ _ _ H). }
    destruct (GeminiApi.is_string tag "food") eqn:E3.
    { left. split; [reflexivity|].
      apply bind_return_inv in H as (analysis & wb & _ & H).
      apply (analysed_branch_end _ _ _ _ _ H). }
    right. split; [reflexivity|].
    apply bind_return_inv in H as (c & wa & Hc & H).
    apply prop_return_inv in Hc as (_ & -> & ->).
    apply bind_return_inv in H as (reason & wb & Hr & H).
    apply prop_return_inv in Hr as (_ & -> & ->).
    unfold ret in H. injection H as <- _. reflexivity. }
  destruct Hcases as [[Ha Hr]|[Ha Hr]].
  - split; [|split; [intros _; exact Hr | split; [congruence | intros _; exact Ha]]].
    rewrite Hr. unfold documented_imageType.
    destruct (analysed_type_cases _ Ha) as [-> | [-> | ->]]; auto.
  - split; [|split; [congruence | split; [intros _; exact Hr|]]].
    + rewrite Hr. unfold documented_imageType. cbn. auto.
    + rewrite Hr. cbn. congruence.
Qed.

(** C10, as amended.  When the encoding has succeeded and the classifier
    has answered with a value that is not null: for an [imageType] that
    is not exactly `ingredients', `menu' or `food' (a string outside the
    enumeration, a value that is not a string, an absent field) and a
    reason that has a string conversion, [smartAnalyzeImage] returns the
    terminal result, with [imageType] `unknown', [result] null and the
    error message made of the classifier's reason, after the one request
    of the classification.  And whatever result the call returns, its
    [imageType] is one of the four documented values; it is the
    classifier's when that is one of the three analysed types; and a
    result that is not null comes only with one of these three. *)
Theorem smartAnalyzeImage_imageType_normalised
    (imageUrl : string) (userAllergens : list string)
    (options : GeminiApi.ImageAnalysisOptions)
    (w w1 w2 : World) (image : GeminiApi.EncodedImage) (typeResult : JSON) :
  GeminiApi.convertImageToBase64 imageUrl w = (Return image, w1) ->
  GeminiApi.callGeminiAPIForJSON (GeminiApi.typeMessages image options) options w1
  = (Return typeResult, w2) ->
  typeResult <> JNull ->
  (analysed_type (field typeResult "imageType") = false ->
   converts (field typeResult "reason") = true ->
   GeminiApi.smartAnalyzeImage imageUrl userAllergens options w
   = (Return (unknown_result typeResult), logged w2 [Console LogLevel])
   /\ GeminiApi.imageType (unknown_result typeResult) = Some (JStr "unknown")
   /\ GeminiApi.result (unknown_result typeResult) = JNull
   /\ GeminiApi.errorMessage (unknown_result typeResult)
      = Some ("无法识别图片类型。" ++ toString (field typeResult "reason")))
  /\ (forall r w',
        GeminiApi.smartAnalyzeImage imageUrl userAllergens options w = (Return r, w') ->
        documented_imageType (GeminiApi.imageType r)
        /\ (analysed_type (field typeResult "imageType") = true ->
            GeminiApi.imageType r = field typeResult "imageType")
        /\ (GeminiApi.result r <> JNull ->
            analysed_type (field typeResult "imageType") = true)).
Proof.
  intros Hconv Hcall Hnull. split.
  - intros Htag _.
    split; [|repeat split].
    unfold analysed_type in Htag.
    apply Bool.orb_false_iff in Htag as [Htag Hfood].
    apply Bool.orb_false_iff in Htag as [Hingredients Hmenu].
    unfold GeminiApi.smartAnalyzeImage.
    rewrite (bind_of_return _ _ _ _ _ Hconv).
    unfold try_catch.
    rewrite (bind_of_return _ _ _ _ _ Hcall).
    destruct w2 as [en net tr]. run.
    rewrite (prop_not_null typeResult "imageType" Hnull). run.
    rewrite Hingredients, Hmenu, Hfood.
    rewrite (prop_not_null typeResult "confidence" Hnull). run.
    rewrite (prop_not_null typeResult "reason" Hnull). run.
    reflexivity.
  - intros r w' H.
    destruct (smartAnalyzeImage_returned _ _ _ _ _ _ H)
      as (image' & w1' & typeResult' & w2' & Hconv' & Hcall' & Hdoc & Hsame & _ & Hres).
    rewrite Hconv in Hconv'. injection Hconv' as <- <-.
    rewrite Hcall in Hcall'. injection Hcall' as <- <-.
    split; [exact Hdoc | split; [exact Hsame | exact Hres]].
Qed.

(** The non-streaming transport logs its request, console lines and the
    error callback: never an encoding, never a fetch of an image. *)
Lemma callGeminiAPIForJSON_events (messages : list Message)
    (options : GeminiApi.ImageAnalysisOptions) (w : World) :
  exists events,
    trace (after (GeminiApi.callGeminiAPIForJSON messages options) w) = (trace w ++ events)%list
    /\ count is_encode events = 0 /\ count is_image_fetch events = 0.
Proof.
  destruct w as [en net tr]. unfold after.
  unfold GeminiApi.callGeminiAPIForJSON. run.
  destruct (GeminiApi.string_truthy (GeminiApi.resolve_apiKey options en));
    cbv beta iota delta [negb].
  2:{ exists []. cbn. rewrite app_nil_r. auto. }
  unfold fetch. run.
  destruct net as [|[resp|e] rest]; run.
  - eexists. rewrite <- app_assoc. split; [reflexivity|]. cbn. auto.
  - destruct (ok resp); cbv beta iota delta [negb].
    + destruct (json resp) as [data|e]; run.
      * destruct data; unfold prop; run;
          try (eexists; rewrite <- ?app_assoc; split; [reflexivity | cbn; auto]);
          match goal with
          | |- context [truthy ?c] =>
              destruct (truthy c); cbv beta iota delta [negb]; run;
              [ unfold JSON_parse_value; destruct (JSON_parse (toString c)); run |];
              eexists; rewrite <- ?app_assoc; (split; [reflexivity | cbn; auto])
          end.
      * eexists. rewrite <- app_assoc. split; [reflexivity|]. cbn. auto.
    + destruct (gemini_fail_with_status_throws (A := unit) resp
                  {| env := en; network := rest;
                     trace := tr ++ [Fetch (GeminiApi.chat_post
                                              (GeminiApi.resolve_baseURL options en)
                                              (GeminiApi.resolve_apiKey options en)
                                              (GeminiApi.json_body messages options))] |})
        as (msg & events & -> & Hev).
      unfold logged. run.
      eexists. rewrite <- !app_assoc. split; [reflexivity|].
      destruct Hev as [-> | ->]; cbn; auto.
  - eexists. rewrite <- app_assoc. split; [reflexivity|]. cbn. auto.
Qed.

(** Every call of the encoder logs its entry once, and one fetch of the
    source unless it is a data URI. *)
Lemma convertImageToBase64_events (url : string) (w : World) :
  exists events,
    trace (after (GeminiApi.convertImageToBase64 url) w) = (trace w ++ events)%list
    /\ count is_encode events = 1
    /\ count is_image_fetch events = if startsWith url "data:" then 0 else 1.
Proof.
  destruct w as [en net tr]. unfold after.
  unfold GeminiApi.convertImageToBase64. run.
  destruct (startsWith url "data:"); run.
  - eexists. split; [reflexivity|]. cbn. auto.
  - unfold fetch. run.
    destruct net as [|[resp|e0] rest]; run;
      try (eexists; rewrite <- ?app_assoc; split; [reflexivity | cbn; auto]).
    destruct (blob resp) as [b|e1]; run;
      try (eexists; rewrite <- ?app_assoc; split; [reflexivity | cbn; auto]).
    unfold GeminiApi.read_blob. destruct (readAsDataURL b); run;
      eexists; rewrite <- ?app_assoc; (split; [reflexivity | cbn; auto]).
Qed.

(** [analyzeFoodPhoto] encodes its image, whatever was encoded before. *)
Lemma analyzeFoodPhoto_events (imageUrl : string) (userAllergens : list string)
    (options : GeminiApi.ImageAnalysisOptions) (w : World) :
  exists events,
    trace (after (GeminiApi.analyzeFoodPhoto imageUrl userAllergens options) w)
    = (trace w ++ events)%list
    /\ count is_encode events = 1
    /\ count is_image_fetch events = if startsWith imageUrl "data:" then 0 else 1.
Proof.
  unfold after, GeminiApi.analyzeFoodPhoto.
  destruct (convertImageToBase64_events imageUrl w) as (ev1 & Ht1 & He1 & Hf1).
  unfold after in Ht1.
  destruct (GeminiApi.convertImageToBase64 imageUrl w) as [[image|e] w1] eqn:Hc;
    cbn [snd] in Ht1.
  - rewrite (bind_of_return _ _ _ _ _ Hc).
    match goal with
    | |- context [GeminiApi.callGeminiAPIForJSON ?m ?o w1] =>
        destruct (callGeminiAPIForJSON_events m o w1) as (ev2 & Ht2 & He2 & Hf2)
    end.
    unfold after in Ht2. rewrite Ht2, Ht1.
    exists (ev1 ++ ev2)%list. rewrite app_assoc. split; [reflexivity|].
    rewrite !count_app, He1, He2, Hf1, Hf2. split; lia.
  - rewrite (bind_of_throw _ _ _ _ _ Hc). cbn [snd].
    exists ev1. auto.
Qed.

(** In general: once the classifier has answered
    `food', the image is encoded a second time by [analyzeFoodPhoto], and
    a source that is not a data URI is fetched a second time. *)
Lemma food_branch_encodes_again
    (imageUrl : string) (userAllergens : list string)
    (options : GeminiApi.ImageAnalysisOptions)
    (w w1 w2 : World) (image : GeminiApi.EncodedImage) (typeResult : JSON) :
  GeminiApi.convertImageToBase64 imageUrl w = (Return image, w1) ->
  GeminiApi.callGeminiAPIForJSON (GeminiApi.typeMessages image options) options w1
  = (Return typeResult, w2) ->
  field typeResult "imageType" = Some (JStr "food") ->
  let final := after (GeminiApi.smartAnalyzeImage imageUrl userAllergens options) w in
  count is_encode (trace final) = count is_encode (trace w) + 2
  /\ count is_image_fetch (trace final)
     = count is_image_fetch (trace w) + (if startsWith imageUrl "data:" then 0 else 2).
Proof.
  intros Hconv Hcall Htag final.
  pose proof (field_not_null _ _ _ Htag) as Hnull.
  assert (Hfinal : exists evs,
             trace final = (trace w2 ++ evs)%list
             /\ count is_encode evs = 1
             /\ count is_image_fetch evs = if startsWith imageUrl "data:" then 0 else 1).
  { subst final. unfold after, GeminiApi.smartAnalyzeImage.
    rewrite (bind_of_return _ _ _ _ _ Hconv).
    unfold try_catch.
    rewrite (bind_of_return _ _ _ _ _ Hcall).
    set (w3 := logged w2 [Console LogLevel]).
    rewrite (bind_of_return _ _ w2 w3 tt) by reflexivity.
    rewrite (bind_of_return _ _ w3 w3 (field typeResult "imageType"))
      by (rewrite (prop_not_null _ _ Hnull); reflexivity).
    rewrite Htag.
    replace (GeminiApi.is_string (Some (JStr "food")) "ingredients") with false by reflexivity.
    replace (GeminiApi.is_string (Some (JStr "food")) "menu") with false by reflexivity.
    replace (GeminiApi.is_string (Some (JStr "food")) "food") with true by reflexivity.
    cbv beta iota.
    destruct (analyzeFoodPhoto_events imageUrl userAllergens options w3)
      as (ev & Ht & He & Hf).
    unfold after in Ht.
    destruct (GeminiApi.analyzeFoodPhoto imageUrl userAllergens options w3)
      as [[analysis|e] w4] eqn:Hfood; cbn [snd] in Ht.
    - rewrite (bind_of_return _ _ _ _ _ Hfood).
      rewrite (prop_not_null typeResult "imageType" Hnull).
      rewrite (prop_not_null typeResult "confidence" Hnull).
      destruct w4 as [e4 n4 t4]. cbn [trace] in Ht. subst t4. run.
      exists ([Console LogLevel] ++ ev)%list.
      subst w3. unfold logged. cbn [trace].
      rewrite <- app_assoc. split; [reflexivity|].
      rewrite !count_app, He, Hf. cbn. auto.
    - rewrite (bind_of_throw _ _ _ _ _ Hfood).
      destruct w4 as [e4 n4 t4]. cbn [trace] in Ht. subst t4. run.
      exists ([Console LogLevel] ++ ev ++ [Console ErrorLevel])%list.
      subst w3. unfold logged. cbn [trace].
      rewrite <- !app_assoc. split; [reflexivity|].
      rewrite !count_app, He, Hf. cbn. split; lia. }
  destruct Hfinal as (evs & -> & He & Hf).
  apply callGeminiAPIForJSON_return in Hcall. subst w2.
  rewrite !count_app, He, Hf.
  apply convertImageToBase64_return in Hconv as [[Hd ->]|[Hd ->]]; rewrite Hd;
    unfold logged, consumed; cbn [env network trace];
    rewrite !count_app; cbn; lia.
Qed.

End OrchestratorProperties.


Lemma smartAnalyzeImage_imageType_normalised_witness :
  let typeResult :=
    JObj [("imageType", JStr "receipt");
          ("confidence", JNum "0.7");
          ("reason", JStr "a receipt")] in
  GeminiApi.smartAnalyzeImage (Num := LiteralNumber) "data:image/png;base64,iVBORw0KGgo="
    ["milk"] (Sample.gemini_options "key")
    (Sample.world Sample.no_env
       [Sample.chat_reply (q "{'imageType':'receipt','confidence':0.7,'reason':'a receipt'}")])
  = (Return {| GeminiApi.imageType := Some (JStr "unknown");
               GeminiApi.confidence := Some (JNum "0.7");
               GeminiApi.result := JNull;
               GeminiApi.errorMessage := Some "无法识别图片类型。a receipt" |},
     {| env := Sample.no_env; network := [];
        trace := [Encode "data:image/png;base64,iVBORw0KGgo=";
                  Fetch (json_request
                           (GeminiApi.typeMessages
                              {| GeminiApi.base64 := Some "iVBORw0KGgo=";
                                 GeminiApi.mimeType := GeminiApi.MimeType "image/png" |}
                              (Sample.gemini_options "key"))
                           (Sample.gemini_options "key") Sample.no_env);
                  Console LogLevel] |})
  /\ documented_imageType (GeminiApi.imageType (unknown_result (Num := LiteralNumber) typeResult)).
Proof.
  intros typeResult.
  set (o := Sample.gemini_options "key").
  set (w := Sample.world Sample.no_env
              [Sample.chat_reply
                 (q "{'imageType':'receipt','confidence':0.7,'reason':'a receipt'}")]).
  run_to H1 (GeminiApi.convertImageToBase64 "data:image/png;base64,iVBORw0KGgo=" w).
  match type of H1 with
  | _ = (Return ?image, ?w1) =>
      run_to H2 (GeminiApi.callGeminiAPIForJSON (Num := LiteralNumber)
                   (GeminiApi.typeMessages image o) o w1);
      match type of H2 with
      | _ = (Return ?answer, ?w2) =>
          destruct (smartAnalyzeImage_imageType_normalised (Num := LiteralNumber)
                      "data:image/png;base64,iVBORw0KGgo=" ["milk"] o w w1 w2 image answer
                      H1 H2 ltac:(discriminate)) as (Hunknown & Hany)
      end
  end.
  destruct (Hunknown eq_refl eq_refl) as (Hrun & _).
  split.
  - rewrite Hrun. reflexivity.
  - right. right. right. reflexivity.
Defined.

(** C10, counterexample.  Not every answer of the classifier ends in a
    result: an answer that parses to [null] is not turned into an
    `unknown' result, the call throws the TypeError of reading
    [imageType] of null. *)
Lemma smartAnalyzeImage_null_answer_throws :
  GeminiApi.smartAnalyzeImage (Num := LiteralNumber) "data:image/png;base64,iVBORw0KGgo="
    ["milk"] (Sample.gemini_options "key")
    (Sample.world Sample.no_env [Sample.chat_reply "null"])
  = (Throw null_property_error,
     {| env := Sample.no_env; network := [];
        trace := [Encode "data:image/png;base64,iVBORw0KGgo=";
                  Fetch (json_request
                           (GeminiApi.typeMessages
                              {| GeminiApi.base64 := Some "iVBORw0KGgo=";
                                 GeminiApi.mimeType := GeminiApi.MimeType "image/png" |}
                              (Sample.gemini_options "key"))
                           (Sample.gemini_options "key") Sample.no_env);
                  Console LogLevel; Console ErrorLevel] |}).
Proof. vm_compute. reflexivity. Qed.

(** C1, at the failing input.  For a remote image that the classifier
    calls `food', the encoder runs twice and the image is fetched twice
    (the four replies, two of them the image, are all consumed). *)
Lemma smartAnalyzeImage_food_encodes_twice :
  let final :=
    after (GeminiApi.smartAnalyzeImage (Num := LiteralNumber) "https://example.com/dish.jpg"
             ["peanut"] (Sample.gemini_options "key"))
          (Sample.world Sample.no_env
             [Sample.image_reply;
              Sample.chat_reply (q "{'imageType':'food','confidence':0.9,'reason':'a dish'}");
              Sample.image_reply;
              Sample.chat_reply (q "{'foods':[],'overallRisk':'safe','suggestion':'ok'}")]) in
  count is_encode (trace final) = 2
  /\ count is_image_fetch (trace final) = 2
  /\ filter is_image_fetch (trace final)
     = [Fetch (Get "https://example.com/dish.jpg"); Fetch (Get "https://example.com/dish.jpg")]
  /\ network final = [].
Proof. vm_compute. repeat split. Qed.

(** ** The event-stream loop: independence of the reads *)

Lemma string_app_nil_r (s : string) : s ++ EmptyString = s.
Proof. induction s; cbn; congruence. Qed.

Lemma split_not_nil (sep : ascii) (s : string) : split sep s <> [].
Proof.
  destruct s as [|c r]; simpl; [discriminate|].
  destruct (Ascii.eqb c sep); [discriminate|].
  destruct (split sep r); discriminate.
Qed.

Lemma pop_cons {A : Type} (x y : A) (l : list A) :
  pop (x :: y :: l) = (fst (pop (y :: l)), x :: snd (pop (y :: l))).
Proof. cbn [pop]. destruct l; [reflexivity|]. destruct (pop (a :: l)). reflexivity. Qed.

(** [pop] of [split] is [cut]. *)
Lemma pop_split (sep : ascii) (s : string) :
  pop (split sep s) = (Some (snd (cut sep s)), fst (cut sep s)).
Proof.
  induction s as [|c r IH]; [reflexivity|].
  cbn [split cut].
  destruct (cut sep r) as [ls rem]. cbn [fst snd] in IH.
  destruct (Ascii.eqb c sep).
  - destruct (split sep r) as [|p ps] eqn:E; [now apply split_not_nil in E|].
    rewrite pop_cons, IH. reflexivity.
  - destruct (split sep r) as [|p ps] eqn:E; [now apply split_not_nil in E|].
    destruct ps as [|p' ps'].
    + cbn in IH. injection IH as <- <-. reflexivity.
    + rewrite pop_cons. rewrite pop_cons in IH.
      destruct (pop (p' :: ps')) as [o l']. cbn [fst snd] in *.
      injection IH as -> <-. reflexivity.
Qed.

(** Cutting a concatenation: the lines of the first part, then the cut of
    its remainder followed by the second part. *)
Lemma cut_app (sep : ascii) (a b : string) :
  cut sep (a ++ b)
  = (fst (cut sep a) ++ fst (cut sep (snd (cut sep a) ++ b)),
     snd (cut sep (snd (cut sep a) ++ b)))%list.
Proof.
  induction a as [|c r IH].
  - cbn. destruct (cut sep b). reflexivity.
  - cbn [append cut]. rewrite IH.
    destruct (cut sep r) as [ls rem]. cbn [fst snd].
    destruct (Ascii.eqb c sep) eqn:Ec.
    + reflexivity.
    + destruct ls as [|l ls']; cbn [fst snd app].
      * cbn [append cut]. rewrite Ec.
        destruct (cut sep (rem ++ b)) as [ls2 rem2]. cbn [fst snd].
        destruct ls2; reflexivity.
      * reflexivity.
Qed.

Lemma cut_remainder (sep : ascii) (s : string) : occurs sep (snd (cut sep s)) = false.
Proof.
  induction s as [|c r IH]; [reflexivity|].
  cbn [cut]. destruct (cut sep r) as [ls rem]. cbn [snd] in *.
  destruct (Ascii.eqb c sep) eqn:Ec; [exact IH|].
  destruct ls; cbn [snd occurs]; [rewrite Ec|]; exact IH.
Qed.

Lemma cut_without_separator (sep : ascii) (s : string) :
  occurs sep s = false -> cut sep s = ([], s).
Proof.
  induction s as [|c r IH]; [reflexivity|].
  cbn [occurs cut]. intros H. apply Bool.orb_false_iff in H as [Hc Hr].
  rewrite (IH Hr), Hc. reflexivity.
Qed.

Section StreamProperties.
Context {Num : JsNumber}.
Variable A : Type.
Variable onChunk : JSON -> A -> A.

Lemma bind_assoc {X Y Z : Type} (m : M X) (f : X -> M Y) (g : Y -> M Z) (w : World) :
  bind (bind m f) g w = bind m (fun x => bind (f x) g) w.
Proof. unfold bind. destruct (m w) as [[x|e] w1]; reflexivity. Qed.

Lemma bind_ret_l {X Y : Type} (x : X) (f : X -> M Y) (w : World) :
  bind (ret x) f w = f x w.
Proof. reflexivity. Qed.

Lemma bind_cong_l {X Y : Type} (m1 m2 : M X) (k : X -> M Y) (w : World) :
  (forall w', m1 w' = m2 w') -> bind m1 k w = bind m2 k w.
Proof. intros H. unfold bind. rewrite H. reflexivity. Qed.

Lemma bind_ext {X Y : Type} (m : M X) (f g : X -> M Y) (w : World) :
  (forall x w1, f x w1 = g x w1) -> bind m f w = bind m g w.
Proof. intros H. unfold bind. destruct (m w) as [[x|e] w1]; [apply H | reflexivity]. Qed.

(** The loop over the lines of two reads is the loop over the lines of
    the first, then (unless the sentinel was read) over those of the
    second. *)
Lemma process_lines_app (l1 l2 : list string) (acc : A) (w : World) :
  Sse.process_lines onChunk (l1 ++ l2) acc w
  = bind (Sse.process_lines onChunk l1 acc)
         (fun r => if fst r then ret r else Sse.process_lines onChunk l2 (snd r)) w.
Proof.
  revert acc w. induction l1 as [|line rest IH]; intros acc w.
  - reflexivity.
  - cbn [app Sse.process_lines].
    destruct (String.eqb (trim line) EmptyString || startsWith (trim line) ":")%bool;
      [apply IH|].
    destruct (startsWith (trim line) "data: "); [|apply IH].
    destruct (String.eqb (slice 6 (trim line)) "[DONE]").
    + rewrite bind_assoc. reflexivity.
    + rewrite bind_assoc. apply bind_ext. intros acc' w1. apply IH.
Qed.

(** Two reads, or one read of their concatenation: the same run. *)
Lemma read_loop_merge (c1 c2 : string) (rest : list (Settled string))
    (buffer : string) (acc : A) (w : World) :
  Sse.read_loop onChunk (Fulfilled c1 :: Fulfilled c2 :: rest) buffer acc w
  = Sse.read_loop onChunk (Fulfilled (c1 ++ c2) :: rest) buffer acc w.
Proof.
  cbn [Sse.read_loop].
  rewrite !pop_split.
  rewrite <- (string_app_assoc buffer c1 c2).
  rewrite (cut_app (byte 10) (buffer ++ c1) c2).
  cbn [fst snd].
  symmetry.
  rewrite (bind_cong_l _ _ _ w (fun w' => process_lines_app _ _ acc w')).
  rewrite bind_assoc.
  apply bind_ext. intros [returned acc1] w1. cbn [fst snd].
  destruct returned; reflexivity.
Qed.

Lemma read_loop_cons_ext (c : string) (rest1 rest2 : list (Settled string))
    (buffer : string) (acc : A) (w : World) :
  (forall buffer' acc' w', occurs (byte 10) buffer' = false ->
     Sse.read_loop onChunk rest1 buffer' acc' w' = Sse.read_loop onChunk rest2 buffer' acc' w') ->
  Sse.read_loop onChunk (Fulfilled c :: rest1) buffer acc w
  = Sse.read_loop onChunk (Fulfilled c :: rest2) buffer acc w.
Proof.
  intros H. cbn [Sse.read_loop]. rewrite pop_split.
  apply bind_ext. intros [returned acc1] w1. cbn [fst snd].
  destruct returned; [reflexivity|]. apply H, cut_remainder.
Qed.

Lemma read_loop_empty_read (buffer : string) (acc : A) (w : World) :
  occurs (byte 10) buffer = false ->
  Sse.read_loop onChunk [Fulfilled EmptyString] buffer acc w
  = Sse.read_loop onChunk [] buffer acc w.
Proof.
  intros H. cbn [Sse.read_loop]. rewrite pop_split.
  rewrite string_app_nil_r.
  rewrite (cut_without_separator _ _ H). reflexivity.
Qed.

(** The run of the loop depends on the text that the reads deliver, not on
    where the reads cut it. *)
Theorem read_loop_chunking (chunks : list string) (buffer : string) (acc : A) (w : World) :
  occurs (byte 10) buffer = false ->
  Sse.read_loop onChunk (map (fun c => Fulfilled c) chunks) buffer acc w
  = Sse.read_loop onChunk [Fulfilled (String.concat EmptyString chunks)] buffer acc w.
Proof.
  revert buffer acc w. induction chunks as [|c cs IH]; intros buffer acc w Hb.
  - cbn [map String.concat]. symmetry. apply read_loop_empty_read, Hb.
  - cbn [map].
    rewrite (read_loop_cons_ext c _ [Fulfilled (String.concat EmptyString cs)])
      by (intros; apply IH; assumption).
    rewrite read_loop_merge.
    destruct cs as [|c' cs'].
    + cbn [String.concat]. rewrite string_app_nil_r. reflexivity.
    + reflexivity.
Qed.


Lemma framed_ret {X : Type} (x : X) : framed (ret x).
Proof. intros en net tr. unfold with_history. cbn. now rewrite app_nil_r. Qed.

Lemma framed_throw {X : Type} (e : Thrown) : framed (throw (A := X) e).
Proof. intros en net tr. unfold with_history. cbn. now rewrite app_nil_r. Qed.

Lemma framed_emit (e : Event) : framed (emit e).
Proof. intros en net tr. reflexivity. Qed.

Lemma framed_bind {X Y : Type} (m : M X) (k : X -> M Y) :
  framed m -> (forall x, framed (k x)) -> framed (bind m k).
Proof.
  intros Hm Hk en net tr. unfold bind. rewrite Hm.
  destruct (m {| env := en; network := net; trace := [] |}) as [[x|e] [en1 net1 tr1]];
    unfold with_history; cbn [fst snd env network trace].
  - rewrite (Hk x en1 net1 (tr ++ tr1)%list), (Hk x en1 net1 tr1).
    unfold with_history. cbn [fst snd env network trace].
    now rewrite app_assoc.
  - reflexivity.
Qed.

Lemma framed_try_catch {X : Type} (m : M X) (h : Thrown -> M X) :
  framed m -> (forall e, framed (h e)) -> framed (try_catch m h).
Proof.
  intros Hm Hh en net tr. unfold try_catch. rewrite Hm.
  destruct (m {| env := en; network := net; trace := [] |}) as [[x|e] [en1 net1 tr1]];
    unfold with_history; cbn [fst snd env network trace].
  - reflexivity.
  - rewrite (Hh e en1 net1 (tr ++ tr1)%list), (Hh e en1 net1 tr1).
    unfold with_history. cbn [fst snd env network trace].
    now rewrite app_assoc.
Qed.

Lemma framed_prop (v : value) (k : string) : framed (prop v k).
Proof. destruct v as [[]|]; cbn [prop]; auto using framed_ret, framed_throw. Qed.

Lemma framed_JSON_parse_value (v : value) : framed (JSON_parse_value v).
Proof.
  unfold JSON_parse_value.
  destruct (JSON_parse (toString v)); auto using framed_ret, framed_throw.
Qed.

Lemma framed_handle_data (data : string) (acc : A) : framed (Sse.handle_data onChunk data acc).
Proof.
  unfold Sse.handle_data.
  apply framed_try_catch.
  - apply framed_bind; [apply framed_JSON_parse_value|]. intros parsed.
    apply framed_bind; [apply framed_prop|]. intros choices.
    apply framed_bind.
    + destruct (opt_field (opt_field (opt_index0 choices) "delta") "content") as [chunk|];
        [|apply framed_ret].
      destruct (truthy (Some chunk)); [|apply framed_ret].
      apply framed_bind; [apply framed_emit | intros; apply framed_ret].
    + intros acc'.
      apply framed_bind; [apply framed_prop|]. intros choices'.
      apply framed_bind; [|intros; apply framed_ret].
      destruct (truthy (opt_field (opt_index0 choices') "finish_reason"));
        [apply framed_emit | apply framed_ret].
  - intros e. apply framed_bind; [apply framed_emit | intros; apply framed_ret].
Qed.

Lemma framed_process_lines (lines : list string) (acc : A) :
  framed (Sse.process_lines onChunk lines acc).
Proof.
  revert acc. induction lines as [|line rest IH]; intros acc; cbn [Sse.process_lines].
  - apply framed_ret.
  - destruct (String.eqb (trim line) EmptyString || startsWith (trim line) ":")%bool;
      [apply IH|].
    destruct (startsWith (trim line) "data: "); [|apply IH].
    destruct (String.eqb (slice 6 (trim line)) "[DONE]").
    + apply framed_bind; [apply framed_emit | intros; apply framed_ret].
    + apply framed_bind; [apply framed_handle_data | intros; apply IH].
Qed.

Lemma framed_read_loop (reads : list (Settled string)) (buffer : string) (acc : A) :
  framed (Sse.read_loop onChunk reads buffer acc).
Proof.
  revert buffer acc. induction reads as [|[chunk|e] rest IH]; intros buffer acc;
    cbn [Sse.read_loop].
  - apply framed_bind; [apply framed_emit | intros; apply framed_ret].
  - destruct (pop (split (byte 10) (buffer ++ chunk))) as [last lines].
    apply framed_bind; [apply framed_process_lines|]. intros [returned acc1].
    cbn [fst snd]. destruct returned; [apply framed_ret | apply IH].
  - apply framed_throw.
Qed.

End StreamProperties.

(** ** The streaming transport *)

Section StreamingTransport.
Context {Num : JsNumber}.

(** With a key and a 2xx reply that has a body, [callGeminiAPIForStream]
    is the loop over the reads of that body, inside the [try]. *)
Lemma callGeminiAPIForStream_ok {A : Type} (messages : list Message) (onChunk : JSON -> A -> A)
    (options : GeminiApi.ImageAnalysisOptions) (acc : A)
    (w : World) (resp : Response) (rest : list (Settled Response))
    (reads : list (Settled string)) :
  GeminiApi.string_truthy (GeminiApi.resolve_apiKey options (env w)) = true ->
  network w = Fulfilled resp :: rest ->
  ok resp = true ->
  body resp = Some reads ->
  GeminiApi.callGeminiAPIForStream messages onChunk options acc w
  = try_catch (Sse.read_loop onChunk reads EmptyString acc)
              (fun error => emit (OnError (as_Error error)) ;; throw (as_Error error))
              (consumed w (stream_request messages options (env w))).
Proof.
  intros Hkey Hnet Hok Hbody.
  destruct w as [en net tr]. cbn [env network] in Hkey, Hnet. subst net.
  unfold GeminiApi.callGeminiAPIForStream. run. rewrite Hkey.
  cbv beta iota delta [negb]. unfold fetch. run. rewrite Hok.
  cbv beta iota delta [negb]. unfold Sse.read_body. rewrite Hbody.
  reflexivity.
Qed.

(** The four frames in one read, on a world with an empty trace. *)
Lemma read_four_frames {A : Type} (onChunk : JSON -> A -> A) (acc : A)
    (en : Env) (net : list (Settled Response)) :
  Sse.read_loop onChunk [Fulfilled Sample.four_frames] EmptyString acc
    {| env := en; network := net; trace := [] |}
  = (Return (onChunk (JStr "bar") (onChunk (JStr "foo") acc)),
     {| env := en; network := net;
        trace := [OnChunk (JStr "foo"); Console WarnLevel; OnChunk (JStr "bar"); OnComplete] |}).
Proof. vm_compute. reflexivity. Qed.

(** C4.  The reply streams the four frames, one per line, cut into reads
    in any way.  Then [onChunk] is invoked with `foo' and with `bar', in
    this order (the text accumulated is `foobar'); the frame that is not
    JSON costs a warning on the console and nothing else; [onComplete] is
    invoked once, at the sentinel; [onError] is not invoked, and the call
    returns. *)
Theorem four_frames_accumulate_foobar
    {A : Type} (messages : list Message) (onChunk : JSON -> A -> A)
    (options : GeminiApi.ImageAnalysisOptions) (acc : A)
    (w : World) (resp : Response) (rest : list (Settled Response)) (chunks : list string) :
  GeminiApi.string_truthy (GeminiApi.resolve_apiKey options (env w)) = true ->
  network w = Fulfilled resp :: rest ->
  ok resp = true ->
  body resp = Some (map (fun c => Fulfilled c) chunks) ->
  String.concat EmptyString chunks = Sample.four_frames ->
  let events := [OnChunk (JStr "foo"); Console WarnLevel; OnChunk (JStr "bar"); OnComplete] in
  GeminiApi.callGeminiAPIForStream messages onChunk options acc w
  = (Return (onChunk (JStr "bar") (onChunk (JStr "foo") acc)),
     logged (consumed w (stream_request messages options (env w))) events)
  /\ GeminiApi.append_chunk (JStr "bar") (GeminiApi.append_chunk (JStr "foo") EmptyString)
     = "foobar"
  /\ count is_complete events = 1
  /\ count is_error events = 0.
Proof.
  intros Hkey Hnet Hok Hbody Hconcat events.
  split; [|repeat split].
  rewrite (callGeminiAPIForStream_ok messages onChunk options acc w resp rest _
             Hkey Hnet Hok Hbody).
  unfold try_catch.
  rewrite read_loop_chunking by reflexivity.
  rewrite Hconcat.
  destruct w as [en net tr]. unfold consumed. cbn [env network trace].
  rewrite framed_read_loop, read_four_frames.
  reflexivity.
Qed.

End StreamingTransport.

Lemma four_frames_accumulate_foobar_witness :
  GeminiApi.callGeminiAPIForStream (Num := LiteralNumber) Sample.hello Sample.append_text
    (Sample.gemini_options "key") EmptyString
    (Sample.world Sample.no_env
       [Sample.stream_reply
          [Sample.frame_foo ++ Sample.nl; Sample.frame_garbage ++ Sample.nl;
           Sample.frame_bar ++ Sample.nl; Sample.frame_done ++ Sample.nl]])
  = (Return "foobar",
     {| env := Sample.no_env; network := [];
        trace := [Fetch (stream_request Sample.hello (Sample.gemini_options "key") Sample.no_env);
                  OnChunk (JStr "foo"); Console WarnLevel; OnChunk (JStr "bar"); OnComplete] |}).
Proof.
  apply (four_frames_accumulate_foobar (Num := LiteralNumber) Sample.hello
           Sample.append_text (Sample.gemini_options "key") EmptyString
           (Sample.world Sample.no_env
              [Sample.stream_reply
                 [Sample.frame_foo ++ Sample.nl; Sample.frame_garbage ++ Sample.nl;
                  Sample.frame_bar ++ Sample.nl; Sample.frame_done ++ Sample.nl]])
           _ [] _ eq_refl eq_refl eq_refl eq_refl eq_refl).
Defined.

(** The same four frames written as events (blank lines, CR LF, nothing
    after the sentinel) and read in two pieces: the same callbacks, the
    completion coming from the end of the stream. *)
Lemma four_events_accumulate_foobar :
  GeminiApi.callGeminiAPIForStream (Num := LiteralNumber) Sample.hello Sample.append_text
    (Sample.gemini_options "key") EmptyString
    (Sample.world Sample.no_env
       [Sample.stream_reply [Sample.frame_foo ++ Sample.crlf;
                             Sample.crlf ++ Sample.frame_garbage ++ Sample.crlf ++ Sample.crlf
                             ++ Sample.frame_bar ++ Sample.crlf ++ Sample.crlf
                             ++ Sample.frame_done]])
  = (Return "foobar",
     {| env := Sample.no_env; network := [];
        trace := [Fetch (stream_request Sample.hello (Sample.gemini_options "key") Sample.no_env);
                  OnChunk (JStr "foo"); Console WarnLevel; OnChunk (JStr "bar"); OnComplete] |}).
Proof. vm_compute. reflexivity. Qed.

(** C3, at the failing input.  A frame with a finish reason and then the
    sentinel, as the chat endpoints stream them: both transports invoke
    [onComplete] at the finish reason and go on reading, and invoke it
    again at the sentinel. *)
Lemma finish_reason_then_done_completes_twice :
  let gemini :=
    after (GeminiApi.callGeminiAPIForStream (Num := LiteralNumber) Sample.hello
             Sample.append_text (Sample.gemini_options "key") EmptyString)
          (Sample.world Sample.no_env [Sample.stream_reply [Sample.stop_then_done]]) in
  let llm :=
    after (Llm.callGemini25ProWithHistory (Num := LiteralNumber) Sample.hello
             Sample.append_text (Sample.llm_options "key" None None) EmptyString)
          (Sample.world Sample.no_env [Sample.stream_reply [Sample.stop_then_done]]) in
  filter (fun e => negb (is_fetch e)) (trace gemini)
  = [OnChunk (JStr "hi"); OnComplete; OnComplete]
  /\ count is_complete (trace gemini) = 2
  /\ filter (fun e => negb (is_fetch e)) (trace llm)
     = [OnChunk (JStr "hi"); OnComplete; OnComplete]
  /\ count is_complete (trace llm) = 2
  /\ count is_error (trace gemini) = 0 /\ count is_error (trace llm) = 0.
Proof. vm_compute. repeat split. Qed.

(** ** The callbacks of the streaming transports

    What holds of the invocations of [onError] and [onComplete] in every
    run: [onError] is invoked at most once and is then the last event of
    the call, with the error that the call throws; a call that returns has
    invoked [onComplete] at least once (at least: a frame with a finish
    reason does not end the loop). *)

Section CallbackProperties.
Context {Num : JsNumber}.
Variable A : Type.
Variable onChunk : JSON -> A -> A.

Lemma logged_nil (w : World) : logged w [] = w.
Proof. destruct w. unfold logged. cbn. now rewrite app_nil_r. Qed.

Lemma logged_logged (w : World) (e1 e2 : list Event) :
  logged (logged w e1) e2 = logged w (e1 ++ e2).
Proof. unfold logged. cbn. now rewrite app_assoc. Qed.

(** One data line: the call returns, and leaves chunks, completions and
    console lines only. *)
Lemma handle_data_events (data : string) (acc : A) (w : World) :
  exists acc' events,
    Sse.handle_data onChunk data acc w = (Return acc', logged w events)
    /\ count is_error events = 0.
Proof.
  destruct w as [en net tr].
  unfold Sse.handle_data, JSON_parse_value. run.
  destruct (JSON_parse (toString (Some (JStr data)))) as [parsed|]; run;
    [|exists acc, [Console WarnLevel]; split; [same_world | reflexivity]].
  destruct parsed; unfold prop; run;
    try (exists acc, [Console WarnLevel]; split; [same_world | reflexivity]);
    repeat match goal with
           | |- context [match ?c with Some _ => _ | None => _ end] => destruct c; run
           | |- context [if truthy ?c then _ else _] => destruct (truthy c); run
           end;
    eexists; eexists;
    (split;
     [ unfold logged; cbn [env network trace]; rewrite <- ?app_assoc; cbn [app];
       first [ reflexivity | symmetry; rewrite app_nil_r; reflexivity ]
     | first [ reflexivity | instantiate (1 := []); reflexivity ] ]).
Qed.


(** The loop over the lines of one read. *)
Lemma process_lines_events (lines : list string) (acc : A) (w : World) :
  exists r events,
    Sse.process_lines onChunk lines acc w = (Return r, logged w events)
    /\ count is_error events = 0
    /\ (fst r = true -> 1 <= count is_complete events).
Proof.
  revert acc w. induction lines as [|line rest IH]; intros acc w; cbn [Sse.process_lines].
  - exists (false, acc), []. rewrite logged_nil. repeat split. discriminate.
  - destruct (String.eqb (trim line) EmptyString || startsWith (trim line) ":")%bool;
      [apply IH|].
    destruct (startsWith (trim line) "data: "); [|apply IH].
    destruct (String.eqb (slice 6 (trim line)) "[DONE]").
    + exists (true, acc), [OnComplete]. repeat split. cbn. lia.
    + destruct (handle_data_events (slice 6 (trim line)) acc w) as (acc1 & ev1 & H1 & E1).
      rewrite (bind_of_return _ _ _ _ _ H1).
      destruct (IH acc1 (logged w ev1)) as (r & ev2 & H2 & E2 & C2).
      exists r, (ev1 ++ ev2)%list. rewrite H2, logged_logged.
      split; [reflexivity|]. rewrite !count_app, E1, E2. split; [reflexivity|].
      intros Hr. specialize (C2 Hr). lia.
Qed.

(** The loop over the reads: it throws only what a read rejects with. *)
Lemma read_loop_events (reads : list (Settled string)) (buffer : string) (acc : A) (w : World) :
  exists res events,
    Sse.read_loop onChunk reads buffer acc w = (res, logged w events)
    /\ count is_error events = 0
    /\ (forall a, res = Return a -> 1 <= count is_complete events).
Proof.
  revert buffer acc w. induction reads as [|[chunk|e] rest IH]; intros buffer acc w;
    cbn [Sse.read_loop].
  - exists (Return acc), [OnComplete]. repeat split. cbn. lia.
  - destruct (pop (split (byte 10) (buffer ++ chunk))) as [last lines].
    destruct (process_lines_events lines acc w) as ([returned acc1] & ev1 & H1 & E1 & C1).
    rewrite (bind_of_return _ _ _ _ _ H1). cbn [fst snd] in *.
    destruct returned.
    + exists (Return acc1), ev1. repeat split; auto.
    + destruct (IH (match last with Some l => l | None => EmptyString end) acc1 (logged w ev1))
        as (res & ev2 & H2 & E2 & C2).
      exists res, (ev1 ++ ev2)%list. rewrite H2, logged_logged.
      split; [reflexivity|]. rewrite !count_app, E1, E2. split; [reflexivity|].
      intros a Ha. specialize (C2 a Ha). lia.
  - exists (Throw e), []. rewrite logged_nil. repeat split. discriminate.
Qed.

(** What the [try] of a streaming transport does with its reply, and the
    [catch] around it: the shape shared by [callGeminiAPIForStream] and
    by the two transports of llm.ts. *)
Lemma guarded_stream_events (attempt : M A) (w : World) :
  (exists res w' events,
      attempt w = (res, w') /\ trace w' = (trace w ++ events)%list
      /\ count is_error events = 0
      /\ (forall a, res = Return a -> 1 <= count is_complete events)) ->
  exists res w' events,
    try_catch attempt
      (fun error => emit (OnError (as_Error error)) ;; throw (as_Error error)) w
    = (res, w')
    /\ trace w' = (trace w ++ events)%list
    /\ callbacks_in_order res events.
Proof.
  intros (res & w' & events & H & T & E & C).
  unfold try_catch. rewrite H.
  destruct res as [a|e].
  - exists (Return a), w', events. split; [reflexivity|]. split; [exact T|]. left. auto.
  - exists (Throw (as_Error e)), (logged w' [OnError (as_Error e)]),
      (events ++ [OnError (as_Error e)])%list.
    split; [reflexivity|]. split.
    + unfold logged. cbn [trace]. rewrite T, app_assoc. reflexivity.
    + right. exists events, (as_Error e). auto.
Qed.

(** After the request: the branch for a reply that is not 2xx, or the
    loop over the body. *)
Lemma read_body_events (resp : Response) (acc : A) (w : World) :
  exists res events,
    Sse.read_body onChunk resp acc w = (res, logged w events)
    /\ count is_error events = 0
    /\ (forall a, res = Return a -> 1 <= count is_complete events).
Proof.
  unfold Sse.read_body. destruct (body resp) as [reads|].
  - apply read_loop_events.
  - exists (Throw (new_Error "Response body is not readable")), [].
    rewrite logged_nil. repeat split. discriminate.
Qed.

Lemma llm_fail_with_status_throws {X : Type} (resp : Response) (w : World) :
  exists msg, Llm.fail_with_status (A := X) resp w = (Throw (new_Error msg), w).
Proof.
  destruct w as [en net tr].
  unfold Llm.fail_with_status. run.
  destruct (json resp) as [data|e]; run; [|eexists; reflexivity].
  destruct data; unfold prop; run; try (eexists; reflexivity).
  destruct (truthy (opt_field (field (JObj members) "error") "message")); run;
    [|eexists; reflexivity].
  unfold to_text.
  destruct (converts (opt_field (field (JObj members) "error") "message")); run;
    eexists; reflexivity.
Qed.

(** The attempt of a streaming transport: the request, then the reply. *)
Lemma stream_attempt_events (request : Request) (fail : Response -> M unit) (acc : A)
    (w : World) :
  (forall resp w1, exists msg events,
      fail resp w1 = (Throw (new_Error msg), logged w1 events) /\ count is_error events = 0) ->
  exists res w' events,
    (response <- fetch request ;;
     (if negb (ok response) then fail response else ret tt) ;;
     Sse.read_body onChunk response acc) w
    = (res, w')
    /\ trace w' = (trace w ++ events)%list
    /\ count is_error events = 0
    /\ (forall a, res = Return a -> 1 <= count is_complete events).
Proof.
  intros Hfail.
  destruct w as [en net tr]. unfold fetch at 1. unfold bind at 1.
  cbn [env network trace].
  destruct net as [|[resp|e] rest].
  - eexists (Throw failed_to_fetch), _, [Fetch request].
    split; [reflexivity|]. repeat split. discriminate.
  - set (w1 := {| env := en; network := rest; trace := tr ++ [Fetch request] |}).
    destruct (ok resp); cbv beta iota delta [negb].
    + rewrite (bind_of_return (ret tt) _ w1 w1 tt) by reflexivity.
      destruct (read_body_events resp acc w1) as (res & events & H & E & C).
      exists res, (logged w1 events), (Fetch request :: events).
      split; [exact H|].
      split; [subst w1; unfold logged; cbn [env network trace];
              rewrite <- app_assoc; reflexivity|].
      split; [exact E|]. intros a Ha. apply (C a Ha).
    + destruct (Hfail resp w1) as (msg & events & H & E).
      rewrite (bind_of_throw _ _ _ _ _ H).
      exists (Throw (new_Error msg)), (logged w1 events), (Fetch request :: events).
      split; [reflexivity|].
      split; [subst w1; unfold logged; cbn [env network trace];
              rewrite <- app_assoc; reflexivity|].
      split; [exact E|]. discriminate.
  - eexists (Throw e), _, [Fetch request].
    split; [reflexivity|]. repeat split. discriminate.
Qed.

Lemma callGeminiAPIForStream_callbacks (messages : list Message)
    (options : GeminiApi.ImageAnalysisOptions) (acc : A) (w : World) :
  exists res w' events,
    GeminiApi.callGeminiAPIForStream messages onChunk options acc w = (res, w')
    /\ trace w' = (trace w ++ events)%list
    /\ callbacks_in_order res events.
Proof.
  unfold GeminiApi.callGeminiAPIForStream.
  rewrite (bind_of_return get_env _ w w (env w)) by reflexivity.
  destruct (GeminiApi.string_truthy (GeminiApi.resolve_apiKey options (env w)));
    cbv beta iota delta [negb].
  - apply guarded_stream_events, stream_attempt_events.
    intros resp w1.
    destruct (gemini_fail_with_status_throws (A := unit) resp w1) as (msg & events & H & E).
    exists msg, events. split; [exact H|]. destruct E as [-> | ->]; reflexivity.
  - exists (Throw GeminiApi.missing_key), w, [].
    split; [reflexivity|]. split; [now rewrite app_nil_r|].
    left. split; [reflexivity | discriminate].
Qed.

Lemma llm_send_stream_callbacks (messages : list Message)
    (options : Llm.ImageAnalysisOptions) (acc : A) (w : World) :
  exists res w' events,
    Llm.send_stream messages onChunk options acc w = (res, w')
    /\ trace w' = (trace w ++ events)%list
    /\ callbacks_in_order res events.
Proof.
  unfold Llm.send_stream.
  apply guarded_stream_events, stream_attempt_events.
  intros resp w1.
  destruct (llm_fail_with_status_throws (X := unit) resp w1) as (msg & H).
  exists msg, []. rewrite logged_nil. split; [exact H | reflexivity].
Qed.

Lemma callGemini25ProWithHistory_callbacks (messages : list Message)
    (options : Llm.ImageAnalysisOptions) (acc : A) (w : World) :
  exists res w' events,
    Llm.callGemini25ProWithHistory messages onChunk options acc w = (res, w')
    /\ trace w' = (trace w ++ events)%list
    /\ callbacks_in_order res events.
Proof.
  unfold Llm.callGemini25ProWithHistory.
  destruct (String.eqb (Llm.apiKey options) EmptyString);
    [early_throw Llm.api_key_required w|].
  destruct (Nat.eqb (List.length messages) 0); [early_throw Llm.messages_required w|].
  destruct (Llm.budget_exceeds (Llm.thinking options)
              (Llm.default (Llm.maxTokens options) 8192%Z));
    [early_throw Llm.invalid_tuning w|].
  apply llm_send_stream_callbacks.
Qed.

Lemma callGemini25Pro_callbacks (prompt : string)
    (options : Llm.ImageAnalysisOptions) (acc : A) (w : World) :
  exists res w' events,
    Llm.callGemini25Pro prompt onChunk options acc w = (res, w')
    /\ trace w' = (trace w ++ events)%list
    /\ callbacks_in_order res events.
Proof.
  unfold Llm.callGemini25Pro.
  destruct (String.eqb (Llm.apiKey options) EmptyString);
    [early_throw Llm.api_key_required w|].
  destruct (String.eqb prompt EmptyString); [early_throw Llm.prompt_required w|].
  destruct (Llm.budget_exceeds (Llm.thinking options)
              (Llm.default (Llm.maxTokens options) 8192%Z));
    [early_throw Llm.invalid_tuning w|].
  apply llm_send_stream_callbacks.
Qed.

End CallbackProperties.

(** ** The fuel of the platform functions is enough *)

Lemma option_cons_inv {X : Type} (x : X) (o : option (list X * string))
    (l : list X) (r : string) :
  option_cons x o = Some (l, r) -> exists l', o = Some (l', r).
Proof.
  destruct o as [[l' r']|]; cbn; [|discriminate].
  intros [= _ <-]. now exists l'.
Qed.

(** A string literal that is scanned is consumed: the rest is shorter. *)
Lemma scan_string_shorter (n : nat) :
  forall (s : string) (units : list SUnit) (r : string),
    String.length s <= n -> scan_string s = Some (units, r) ->
    String.length r < String.length s.
Proof.
  induction n as [|n IH]; intros s units r Hn H.
  - destruct s; [discriminate | cbn in Hn; lia].
  - destruct s as [|c s1]; [discriminate|].
    cbn [scan_string] in H. cbn [String.length] in *.
    destruct (Ascii.eqb c dquote); [injection H as _ <-; lia|].
    destruct (Ascii.eqb c "\").
    + destruct s1 as [|e s2]; [discriminate|]. cbn [String.length] in *.
      destruct (Ascii.eqb e "u").
      * destruct s2 as [|h1 [|h2 [|h3 [|h4 s6]]]]; try discriminate.
        cbn [String.length] in *.
        destruct (hex4 h1 h2 h3 h4); [|discriminate].
        apply option_cons_inv in H as (l' & H).
        apply IH in H; lia.
      * destruct (simple_escape e); [|discriminate].
        apply option_cons_inv in H as (l' & H).
        apply IH in H; lia.
    + destruct (Nat.ltb (nat_of_ascii c) 32); [discriminate|].
      apply option_cons_inv in H as (l' & H).
      apply IH in H; lia.
Qed.

Lemma span_digits_length (s : string) :
  String.length (snd (span_digits s)) <= String.length s.
Proof.
  induction s as [|c r IH]; cbn [span_digits]; [cbn; lia|].
  destruct (is_digit c); [|cbn; lia].
  destruct (span_digits r) as [d r']. cbn [snd String.length] in *. lia.
Qed.

(** A number literal that is scanned is not empty: the rest is shorter. *)
Lemma scan_number_shorter (s lit r : string) :
  scan_number s = Some (lit, r) -> String.length r < String.length s.
Proof.
  unfold scan_number.
  assert (Hint : forall s1 i s2, scan_int s1 = Some (i, s2) ->
                                 String.length s2 < String.length s1).
  { intros s1 i s2. unfold scan_int. destruct s1 as [|c r1]; [discriminate|].
    destruct (Ascii.eqb c "0"); [intros [= _ <-]; cbn; lia|].
    destruct (is_digit c); [|discriminate].
    pose proof (span_digits_length r1) as Hs.
    destruct (span_digits r1) as [d r']. intros [= _ <-]. cbn in *. lia. }
  assert (Hfrac : forall s1 f s2, scan_frac s1 = Some (f, s2) ->
                                  String.length s2 <= String.length s1).
  { intros s1 f s2. unfold scan_frac. destruct s1 as [|c r1]; [intros [= _ <-]; lia|].
    destruct (Ascii.eqb_spec c "."%char) as [->|Hc].
    - pose proof (span_digits_length r1) as Hs.
      destruct (span_digits r1) as [[|d0 d] r']; [discriminate|].
      intros [= _ <-]. cbn in *. lia.
    - destruct c as [[] [] [] [] [] [] [] []]; try (intros [= _ <-]; lia).
      now contradiction Hc. }
  assert (Hexp : forall s1 e s2, scan_exp s1 = Some (e, s2) ->
                                 String.length s2 <= String.length s1).
  { intros s1 e s2. unfold scan_exp. destruct s1 as [|c r1]; [intros [= _ <-]; lia|].
    destruct (Ascii.eqb c "e" || Ascii.eqb c "E")%bool; [|intros [= _ <-]; lia].
    assert (Hsign : forall r2 sign,
               match span_digits r2 with
               | (EmptyString, _) => None
               | (d, r') => Some (String c (sign ++ d), r')
               end = Some (e, s2) -> String.length s2 <= String.length r2).
    { intros r2 sign. pose proof (span_digits_length r2) as Hs.
      destruct (span_digits r2) as [[|d0 d] r']; [discriminate|].
      intros [= _ <-]. exact Hs. }
    destruct r1 as [|c1 r2].
    - intros H. apply Hsign in H. cbn in *. lia.
    - destruct c1 as [[] [] [] [] [] [] [] []];
        intros H; apply Hsign in H; cbn [String.length] in *; lia. }
  destruct s as [|c s1].
  - cbn. discriminate.
  - assert (Hsigned : forall sign s0,
               String.length s0 <= String.length (String c s1) ->
               match scan_int s0 with
               | None => None
               | Some (i, s2) =>
                   match scan_frac s2 with
                   | None => None
                   | Some (f, s3) =>
                       match scan_exp s3 with
                       | None => None
                       | Some (e, s4) => Some (sign ++ i ++ f ++ e, s4)
                       end
                   end
               end = Some (lit, r) -> String.length r < String.length (String c s1)).
    { intros sign s0 Hle.
      destruct (scan_int s0) as [[i s2]|] eqn:Ei; [|discriminate].
      destruct (scan_frac s2) as [[f s3]|] eqn:Ef; [|discriminate].
      destruct (scan_exp s3) as [[e s4]|] eqn:Ee; [|discriminate].
      intros [= _ <-].
      apply Hint in Ei. apply Hfrac in Ef. apply Hexp in Ee. lia. }
    destruct c as [[] [] [] [] [] [] [] []];
      intros H; apply Hsigned in H; cbn [String.length] in *; lia.
Qed.

Lemma slice_length (k : nat) (s : string) :
  String.length (slice k s) = String.length s - k.
Proof.
  revert s. induction k as [|k IH]; intros s; cbn [slice].
  - lia.
  - destruct s as [|c r]; cbn [String.length]; [reflexivity | apply IH].
Qed.

(** The lexer never runs out of fuel: any fuel from the length of the text
    on gives the same tokens. *)
Lemma lex_fuel_irrelevant (n : nat) :
  forall (m : nat) (s : string),
    String.length s <= n -> String.length s <= m -> lex n s = lex m s.
Proof.
  induction n as [|n IH]; intros m s Hn Hm.
  - destruct s; [destruct m; reflexivity | cbn in Hn; lia].
  - destruct s as [|c r]; [destruct m; reflexivity|].
    destruct m as [|m]; [cbn in Hm; lia|].
    cbn [String.length] in Hn, Hm.
    cbn [lex].
    destruct (is_json_ws c); [apply IH; lia|].
    destruct (punctuator c); [f_equal; apply IH; lia|].
    destruct (Ascii.eqb c dquote).
    { destruct (scan_string r) as [[units r']|] eqn:E; [|reflexivity].
      apply (scan_string_shorter (String.length r)) in E; [|lia].
      f_equal. apply IH; lia. }
    destruct (startsWith (String c r) "true").
    { f_equal. apply IH; rewrite slice_length; cbn [String.length]; lia. }
    destruct (startsWith (String c r) "false").
    { f_equal. apply IH; rewrite slice_length; cbn [String.length]; lia. }
    destruct (startsWith (String c r) "null").
    { f_equal. apply IH; rewrite slice_length; cbn [String.length]; lia. }
    destruct (scan_number (String c r)) as [[lit r']|] eqn:E; [|reflexivity].
    apply scan_number_shorter in E. cbn [String.length] in E.
    f_equal. apply IH; lia.
Qed.

Lemma startsWith_length (s w : string) :
  startsWith s w = true -> String.length w <= String.length s.
Proof.
  revert s. induction w as [|c w IH]; intros s; cbn [startsWith String.length]; [lia|].
  destruct s as [|x s]; [discriminate|].
  intros H. apply Bool.andb_true_iff in H as [_ H]. apply IH in H.
  cbn [String.length]. lia.
Qed.

Lemma strip1_shorter (ws : list string) (s s' : string) :
  Forall (fun w => w <> EmptyString) ws ->
  strip1 ws s = Some s' -> String.length s' < String.length s.
Proof.
  intros Hws. unfold strip1.
  destruct (find (fun w => startsWith s w) ws) as [w|] eqn:E; [|discriminate].
  intros [= <-]. apply find_some in E as [Hin Hw].
  rewrite Forall_forall in Hws. specialize (Hws w Hin).
  apply startsWith_length in Hw. rewrite slice_length.
  destruct w; [congruence | cbn [String.length] in *; lia].
Qed.

(** The rounds of [trimStart] are enough: what comes out has no white
    space in front (and the same for [trimEnd], on the reversed text). *)
Lemma trimStart_fuel_stripped (ws : list string) (n : nat) :
  Forall (fun w => w <> EmptyString) ws ->
  forall s, String.length s <= n -> strip1 ws (trimStart_fuel ws n s) = None.
Proof.
  intros Hws. induction n as [|n IH]; intros s Hn; cbn [trimStart_fuel].
  - destruct s; [|cbn in Hn; lia].
    unfold strip1.
    destruct (find (fun w => startsWith EmptyString w) ws) as [w|] eqn:E; [|reflexivity].
    apply find_some in E as [Hin Hw].
    rewrite Forall_forall in Hws. specialize (Hws w Hin).
    destruct w; [congruence | discriminate].
  - destruct (strip1 ws s) as [s'|] eqn:E; [|exact E].
    apply IH. apply (strip1_shorter _ _ _ Hws) in E. lia.
Qed.

Lemma js_whitespace_not_empty : Forall (fun w => w <> EmptyString) js_whitespace.
Proof. repeat constructor; discriminate. Qed.

Lemma trimStart_stripped (s : string) : strip1 js_whitespace (trimStart s) = None.
Proof. apply trimStart_fuel_stripped; [apply js_whitespace_not_empty | reflexivity]. Qed.

(* ===================================================================== *)
(** * Further properties: the transports                                  *)
(* ===================================================================== *)

Section TransportErrors.
Context {Num : JsNumber}.

Lemma gemini_fail_with_status_run {X : Type} (resp : Response) (w : World) :
  GeminiApi.fail_with_status (A := X) resp w
  = (Throw (gemini_http_error resp),
     logged w (match json resp with Fulfilled _ => [Console ErrorLevel] | Rejected _ => [] end)).
Proof.
  destruct w as [en net tr].
  unfold GeminiApi.fail_with_status, gemini_http_error, provider_message, status_line. run.
  destruct (json resp) as [data|e]; run.
  - destruct data; unfold prop; run; try same_world.
    destruct (truthy (opt_field (field (JObj members) "error") "message")); run; same_world.
  - unfold logged. cbn [env network trace]. rewrite app_nil_r. reflexivity.
Qed.

Lemma llm_fail_with_status_run {X : Type} (resp : Response) (w : World) :
  Llm.fail_with_status (A := X) resp w = (Throw (llm_http_error resp), w).
Proof.
  destruct w as [en net tr].
  unfold Llm.fail_with_status, llm_http_error, added_message, status_line. run.
  destruct (json resp) as [data|e]; run; [|reflexivity].
  destruct data; unfold prop; run; try reflexivity.
  destruct (truthy (opt_field (field (JObj members) "error") "message")); run;
    [|reflexivity].
  unfold to_text.
  destruct (converts (opt_field (field (JObj members) "error") "message")); run; reflexivity.
Qed.


(** X2.  A fetch that is rejected, in gemini-api.ts: both transports
    rethrow the reason (wrapped in an Error when it is not one) after
    they have passed it once to [onError]; one request was sent and no
    other is. *)
Theorem gemini_rejected_fetch_rethrown
    {A : Type} (messages : list Message) (onChunk : JSON -> A -> A)
    (options : GeminiApi.ImageAnalysisOptions) (acc : A)
    (w : World) (reason : Thrown) (rest : list (Settled Response)) :
  GeminiApi.string_truthy (GeminiApi.resolve_apiKey options (env w)) = true ->
  network w = Rejected reason :: rest ->
  let e := as_Error reason in
  GeminiApi.callGeminiAPIForJSON messages options w
  = (Throw e, logged (consumed w (json_request messages options (env w))) [OnError e])
  /\ GeminiApi.callGeminiAPIForStream messages onChunk options acc w
     = (Throw e, logged (consumed w (stream_request messages options (env w))) [OnError e]).
Proof.
  intros Hkey Hnet e.
  destruct w as [en net tr]. cbn [env network] in Hkey, Hnet. subst net.
  split.
  - unfold GeminiApi.callGeminiAPIForJSON. run. rewrite Hkey.
    cbv beta iota delta [negb]. unfold fetch. run. same_world.
  - unfold GeminiApi.callGeminiAPIForStream. run. rewrite Hkey.
    cbv beta iota delta [negb]. unfold fetch. run. same_world.
Qed.

(** Every run of [callGeminiAPIForJSON], by cases. *)
Lemma callGeminiAPIForJSON_runs
    (messages : list Message) (options : GeminiApi.ImageAnalysisOptions) (w : World) :
  exists res w' events,
    GeminiApi.callGeminiAPIForJSON messages options w = (res, w')
    /\ trace w' = (trace w ++ events)%list
    /\ count is_fetch events <= 1
    /\ count is_chunk events = 0
    /\ count is_complete events = 0
    /\ (forall j, res = Return j ->
          events = [Fetch (json_request messages options (env w))])
    /\ (forall e, res = Throw e ->
          (e = GeminiApi.missing_key /\ events = [])
          \/ exists before,
               events = (before ++ [OnError e])%list /\ count is_error before = 0).
Proof.
  destruct w as [en net tr].
  unfold GeminiApi.callGeminiAPIForJSON. run.
  destruct (GeminiApi.string_truthy (GeminiApi.resolve_apiKey options en));
    cbv beta iota delta [negb].
  2:{ exists (Throw GeminiApi.missing_key), {| env := en; network := net; trace := tr |}, [].
      cbn [trace]. rewrite app_nil_r. repeat split; try (cbn; lia); try discriminate.
      intros e [= <-]. now left. }
  unfold fetch. run.
  assert (Hlast : forall (e : Thrown) (before : list Event) (e' : Thrown),
             count is_error before = 0 ->
             @Throw JSON e = Throw e' ->
             (e' = GeminiApi.missing_key /\ (before ++ [OnError e])%list = [])
             \/ exists b, (before ++ [OnError e])%list = (b ++ [OnError e'])%list
                          /\ count is_error b = 0).
  { intros e before e' Hb [= <-]. right. exists before. auto. }
  destruct net as [|[resp|e] rest]; run.
  - one_run. intros e'. apply (Hlast _ [Fetch _]). reflexivity.
  - destruct (ok resp); cbv beta iota delta [negb].
    + destruct (json resp) as [data|e]; run.
      * destruct data; unfold prop; run;
          try (one_run; intros e'; apply (Hlast _ [Fetch _]); reflexivity).
        match goal with
        | |- context [truthy ?c] =>
            destruct (truthy c); cbv beta iota delta [negb]; run;
            [ unfold JSON_parse_value; destruct (JSON_parse (toString c)); run |]
        end.
        -- one_run.
        -- one_run. intros e'. apply (Hlast _ [Fetch _; Console ErrorLevel]). reflexivity.
        -- one_run. intros e'. apply (Hlast _ [Fetch _]). reflexivity.
      * one_run. intros e'. apply (Hlast _ [Fetch _]). reflexivity.
    + rewrite gemini_fail_with_status_run. unfold logged. run.
      destruct (json resp); one_run; intros e'.
      * apply (Hlast _ [Fetch _; Console ErrorLevel]). reflexivity.
      * apply (Hlast _ [Fetch _]). reflexivity.
  - one_run. intros e'. apply (Hlast _ [Fetch _]). reflexivity.
Qed.

(** X3.  Every run of [callGeminiAPIForJSON]: at most one request is sent
    (nothing is retried) and neither [onChunk] nor [onComplete] is
    invoked; a call that returns has left its request and nothing else in
    the trace; a call that throws has either sent nothing (the key is
    missing) or invoked [onError] once, last, with the error it throws. *)
Theorem callGeminiAPIForJSON_single_attempt
    (messages : list Message) (options : GeminiApi.ImageAnalysisOptions) (w : World) :
  exists res w' events,
    GeminiApi.callGeminiAPIForJSON messages options w = (res, w')
    /\ trace w' = (trace w ++ events)%list
    /\ count is_fetch events <= 1
    /\ count is_chunk events = 0
    /\ count is_complete events = 0
    /\ (forall j, res = Return j ->
          events = [Fetch (json_request messages options (env w))])
    /\ (forall e, res = Throw e ->
          (e = GeminiApi.missing_key /\ events = [])
          \/ exists before,
               events = (before ++ [OnError e])%list /\ count is_error before = 0).
Proof. exact (callGeminiAPIForJSON_runs messages options w). Qed.

End TransportErrors.

Section StreamShape.
Context {Num : JsNumber}.
Variable A : Type.
Variable onChunk : JSON -> A -> A.

(** The loop on payloads: what [process_lines] does with the data lines. *)
Lemma handle_data_shape (data : string) (acc : A) (w : World) :
  exists acc' events,
    Sse.handle_data onChunk data acc w = (Return acc', logged w events)
    /\ forallb stream_event events = true.
Proof.
  destruct w as [en net tr].
  unfold Sse.handle_data, JSON_parse_value. run.
  destruct (JSON_parse (toString (Some (JStr data)))) as [parsed|]; run;
    [|exists acc, [Console WarnLevel]; split; [same_world | reflexivity]].
  destruct parsed; unfold prop; run;
    try (exists acc, [Console WarnLevel]; split; [same_world | reflexivity]);
    repeat match goal with
           | |- context [match ?c with Some _ => _ | None => _ end] => destruct c eqn:?; run
           | |- context [if truthy ?c then _ else _] => destruct (truthy c) eqn:?; run
           end;
    eexists; eexists;
    (split;
     [ unfold logged; cbn [env network trace]; rewrite <- ?app_assoc; cbn [app];
       first [ reflexivity | symmetry; rewrite app_nil_r; reflexivity ]
     | first [ reflexivity
             | instantiate (1 := []); reflexivity
             | cbn [forallb stream_event];
               repeat match goal with H : truthy _ = true |- _ => rewrite H; clear H end;
               reflexivity ] ]).
Qed.

Lemma forallb_app_true {X : Type} (p : X -> bool) (a b : list X) :
  forallb p a = true -> forallb p b = true -> forallb p (a ++ b) = true.
Proof. intros Ha Hb. rewrite forallb_app, Ha, Hb. reflexivity. Qed.

Lemma process_lines_shape (lines : list string) (acc : A) (w : World) :
  exists r events,
    Sse.process_lines onChunk lines acc w = (Return r, logged w events)
    /\ forallb stream_event events = true
    /\ (fst r = true -> 1 <= count is_complete events).
Proof.
  revert acc w. induction lines as [|line rest IH]; intros acc w; cbn [Sse.process_lines].
  - exists (false, acc), []. rewrite logged_nil. repeat split. discriminate.
  - destruct (String.eqb (trim line) EmptyString || startsWith (trim line) ":")%bool;
      [apply IH|].
    destruct (startsWith (trim line) "data: "); [|apply IH].
    destruct (String.eqb (slice 6 (trim line)) "[DONE]").
    + exists (true, acc), [OnComplete]. repeat split. cbn. lia.
    + destruct (handle_data_shape (slice 6 (trim line)) acc w) as (acc1 & ev1 & H1 & E1).
      rewrite (bind_of_return _ _ _ _ _ H1).
      destruct (IH acc1 (logged w ev1)) as (r & ev2 & H2 & E2 & C2).
      exists r, (ev1 ++ ev2)%list. rewrite H2, logged_logged.
      split; [reflexivity|]. split; [now apply forallb_app_true|].
      intros Hr. specialize (C2 Hr). rewrite count_app. lia.
Qed.

Lemma read_loop_shape (reads : list (Settled string)) (buffer : string) (acc : A) (w : World) :
  exists res events,
    Sse.read_loop onChunk reads buffer acc w = (res, logged w events)
    /\ forallb stream_event events = true
    /\ (forall a, res = Return a -> 1 <= count is_complete events).
Proof.
  revert buffer acc w. induction reads as [|[chunk|e] rest IH]; intros buffer acc w;
    cbn [Sse.read_loop].
  - exists (Return acc), [OnComplete]. repeat split. cbn. lia.
  - destruct (pop (split (byte 10) (buffer ++ chunk))) as [last lines].
    destruct (process_lines_shape lines acc w) as ([returned acc1] & ev1 & H1 & E1 & C1).
    rewrite (bind_of_return _ _ _ _ _ H1). cbn [fst snd] in *.
    destruct returned.
    + exists (Return acc1), ev1. repeat split; auto.
    + destruct (IH (match last with Some l => l | None => EmptyString end) acc1 (logged w ev1))
        as (res & ev2 & H2 & E2 & C2).
      exists res, (ev1 ++ ev2)%list. rewrite H2, logged_logged.
      split; [reflexivity|]. split; [now apply forallb_app_true|].
      intros a Ha. specialize (C2 a Ha). rewrite count_app. lia.
  - exists (Throw e), []. rewrite logged_nil. repeat split. discriminate.
Qed.

Lemma read_body_shape (resp : Response) (acc : A) (w : World) :
  exists res events,
    Sse.read_body onChunk resp acc w = (res, logged w events)
    /\ forallb stream_event events = true
    /\ (forall a, res = Return a -> 1 <= count is_complete events).
Proof.
  unfold Sse.read_body. destruct (body resp) as [reads|].
  - apply read_loop_shape.
  - exists (Throw (new_Error "Response body is not readable")), [].
    rewrite logged_nil. repeat split. discriminate.
Qed.

(** The [try] and the [catch] that the three streaming transports share. *)
Lemma guarded_attempt_shape (request : Request) (fail : Response -> M unit) (acc : A)
    (w w' : World) (res : Result A) :
  (forall resp w1, exists e events,
      fail resp w1 = (Throw e, logged w1 events) /\ forallb stream_event events = true) ->
  try_catch
    (response <- fetch request ;;
     (if negb (ok response) then fail response else ret tt) ;;
     Sse.read_body onChunk response acc)
    (fun error => emit (OnError (as_Error error)) ;; throw (as_Error error)) w
  = (res, w') ->
  stream_run w request res w'.
Proof.
  intros Hfail.
  destruct w as [en net tr]. unfold try_catch, fetch, bind at 1.
  cbn [env network trace].
  destruct net as [|[resp|e] rest].
  - intros [= <- <-]. exists []. split; [reflexivity|]. right.
    eexists. split; [reflexivity|]. unfold logged, consumed, emit, throw, bind. cbn.
    rewrite <- ?app_assoc. reflexivity.
  - set (w1 := {| env := en; network := rest; trace := tr ++ [Fetch request] |}).
    change w1 with (consumed {| env := en; network := Fulfilled resp :: rest; trace := tr |}
                             request).
    set (w0 := {| env := en; network := Fulfilled resp :: rest; trace := tr |}).
    destruct (ok resp); cbv beta iota delta [negb].
    + rewrite (bind_of_return (ret tt) _ _ _ tt) by reflexivity.
      destruct (read_body_shape resp acc (consumed w0 request)) as (r & events & H & E & C).
      rewrite H. destruct r as [a|e].
      * intros [= <- <-]. exists events. split; [exact E|]. left.
        exists a. repeat split. apply (C a eq_refl).
      * intros [= <- <-]. exists events. split; [exact E|]. right.
        exists (as_Error e). split; [reflexivity|].
        unfold emit, throw, bind. cbn. unfold logged. cbn. now rewrite app_assoc.
    + destruct (Hfail resp (consumed w0 request)) as (e & events & H & E).
      rewrite (bind_of_throw _ _ _ _ _ H).
      intros [= <- <-]. exists events. split; [exact E|]. right.
      exists (as_Error e). split; [reflexivity|].
      unfold emit, throw, bind. cbn. unfold logged. cbn. now rewrite app_assoc.
  - intros [= <- <-]. exists []. split; [reflexivity|]. right.
    eexists. split; [reflexivity|]. unfold logged, consumed, emit, throw, bind. cbn.
    rewrite <- ?app_assoc. reflexivity.
Qed.

(** Every run of [callGeminiAPIForStream]: without a key, or with one. *)
Lemma callGeminiAPIForStream_shape
    (messages : list Message) (options : GeminiApi.ImageAnalysisOptions) (acc : A)
    (w w' : World) (res : Result A) :
  GeminiApi.callGeminiAPIForStream messages onChunk options acc w = (res, w') ->
  (GeminiApi.string_truthy (GeminiApi.resolve_apiKey options (env w)) = false
   /\ res = Throw GeminiApi.missing_key /\ w' = w)
  \/ (GeminiApi.string_truthy (GeminiApi.resolve_apiKey options (env w)) = true
      /\ stream_run w (stream_request messages options (env w)) res w').
Proof.
  unfold GeminiApi.callGeminiAPIForStream.
  rewrite (bind_of_return get_env _ w w (env w)) by reflexivity.
  destruct (GeminiApi.string_truthy (GeminiApi.resolve_apiKey options (env w)));
    cbv beta iota delta [negb].
  - intros H. right. split; [reflexivity|].
    refine (guarded_attempt_shape _ _ _ _ _ _ _ H).
    intros resp w1. eexists _, _. split; [apply gemini_fail_with_status_run|].
    destruct (json resp); reflexivity.
  - intros [= <- <-]. left. auto.
Qed.

(** X4.  Every run of [callGeminiAPIForStream].  Without a key it throws
    and leaves the world as it was.  With a key it sends one request,
    which consumes one reply, and nothing is retried; what follows in the
    trace are invocations of [onChunk] with truthy chunks, invocations of
    [onComplete] and console lines; a call that returns has invoked
    [onComplete] and never [onError]; a call that throws has invoked
    [onError] once, as its last act, with the error it throws. *)
Theorem callGeminiAPIForStream_run
    (messages : list Message) (options : GeminiApi.ImageAnalysisOptions) (acc : A)
    (w w' : World) (res : Result A) :
  GeminiApi.callGeminiAPIForStream messages onChunk options acc w = (res, w') ->
  (GeminiApi.string_truthy (GeminiApi.resolve_apiKey options (env w)) = false
   /\ res = Throw GeminiApi.missing_key /\ w' = w)
  \/ (GeminiApi.string_truthy (GeminiApi.resolve_apiKey options (env w)) = true
      /\ stream_run w (stream_request messages options (env w)) res w').
Proof. exact (callGeminiAPIForStream_shape messages options acc w w' res). Qed.

End StreamShape.

Section StreamText.
Context {Num : JsNumber}.
Variable A : Type.
Variable onChunk : JSON -> A -> A.

Lemma data_line_not_skipped (line : string) :
  is_data_line line = true ->
  (String.eqb (trim line) EmptyString || startsWith (trim line) ":")%bool = false.
Proof.
  unfold is_data_line. destruct (trim line) as [|c t]; [discriminate|].
  cbn [startsWith]. intros H. apply andb_prop in H as [Hc _].
  apply Ascii.eqb_eq in Hc. subst c. reflexivity.
Qed.

(** The loop over the lines is the loop over the payloads of the data
    lines: the other lines change nothing. *)
Lemma process_lines_payloads (lines : list string) (acc : A) (w : World) :
  Sse.process_lines onChunk lines acc w
  = run_payloads onChunk
      (map (fun line => slice 6 (trim line)) (filter is_data_line lines)) acc w.
Proof.
  revert acc w. induction lines as [|line rest IH]; intros acc w; [reflexivity|].
  cbn [Sse.process_lines filter].
  destruct (is_data_line line) eqn:Hd.
  - rewrite (data_line_not_skipped _ Hd). unfold is_data_line in Hd. rewrite Hd.
    cbn [map run_payloads].
    destruct (String.eqb (slice 6 (trim line)) "[DONE]"); [reflexivity|].
    apply bind_ext. intros acc' w1. apply IH.
  - unfold is_data_line in Hd. rewrite Hd.
    destruct (String.eqb (trim line) EmptyString || startsWith (trim line) ":")%bool; apply IH.
Qed.

(** One read of a text, then the reads [rest]. *)
Lemma read_loop_text (text : string) (rest : list (Settled string)) (acc : A) (w : World) :
  Sse.read_loop onChunk (Fulfilled text :: rest) EmptyString acc w
  = bind (run_payloads onChunk (payloads text) acc)
         (fun r => if fst r then ret (snd r)
                   else Sse.read_loop onChunk rest (snd (cut (byte 10) text)) (snd r)) w.
Proof.
  cbn [Sse.read_loop]. rewrite pop_split. cbn [append].
  unfold payloads, complete_lines.
  apply bind_cong_l. intros w1. apply process_lines_payloads.
Qed.

(** Reads that are followed by others: the same as one read of their
    concatenation, followed by the others. *)
Lemma read_loop_chunking_tail (chunks : list string) (rest : list (Settled string))
    (buffer : string) (acc : A) (w : World) :
  occurs (byte 10) buffer = false ->
  Sse.read_loop onChunk (map (fun c => Fulfilled c) chunks ++ rest) buffer acc w
  = Sse.read_loop onChunk (Fulfilled (String.concat EmptyString chunks) :: rest) buffer acc w.
Proof.
  revert buffer acc w. induction chunks as [|c cs IH]; intros buffer acc w Hb.
  - cbn [map app String.concat Sse.read_loop]. rewrite pop_split, string_app_nil_r.
    rewrite (cut_without_separator _ _ Hb). reflexivity.
  - cbn [map app].
    rewrite (read_loop_cons_ext _ onChunk c _
               (Fulfilled (String.concat EmptyString cs) :: rest))
      by (intros; apply IH; assumption).
    rewrite read_loop_merge.
    destruct cs as [|c' cs'].
    + cbn [String.concat]. rewrite string_app_nil_r. reflexivity.
    + reflexivity.
Qed.

Lemma run_payloads_sentinel (data_lines : list string) (acc : A) (w : World) :
  In "[DONE]" data_lines ->
  exists acc' w', run_payloads onChunk data_lines acc w = (Return (true, acc'), w').
Proof.
  revert acc w. induction data_lines as [|data rest IH]; intros acc w Hin; [destruct Hin|].
  cbn [run_payloads].
  destruct (String.eqb data "[DONE]") eqn:Hd.
  - eexists _, _. reflexivity.
  - destruct Hin as [-> | Hin]; [discriminate Hd|].
    destruct (handle_data_shape _ onChunk data acc w) as (acc1 & ev1 & H1 & _).
    rewrite (bind_of_return _ _ _ _ _ H1). apply IH, Hin.
Qed.

(** Two replies with the same key, both 2xx, differ for
    [callGeminiAPIForStream] only in how the loop runs on their bodies. *)
Lemma callGeminiAPIForStream_bodies
    (messages : list Message) (options : GeminiApi.ImageAnalysisOptions) (acc : A)
    (en : Env) (tr : list Event) (rest : list (Settled Response))
    (resp1 resp2 : Response) (reads1 reads2 : list (Settled string)) :
  GeminiApi.string_truthy (GeminiApi.resolve_apiKey options en) = true ->
  ok resp1 = true -> ok resp2 = true ->
  body resp1 = Some reads1 -> body resp2 = Some reads2 ->
  (forall w, Sse.read_loop onChunk reads1 EmptyString acc w
             = Sse.read_loop onChunk reads2 EmptyString acc w) ->
  GeminiApi.callGeminiAPIForStream messages onChunk options acc (world_with en resp1 rest tr)
  = GeminiApi.callGeminiAPIForStream messages onChunk options acc (world_with en resp2 rest tr).
Proof.
  intros Hkey Hok1 Hok2 Hb1 Hb2 Hloop.
  rewrite (callGeminiAPIForStream_ok messages onChunk options acc
             (world_with en resp1 rest tr) resp1 rest reads1 Hkey eq_refl Hok1 Hb1).
  rewrite (callGeminiAPIForStream_ok messages onChunk options acc
             (world_with en resp2 rest tr) resp2 rest reads2 Hkey eq_refl Hok2 Hb2).
  unfold try_catch, consumed, world_with. cbn [env network trace tl].
  rewrite Hloop. reflexivity.
Qed.

(** X5.  The run of [callGeminiAPIForStream] depends on the body of the
    reply only through the payloads of its complete data lines: where the
    reads cut the text, blank lines, comment lines, lines of other fields
    (and `data:' lines without the space), white space around a line, and
    whatever follows the last line feed do not matter. *)
Theorem stream_run_depends_on_payloads
    (messages : list Message) (options : GeminiApi.ImageAnalysisOptions) (acc : A)
    (en : Env) (tr : list Event) (rest : list (Settled Response))
    (resp1 resp2 : Response) (chunks1 chunks2 : list string) :
  GeminiApi.string_truthy (GeminiApi.resolve_apiKey options en) = true ->
  ok resp1 = true -> ok resp2 = true ->
  body resp1 = Some (map (fun c => Fulfilled c) chunks1) ->
  body resp2 = Some (map (fun c => Fulfilled c) chunks2) ->
  payloads (String.concat EmptyString chunks1) = payloads (String.concat EmptyString chunks2) ->
  GeminiApi.callGeminiAPIForStream messages onChunk options acc (world_with en resp1 rest tr)
  = GeminiApi.callGeminiAPIForStream messages onChunk options acc (world_with en resp2 rest tr).
Proof.
  intros Hkey Hok1 Hok2 Hb1 Hb2 Hp.
  apply (callGeminiAPIForStream_bodies messages options acc en tr rest resp1 resp2 _ _
           Hkey Hok1 Hok2 Hb1 Hb2).
  intros w.
  rewrite !(read_loop_chunking _ onChunk) by reflexivity.
  rewrite !read_loop_text, Hp.
  apply bind_ext. intros r w1. destruct (fst r); reflexivity.
Qed.

(** X6.  Once the reads have delivered a complete line `data: [DONE]',
    [callGeminiAPIForStream] returns, and nothing that the body holds
    after these reads is looked at: not further data, not a read that
    fails. *)
Theorem stream_stops_at_sentinel
    (messages : list Message) (options : GeminiApi.ImageAnalysisOptions) (acc : A)
    (en : Env) (tr : list Event) (rest : list (Settled Response))
    (resp1 resp2 : Response) (chunks : list string) (later1 later2 : list (Settled string)) :
  GeminiApi.string_truthy (GeminiApi.resolve_apiKey options en) = true ->
  ok resp1 = true -> ok resp2 = true ->
  body resp1 = Some (map (fun c => Fulfilled c) chunks ++ later1)%list ->
  body resp2 = Some (map (fun c => Fulfilled c) chunks ++ later2)%list ->
  In "[DONE]" (payloads (String.concat EmptyString chunks)) ->
  GeminiApi.callGeminiAPIForStream messages onChunk options acc (world_with en resp1 rest tr)
  = GeminiApi.callGeminiAPIForStream messages onChunk options acc (world_with en resp2 rest tr)
  /\ exists a w',
       GeminiApi.callGeminiAPIForStream messages onChunk options acc
         (world_with en resp1 rest tr)
       = (Return a, w').
Proof.
  intros Hkey Hok1 Hok2 Hb1 Hb2 Hin.
  assert (Hloop : forall later w,
             exists a w',
               Sse.read_loop onChunk (map (fun c => Fulfilled c) chunks ++ later)%list
                 EmptyString acc w
               = (Return a, w')
               /\ forall later',
                    Sse.read_loop onChunk (map (fun c => Fulfilled c) chunks ++ later')%list
                      EmptyString acc w
                    = (Return a, w')).
  { intros later w.
    destruct (run_payloads_sentinel _ acc w Hin) as (acc' & w' & Hrun).
    exists acc', w'.
    assert (Hany : forall later',
               Sse.read_loop onChunk (map (fun c => Fulfilled c) chunks ++ later')%list
                 EmptyString acc w
               = (Return acc', w')).
    { intros later'. rewrite read_loop_chunking_tail by reflexivity.
      rewrite read_loop_text. rewrite (bind_of_return _ _ _ _ _ Hrun). reflexivity. }
    split; [apply Hany | exact Hany]. }
  split.
  - apply (callGeminiAPIForStream_bodies messages options acc en tr rest resp1 resp2 _ _
             Hkey Hok1 Hok2 Hb1 Hb2).
    intros w. destruct (Hloop later1 w) as (a & w' & H1 & Hall).
    rewrite H1, (Hall later2). reflexivity.
  - rewrite (callGeminiAPIForStream_ok messages onChunk options acc
               (world_with en resp1 rest tr) resp1 rest _ Hkey eq_refl Hok1 Hb1).
    unfold try_catch.
    destruct (Hloop later1 (consumed (world_with en resp1 rest tr)
                              (stream_request messages options
                                 (env (world_with en resp1 rest tr)))))
      as (a & w' & H1 & _).
    rewrite H1. eexists _, _. reflexivity.
Qed.

End StreamText.

Section LlmTransports.
Context {Num : JsNumber}.
Variable A : Type.
Variable onChunk : JSON -> A -> A.

Lemma llm_send_stream_run (messages : list Message) (options : Llm.ImageAnalysisOptions)
    (acc : A) (w w' : World) (res : Result A) :
  Llm.send_stream messages onChunk options acc w = (res, w') ->
  stream_run w (llm_request messages options) res w'.
Proof.
  unfold Llm.send_stream. intros H.
  refine (guarded_attempt_shape _ onChunk _ _ _ _ _ _ _ H).
  intros resp w1. exists (llm_http_error resp), [].
  rewrite logged_nil. split; [apply llm_fail_with_status_run | reflexivity].
Qed.

(** X7.  Every run of the two transports of llm.ts.  Either a check of
    the arguments fails and the world is left as it was, or one request
    is sent, which consumes one reply, and what follows are invocations
    of [onChunk] with truthy chunks, of [onComplete], and console lines;
    a call that returns has invoked [onComplete] and never [onError]; a
    call that throws has invoked [onError] once, as its last act, with
    the error it throws. *)
Theorem llm_transports_run
    (prompt : string) (messages : list Message) (options : Llm.ImageAnalysisOptions) (acc : A)
    (w w' : World) (res : Result A) :
  (Llm.callGemini25ProWithHistory messages onChunk options acc w = (res, w') ->
   (w' = w /\ (res = Throw Llm.api_key_required \/ res = Throw Llm.messages_required
               \/ res = Throw Llm.invalid_tuning))
   \/ stream_run w (llm_request messages options) res w')
  /\ (Llm.callGemini25Pro prompt onChunk options acc w = (res, w') ->
      (w' = w /\ (res = Throw Llm.api_key_required \/ res = Throw Llm.prompt_required
                  \/ res = Throw Llm.invalid_tuning))
      \/ stream_run w
           (llm_request [{| role := user; content := Plain (Literal prompt) |}] options)
           res w').
Proof.
  split.
  - unfold Llm.callGemini25ProWithHistory.
    destruct (String.eqb (Llm.apiKey options) EmptyString);
      [intros [= <- <-]; left; auto|].
    destruct (Nat.eqb (List.length messages) 0); [intros [= <- <-]; left; auto|].
    destruct (Llm.budget_exceeds (Llm.thinking options)
                (Llm.default (Llm.maxTokens options) 8192%Z));
      [intros [= <- <-]; left; auto|].
    intros H. right. apply (llm_send_stream_run _ _ _ _ _ _ H).
  - unfold Llm.callGemini25Pro.
    destruct (String.eqb (Llm.apiKey options) EmptyString);
      [intros [= <- <-]; left; auto|].
    destruct (String.eqb prompt EmptyString); [intros [= <- <-]; left; auto|].
    destruct (Llm.budget_exceeds (Llm.thinking options)
                (Llm.default (Llm.maxTokens options) 8192%Z));
      [intros [= <- <-]; left; auto|].
    intros H. right. apply (llm_send_stream_run _ _ _ _ _ _ H).
Qed.

(** X8.  A reply that is not 2xx, in llm.ts: once the checks of the
    arguments have passed, both transports throw an Error whose message
    is the status line, followed by the message of the provider when the
    body has a truthy [error.message] (one that has a string conversion);
    the one request was sent and [onError] was invoked once with that
    error, nothing else.  The transport writes no console line of its
    own; the console has one line, a [console.error], when the options
    name no [onError] and the default ran, and none from the transport
    when the caller passed one. *)
Theorem llm_http_error_reported_once
    (prompt : string) (messages : list Message) (options : Llm.ImageAnalysisOptions) (acc : A)
    (w : World) (resp : Response) (rest : list (Settled Response)) :
  Llm.apiKey options <> EmptyString ->
  Llm.budget_exceeds (Llm.thinking options) (Llm.default (Llm.maxTokens options) 8192%Z)
  = false ->
  network w = Fulfilled resp :: rest ->
  ok resp = false ->
  let e := llm_http_error resp in
  (messages <> [] ->
   Llm.callGemini25ProWithHistory messages onChunk options acc w
   = (Throw e, logged (consumed w (llm_request messages options)) [OnError e]))
  /\ (prompt <> EmptyString ->
      Llm.callGemini25Pro prompt onChunk options acc w
      = (Throw e,
         logged (consumed w (llm_request [{| role := user; content := Plain (Literal prompt) |}]
                               options))
                [OnError e]))
  /\ (messages <> [] ->
      Llm.console_output options
        (AnalysisResult.added w
           (after (Llm.callGemini25ProWithHistory messages onChunk options acc) w))
      = match Llm.onError options with
        | Some _ => []
        | None => [ErrorLevel]
        end)
  /\ (prompt <> EmptyString ->
      Llm.console_output options
        (AnalysisResult.added w (after (Llm.callGemini25Pro prompt onChunk options acc) w))
      = match Llm.onError options with
        | Some _ => []
        | None => [ErrorLevel]
        end).
Proof.
  intros Hkey Hbudget Hnet Hok e.
  apply String.eqb_neq in Hkey.
  assert (Hsend : forall ms,
             Llm.send_stream ms onChunk options acc w
             = (Throw e, logged (consumed w (llm_request ms options)) [OnError e])).
  { intros ms. destruct w as [en net tr]. cbn [network] in Hnet. subst net.
    unfold Llm.send_stream. run. unfold fetch. run. rewrite Hok.
    cbv beta iota delta [negb]. rewrite llm_fail_with_status_run. run. same_world. }
  assert (Hconsole : forall request,
             Llm.console_output options
               (AnalysisResult.added w (logged (consumed w request) [OnError e]))
             = match Llm.onError options with
               | Some _ => []
               | None => [ErrorLevel]
               end).
  { intros request. unfold AnalysisResult.added, logged, consumed. cbn [trace].
    rewrite <- app_assoc, skipn_app, skipn_all, Nat.sub_diag.
    unfold Llm.console_output. cbn. destruct (Llm.onError options); reflexivity. }
  assert (Hhistory : messages <> [] ->
             Llm.callGemini25ProWithHistory messages onChunk options acc w
             = (Throw e, logged (consumed w (llm_request messages options)) [OnError e])).
  { intros Hm. unfold Llm.callGemini25ProWithHistory. rewrite Hkey, Hbudget.
    destruct messages; [contradiction|]. apply Hsend. }
  assert (Hprompt : prompt <> EmptyString ->
             Llm.callGemini25Pro prompt onChunk options acc w
             = (Throw e,
                logged (consumed w (llm_request
                                      [{| role := user; content := Plain (Literal prompt) |}]
                                      options))
                       [OnError e])).
  { intros Hp. apply String.eqb_neq in Hp.
    unfold Llm.callGemini25Pro. rewrite Hkey, Hp, Hbudget. apply Hsend. }
  split; [exact Hhistory | split; [exact Hprompt | split]].
  - intros Hm. unfold after. rewrite (Hhistory Hm). apply Hconsole.
  - intros Hp. unfold after. rewrite (Hprompt Hp). apply Hconsole.
Qed.

End LlmTransports.

(** ** The transports on sample replies *)


Lemma gemini_rejected_fetch_rethrown_witness :
  GeminiApi.callGeminiAPIForStream (Num := LiteralNumber) Sample.hello Sample.append_text
    (Sample.gemini_options "key") EmptyString
    (Sample.world Sample.no_env [Rejected (NonError "offline")])
  = (Throw (new_Error "offline"),
     {| env := Sample.no_env; network := [];
        trace := [Fetch (stream_request Sample.hello (Sample.gemini_options "key") Sample.no_env);
                  OnError (new_Error "offline")] |}).
Proof.
  exact (proj2 (gemini_rejected_fetch_rethrown (Num := LiteralNumber) (A := string)
                  Sample.hello Sample.append_text (Sample.gemini_options "key") EmptyString
                  (Sample.world Sample.no_env [Rejected (NonError "offline")])
                  _ [] eq_refl eq_refl)).
Defined.

Lemma callGeminiAPIForStream_run_witness :
  stream_run (Num := LiteralNumber)
    (Sample.world Sample.no_env [Fulfilled (Sample.streaming [Fulfilled Sample.four_frames])])
    (stream_request Sample.hello (Sample.gemini_options "key") Sample.no_env)
    (Return "foobar")
    {| env := Sample.no_env; network := [];
       trace := [Fetch (stream_request Sample.hello (Sample.gemini_options "key") Sample.no_env);
                 OnChunk (JStr "foo"); Console WarnLevel; OnChunk (JStr "bar"); OnComplete] |}.
Proof.
  assert (H : GeminiApi.callGeminiAPIForStream (Num := LiteralNumber) Sample.hello
                Sample.append_text (Sample.gemini_options "key") EmptyString
                (Sample.world Sample.no_env
                   [Fulfilled (Sample.streaming [Fulfilled Sample.four_frames])])
              = (Return "foobar",
                 {| env := Sample.no_env; network := [];
                    trace := [Fetch (stream_request Sample.hello (Sample.gemini_options "key")
                                       Sample.no_env);
                              OnChunk (JStr "foo"); Console WarnLevel; OnChunk (JStr "bar");
                              OnComplete] |}))
    by (vm_compute; reflexivity).
  destruct (callGeminiAPIForStream_run _ _ _ _ _ _ _ _ H) as [[Hk _] | [_ Hrun]];
    [discriminate Hk | exact Hrun].
Defined.

Lemma stream_run_depends_on_payloads_witness :
  GeminiApi.callGeminiAPIForStream (Num := LiteralNumber) Sample.hello Sample.append_text
    (Sample.gemini_options "key") EmptyString
    (world_with Sample.no_env
       (Sample.streaming (map (fun c => Fulfilled c) Sample.noisy_chunks)) [] [])
  = GeminiApi.callGeminiAPIForStream (Num := LiteralNumber) Sample.hello Sample.append_text
      (Sample.gemini_options "key") EmptyString
      (world_with Sample.no_env
         (Sample.streaming (map (fun c => Fulfilled c) Sample.plain_chunks)) [] []).
Proof.
  apply (stream_run_depends_on_payloads (Num := LiteralNumber) string Sample.append_text
           Sample.hello (Sample.gemini_options "key") EmptyString Sample.no_env [] []
           _ _ Sample.noisy_chunks Sample.plain_chunks);
    vm_compute; reflexivity.
Defined.

Lemma stream_stops_at_sentinel_witness :
  GeminiApi.callGeminiAPIForStream (Num := LiteralNumber) Sample.hello Sample.append_text
    (Sample.gemini_options "key") EmptyString
    (world_with Sample.no_env
       (Sample.streaming (map (fun c => Fulfilled c) Sample.plain_chunks
                          ++ [Rejected failed_to_fetch])) [] [])
  = GeminiApi.callGeminiAPIForStream (Num := LiteralNumber) Sample.hello Sample.append_text
      (Sample.gemini_options "key") EmptyString
      (world_with Sample.no_env
         (Sample.streaming (map (fun c => Fulfilled c) Sample.plain_chunks ++ [])) [] []).
Proof.
  apply (stream_stops_at_sentinel (Num := LiteralNumber) string Sample.append_text
           Sample.hello (Sample.gemini_options "key") EmptyString Sample.no_env [] []
           _ _ Sample.plain_chunks [Rejected failed_to_fetch] []);
    try (vm_compute; reflexivity).
  vm_compute. right. left. reflexivity.
Defined.

Lemma llm_transports_run_witness :
  stream_run (Num := LiteralNumber)
    (Sample.world Sample.no_env [Fulfilled (Sample.streaming [Fulfilled Sample.four_frames])])
    (llm_request Sample.hello (Sample.llm_options "key" None None))
    (Return "foobar")
    {| env := Sample.no_env; network := [];
       trace := [Fetch (llm_request Sample.hello (Sample.llm_options "key" None None));
                 OnChunk (JStr "foo"); Console WarnLevel; OnChunk (JStr "bar"); OnComplete] |}.
Proof.
  assert (H : Llm.callGemini25ProWithHistory (Num := LiteralNumber) Sample.hello
                Sample.append_text (Sample.llm_options "key" None None) EmptyString
                (Sample.world Sample.no_env
                   [Fulfilled (Sample.streaming [Fulfilled Sample.four_frames])])
              = (Return "foobar",
                 {| env := Sample.no_env; network := [];
                    trace := [Fetch (llm_request Sample.hello
                                       (Sample.llm_options "key" None None));
                              OnChunk (JStr "foo"); Console WarnLevel; OnChunk (JStr "bar");
                              OnComplete] |}))
    by (vm_compute; reflexivity).
  destruct (proj1 (llm_transports_run _ _ EmptyString _ _ _ _ _ _) H)
    as [[_ [Hr | [Hr | Hr]]] | Hrun];
    [discriminate Hr | discriminate Hr | discriminate Hr | exact Hrun].
Defined.

Lemma llm_http_error_reported_once_witness :
  Llm.callGemini25ProWithHistory (Num := LiteralNumber) Sample.hello Sample.append_text
    (Sample.llm_options "key" None None) EmptyString
    (Sample.world Sample.no_env
       [Fulfilled (Sample.error_response 429 "Too Many Requests"
                     (q "{'error':{'message':'quota exceeded'}}"))])
  = (Throw (new_Error "API request failed: 429 Too Many Requests. quota exceeded"),
     {| env := Sample.no_env; network := [];
        trace := [Fetch (llm_request Sample.hello (Sample.llm_options "key" None None));
                  OnError (new_Error
                             "API request failed: 429 Too Many Requests. quota exceeded")] |})
  /\ Llm.console_output (Sample.llm_options "key" None None)
       (AnalysisResult.added
          (Sample.world Sample.no_env
             [Fulfilled (Sample.error_response 429 "Too Many Requests"
                           (q "{'error':{'message':'quota exceeded'}}"))])
          (after (Llm.callGemini25ProWithHistory (Num := LiteralNumber) Sample.hello
                    Sample.append_text (Sample.llm_options "key" None None) EmptyString)
                 (Sample.world Sample.no_env
                    [Fulfilled (Sample.error_response 429 "Too Many Requests"
                                  (q "{'error':{'message':'quota exceeded'}}"))])))
     = [ErrorLevel].
Proof.
  destruct (llm_http_error_reported_once (Num := LiteralNumber) string Sample.append_text
              "hello" Sample.hello (Sample.llm_options "key" None None) EmptyString
              (Sample.world Sample.no_env
                 [Fulfilled (Sample.error_response 429 "Too Many Requests"
                               (q "{'error':{'message':'quota exceeded'}}"))])
              _ [] ltac:(discriminate) eq_refl eq_refl eq_refl)
    as (Hrun & _ & Hconsole & _).
  split.
  - apply Hrun. discriminate.
  - apply Hconsole. discriminate.
Defined.

(* ===================================================================== *)
(** * Further properties: the orchestrator                                *)
(* ===================================================================== *)

Section OrchestratorStages.
Context {Num : JsNumber}.

Lemma stream_events_filter (p : Event -> bool) (l : list Event) :
  forallb stream_event l = true ->
  (forall e, stream_event e = true -> p e = false) ->
  filter p l = [].
Proof.
  intros Hl Hp. induction l as [|e l IH]; [reflexivity|].
  cbn [forallb] in Hl. apply andb_prop in Hl as [He Hl].
  cbn [filter]. rewrite (Hp e He). apply IH, Hl.
Qed.

Lemma stream_events_no_call (l : list Event) :
  forallb stream_event l = true -> filter is_model_call l = [].
Proof.
  intros H. apply stream_events_filter; [exact H|].
  intros [r| | | | |]; cbn; congruence.
Qed.

Lemma stream_events_no_encode (l : list Event) :
  forallb stream_event l = true -> filter is_encode l = [].
Proof.
  intros H. apply stream_events_filter; [exact H|].
  intros [r| | | | |]; cbn; congruence.
Qed.

Lemma stream_events_no_error (l : list Event) :
  forallb stream_event l = true -> filter is_error l = [].
Proof.
  intros H. apply stream_events_filter; [exact H|].
  intros [r| | | | |]; cbn; congruence.
Qed.

Lemma stream_events_count_error (l : list Event) :
  forallb stream_event l = true -> count is_error l = 0.
Proof. intros H. unfold count. now rewrite (stream_events_no_error _ H). Qed.

Lemma stream_events_count_call (l : list Event) :
  forallb stream_event l = true -> count is_model_call l = 0.
Proof. intros H. unfold count. now rewrite (stream_events_no_call _ H). Qed.

(** A call of [callGeminiAPIForStream] that returns. *)
Lemma callGeminiAPIForStream_return {A : Type} (onChunk : JSON -> A -> A)
    (messages : list Message) (options : GeminiApi.ImageAnalysisOptions) (acc a : A)
    (w w' : World) :
  GeminiApi.callGeminiAPIForStream messages onChunk options acc w = (Return a, w') ->
  exists callbacks,
    forallb stream_event callbacks = true
    /\ w' = logged (consumed w (stream_request messages options (env w))) callbacks
    /\ 1 <= count is_complete callbacks.
Proof.
  intros H. apply callGeminiAPIForStream_shape in H as [(_ & Hr & _) | (_ & cbs & Hc & Hrun)];
    [discriminate Hr|].
  destruct Hrun as [(a' & _ & Hw & Hn) | (e & Hr & _)]; [|discriminate Hr].
  exists cbs. auto.
Qed.

(** The orchestrator up to the choice of a branch. *)
Lemma smartAnalyzeImage_branches
    (imageUrl : string) (userAllergens : list string)
    (options : GeminiApi.ImageAnalysisOptions)
    (w w1 w2 : World) (image : GeminiApi.EncodedImage) (typeResult : JSON) :
  GeminiApi.convertImageToBase64 imageUrl w = (Return image, w1) ->
  GeminiApi.callGeminiAPIForJSON (GeminiApi.typeMessages image options) options w1
  = (Return typeResult, w2) ->
  typeResult <> JNull ->
  let tag := field typeResult "imageType" in
  GeminiApi.smartAnalyzeImage imageUrl userAllergens options w
  = try_catch
      (if GeminiApi.is_string tag "ingredients" then
         let extractMessages :=
           GeminiApi.user_text_image (Filled extractIngredientsPrompt [])
             (GeminiApi.data_url image) high in
         ingredientsText <- GeminiApi.callGeminiAPIForStream extractMessages
                              GeminiApi.append_chunk options EmptyString ;;
         analysisResult <- GeminiApi.analyzeIngredientsAllergens ingredientsText
                             userAllergens options ;;
         ret {| GeminiApi.imageType := tag;
                GeminiApi.confidence := field typeResult "confidence";
                GeminiApi.result := analysisResult; GeminiApi.errorMessage := None |}
       else if GeminiApi.is_string tag "menu" then
         let extractMessages :=
           GeminiApi.user_text_image (Filled extractMenuPrompt [])
             (GeminiApi.data_url image) high in
         menuText <- GeminiApi.callGeminiAPIForStream extractMessages
                       GeminiApi.append_chunk options EmptyString ;;
         analysisResult <- GeminiApi.analyzeMenuRecommendations menuText userAllergens options ;;
         ret {| GeminiApi.imageType := tag;
                GeminiApi.confidence := field typeResult "confidence";
                GeminiApi.result := analysisResult; GeminiApi.errorMessage := None |}
       else if GeminiApi.is_string tag "food" then
         analysisResult <- GeminiApi.analyzeFoodPhoto imageUrl userAllergens options ;;
         ret {| GeminiApi.imageType := tag;
                GeminiApi.confidence := field typeResult "confidence";
                GeminiApi.result := analysisResult; GeminiApi.errorMessage := None |}
       else ret (unknown_result typeResult))
      (fun error => emit (Console ErrorLevel) ;; throw error)
      (logged w2 [Console LogLevel]).
Proof.
  intros Hconv Hcall Hnull tag.
  unfold GeminiApi.smartAnalyzeImage.
  rewrite (bind_of_return _ _ _ _ _ Hconv).
  unfold try_catch.
  rewrite (bind_of_return _ _ _ _ _ Hcall).
  rewrite (bind_of_return _ _ w2 (logged w2 [Console LogLevel]) tt) by reflexivity.
  rewrite (bind_of_return _ _ _ (logged w2 [Console LogLevel]) (field typeResult "imageType"))
    by (rewrite (prop_not_null _ _ Hnull); reflexivity).
  rewrite !(prop_not_null typeResult _ Hnull). fold tag.
  destruct (GeminiApi.is_string tag "ingredients"); [reflexivity|].
  destruct (GeminiApi.is_string tag "menu"); [reflexivity|].
  destruct (GeminiApi.is_string tag "food"); reflexivity.
Qed.

Lemma smartAnalyzeImage_classified
    (imageUrl : string) (userAllergens : list string)
    (options : GeminiApi.ImageAnalysisOptions)
    (w w1 w2 : World) (image : GeminiApi.EncodedImage) (typeResult : JSON) (tag : JSON) :
  GeminiApi.convertImageToBase64 imageUrl w = (Return image, w1) ->
  GeminiApi.callGeminiAPIForJSON (GeminiApi.typeMessages image options) options w1
  = (Return typeResult, w2) ->
  field typeResult "imageType" = Some tag ->
  GeminiApi.smartAnalyzeImage imageUrl userAllergens options w
  = try_catch
      (if GeminiApi.is_string (Some tag) "ingredients" then
         let extractMessages :=
           GeminiApi.user_text_image (Filled extractIngredientsPrompt [])
             (GeminiApi.data_url image) high in
         ingredientsText <- GeminiApi.callGeminiAPIForStream extractMessages
                              GeminiApi.append_chunk options EmptyString ;;
         analysisResult <- GeminiApi.analyzeIngredientsAllergens ingredientsText
                             userAllergens options ;;
         ret {| GeminiApi.imageType := Some tag;
                GeminiApi.confidence := field typeResult "confidence";
                GeminiApi.result := analysisResult; GeminiApi.errorMessage := None |}
       else if GeminiApi.is_string (Some tag) "menu" then
         let extractMessages :=
           GeminiApi.user_text_image (Filled extractMenuPrompt [])
             (GeminiApi.data_url image) high in
         menuText <- GeminiApi.callGeminiAPIForStream extractMessages
                       GeminiApi.append_chunk options EmptyString ;;
         analysisResult <- GeminiApi.analyzeMenuRecommendations menuText userAllergens options ;;
         ret {| GeminiApi.imageType := Some tag;
                GeminiApi.confidence := field typeResult "confidence";
                GeminiApi.result := analysisResult; GeminiApi.errorMessage := None |}
       else if GeminiApi.is_string (Some tag) "food" then
         analysisResult <- GeminiApi.analyzeFoodPhoto imageUrl userAllergens options ;;
         ret {| GeminiApi.imageType := Some tag;
                GeminiApi.confidence := field typeResult "confidence";
                GeminiApi.result := analysisResult; GeminiApi.errorMessage := None |}
       else ret (unknown_result typeResult))
      (fun error => emit (Console ErrorLevel) ;; throw error)
      (logged w2 [Console LogLevel]).
Proof.
  intros Hconv Hcall Htag.
  rewrite (smartAnalyzeImage_branches _ userAllergens _ _ _ _ _ _ Hconv Hcall
             (field_not_null _ _ _ Htag)).
  cbv zeta. rewrite Htag. reflexivity.
Qed.

(** X9.  An image classified `ingredients': the orchestrator makes three
    requests to the model, in this order: the classification (not
    streamed), the extraction of the text (streamed), the analysis of the
    extracted text (not streamed).  The text given to the analysis is what
    the chunks of the extraction add up to; the image was encoded once;
    and the result carries the classifier's [imageType] and [confidence]
    with the analysis as it was parsed. *)
Theorem smartAnalyzeImage_ingredients
    (imageUrl : string) (userAllergens : list string)
    (options : GeminiApi.ImageAnalysisOptions)
    (w w1 w2 w3 w4 : World) (image : GeminiApi.EncodedImage)
    (typeResult analysis : JSON) (text : string) :
  GeminiApi.convertImageToBase64 imageUrl w = (Return image, w1) ->
  GeminiApi.callGeminiAPIForJSON (GeminiApi.typeMessages image options) options w1
  = (Return typeResult, w2) ->
  field typeResult "imageType" = Some (JStr "ingredients") ->
  let extract :=
    GeminiApi.user_text_image (Filled extractIngredientsPrompt [])
      (GeminiApi.data_url image) high in
  GeminiApi.callGeminiAPIForStream extract GeminiApi.append_chunk options EmptyString
    (logged w2 [Console LogLevel])
  = (Return text, w3) ->
  GeminiApi.analyzeIngredientsAllergens text userAllergens options w3 = (Return analysis, w4) ->
  GeminiApi.smartAnalyzeImage imageUrl userAllergens options w
  = (Return {| GeminiApi.imageType := Some (JStr "ingredients");
               GeminiApi.confidence := field typeResult "confidence";
               GeminiApi.result := analysis; GeminiApi.errorMessage := None |}, w4)
  /\ exists events,
       trace w4 = (trace w ++ events)%list
       /\ filter is_model_call events
          = [Fetch (json_request (GeminiApi.typeMessages image options) options (env w));
             Fetch (stream_request extract options (env w));
             Fetch (json_request
                      (GeminiApi.user_text
                         (Filled ingredientsPrompt [text; join "、" userAllergens]))
                      options (env w))]
       /\ map is_stream_call (filter is_model_call events) = [false; true; false]
       /\ count is_encode events = 1.
Proof.
  intros Hconv Hcall Htag extract Hstream Han.
  split.
  - rewrite (smartAnalyzeImage_classified _ _ _ _ _ _ _ _ _ Hconv Hcall Htag).
    unfold try_catch. cbn [GeminiApi.is_string String.eqb Ascii.eqb Bool.eqb].
    fold extract. cbv zeta.
    rewrite (bind_of_return _ _ _ _ _ Hstream).
    rewrite (bind_of_return _ _ _ _ _ Han). reflexivity.
  - apply callGeminiAPIForJSON_return in Hcall. subst w2.
    apply callGeminiAPIForStream_return in Hstream as (cbs & Hcbs & -> & _).
    unfold GeminiApi.analyzeIngredientsAllergens in Han.
    apply callGeminiAPIForJSON_return in Han. subst w4.
    apply convertImageToBase64_return in Hconv as [[Hd ->]|[Hd ->]];
      (eexists; split;
       [ unfold logged, consumed; cbn [env network trace]; rewrite <- !app_assoc; reflexivity
       | unfold count; rewrite !filter_app, (stream_events_no_call _ Hcbs),
           (stream_events_no_encode _ Hcbs);
         repeat split ]).
Qed.

(** X10.  An image classified `menu': the same three requests, with the
    prompts of the menu. *)
Theorem smartAnalyzeImage_menu
    (imageUrl : string) (userAllergens : list string)
    (options : GeminiApi.ImageAnalysisOptions)
    (w w1 w2 w3 w4 : World) (image : GeminiApi.EncodedImage)
    (typeResult analysis : JSON) (text : string) :
  GeminiApi.convertImageToBase64 imageUrl w = (Return image, w1) ->
  GeminiApi.callGeminiAPIForJSON (GeminiApi.typeMessages image options) options w1
  = (Return typeResult, w2) ->
  field typeResult "imageType" = Some (JStr "menu") ->
  let extract :=
    GeminiApi.user_text_image (Filled extractMenuPrompt [])
      (GeminiApi.data_url image) high in
  GeminiApi.callGeminiAPIForStream extract GeminiApi.append_chunk options EmptyString
    (logged w2 [Console LogLevel])
  = (Return text, w3) ->
  GeminiApi.analyzeMenuRecommendations text userAllergens options w3 = (Return analysis, w4) ->
  GeminiApi.smartAnalyzeImage imageUrl userAllergens options w
  = (Return {| GeminiApi.imageType := Some (JStr "menu");
               GeminiApi.confidence := field typeResult "confidence";
               GeminiApi.result := analysis; GeminiApi.errorMessage := None |}, w4)
  /\ exists events,
       trace w4 = (trace w ++ events)%list
       /\ filter is_model_call events
          = [Fetch (json_request (GeminiApi.typeMessages image options) options (env w));
             Fetch (stream_request extract options (env w));
             Fetch (json_request
                      (GeminiApi.user_text
                         (Filled menuPrompt [text; join "、" userAllergens]))
                      options (env w))]
       /\ map is_stream_call (filter is_model_call events) = [false; true; false]
       /\ count is_encode events = 1.
Proof.
  intros Hconv Hcall Htag extract Hstream Han.
  split.
  - rewrite (smartAnalyzeImage_classified _ _ _ _ _ _ _ _ _ Hconv Hcall Htag).
    unfold try_catch. cbn [GeminiApi.is_string String.eqb Ascii.eqb Bool.eqb].
    fold extract. cbv zeta.
    rewrite (bind_of_return _ _ _ _ _ Hstream).
    rewrite (bind_of_return _ _ _ _ _ Han). reflexivity.
  - apply callGeminiAPIForJSON_return in Hcall. subst w2.
    apply callGeminiAPIForStream_return in Hstream as (cbs & Hcbs & -> & _).
    unfold GeminiApi.analyzeMenuRecommendations in Han.
    apply callGeminiAPIForJSON_return in Han. subst w4.
    apply convertImageToBase64_return in Hconv as [[Hd ->]|[Hd ->]];
      (eexists; split;
       [ unfold logged, consumed; cbn [env network trace]; rewrite <- !app_assoc; reflexivity
       | unfold count; rewrite !filter_app, (stream_events_no_call _ Hcbs),
           (stream_events_no_encode _ Hcbs);
         repeat split ]).
Qed.

(** X11.  An image classified `food': two requests to the model and no
    more, neither of them streamed; [onChunk] and [onComplete] are never
    invoked; and the result carries the classifier's [imageType] and
    [confidence] with the analysis as it was parsed. *)
Theorem smartAnalyzeImage_food
    (imageUrl : string) (userAllergens : list string)
    (options : GeminiApi.ImageAnalysisOptions)
    (w w1 w2 w3 : World) (image : GeminiApi.EncodedImage) (typeResult analysis : JSON) :
  GeminiApi.convertImageToBase64 imageUrl w = (Return image, w1) ->
  GeminiApi.callGeminiAPIForJSON (GeminiApi.typeMessages image options) options w1
  = (Return typeResult, w2) ->
  field typeResult "imageType" = Some (JStr "food") ->
  GeminiApi.analyzeFoodPhoto imageUrl userAllergens options (logged w2 [Console LogLevel])
  = (Return analysis, w3) ->
  GeminiApi.smartAnalyzeImage imageUrl userAllergens options w
  = (Return {| GeminiApi.imageType := Some (JStr "food");
               GeminiApi.confidence := field typeResult "confidence";
               GeminiApi.result := analysis; GeminiApi.errorMessage := None |}, w3)
  /\ exists events,
       trace w3 = (trace w ++ events)%list
       /\ count is_model_call events = 2
       /\ count is_stream_call events = 0
       /\ count is_chunk events = 0
       /\ count is_complete events = 0
       /\ count is_error events = 0.
Proof.
  intros Hconv Hcall Htag Hfood.
  split.
  - rewrite (smartAnalyzeImage_classified _ _ _ _ _ _ _ _ _ Hconv Hcall Htag).
    unfold try_catch. cbn [GeminiApi.is_string String.eqb Ascii.eqb Bool.eqb].
    rewrite (bind_of_return _ _ _ _ _ Hfood). reflexivity.
  - apply callGeminiAPIForJSON_return in Hcall. subst w2.
    unfold GeminiApi.analyzeFoodPhoto in Hfood.
    apply bind_return_inv in Hfood as (image2 & w5 & Hconv2 & Hcall2).
    apply callGeminiAPIForJSON_return in Hcall2. subst w3.
    apply convertImageToBase64_return in Hconv2 as [[Hd2 ->]|[Hd2 ->]];
      apply convertImageToBase64_return in Hconv as [[Hd ->]|[Hd ->]];
      (eexists; split;
       [ unfold logged, consumed; cbn [env network trace]; rewrite <- !app_assoc; reflexivity
       | repeat split ]).
Qed.

(** X12.  Failures before a branch is chosen.  An error of the encoder
    leaves the orchestrator as it is, with no console line and before any
    request to the model could be made.  An error of the classification is
    rethrown as it is, after one [console.error].  A classifier that
    answers [null] makes the orchestrator throw the TypeError of reading
    [imageType] of null: the answer is not turned into an `unknown'
    result. *)
Theorem smartAnalyzeImage_early_failures
    (imageUrl : string) (userAllergens : list string)
    (options : GeminiApi.ImageAnalysisOptions)
    (w w1 w2 : World) (image : GeminiApi.EncodedImage) (e : Thrown) :
  (GeminiApi.convertImageToBase64 imageUrl w = (Throw e, w1) ->
   GeminiApi.smartAnalyzeImage imageUrl userAllergens options w = (Throw e, w1)
   /\ count is_model_call (trace w1) = count is_model_call (trace w))
  /\ (GeminiApi.convertImageToBase64 imageUrl w = (Return image, w1) ->
      GeminiApi.callGeminiAPIForJSON (GeminiApi.typeMessages image options) options w1
      = (Throw e, w2) ->
      GeminiApi.smartAnalyzeImage imageUrl userAllergens options w
      = (Throw e, logged w2 [Console ErrorLevel]))
  /\ (GeminiApi.convertImageToBase64 imageUrl w = (Return image, w1) ->
      GeminiApi.callGeminiAPIForJSON (GeminiApi.typeMessages image options) options w1
      = (Return JNull, w2) ->
      GeminiApi.smartAnalyzeImage imageUrl userAllergens options w
      = (Throw null_property_error, logged w2 [Console LogLevel; Console ErrorLevel])).
Proof.
  repeat split.
  - unfold GeminiApi.smartAnalyzeImage. rewrite (bind_of_throw _ _ _ _ _ H). reflexivity.
  - destruct w as [en net tr]. revert H.
    unfold GeminiApi.convertImageToBase64. run.
    destruct (startsWith imageUrl "data:"); run; [discriminate|].
    unfold fetch. run.
    destruct net as [|[resp|e0] rest]; run.
    + intros [= _ <-]. cbn [trace]. rewrite !count_app. cbn. lia.
    + destruct (blob resp) as [b|e1]; run.
      * unfold GeminiApi.read_blob. destruct (readAsDataURL b); run; [discriminate|].
        intros [= _ <-]. cbn [trace]. rewrite !count_app. cbn. lia.
      * intros [= _ <-]. cbn [trace]. rewrite !count_app. cbn. lia.
    + intros [= _ <-]. cbn [trace]. rewrite !count_app. cbn. lia.
  - intros Hconv Hcall. unfold GeminiApi.smartAnalyzeImage.
    rewrite (bind_of_return _ _ _ _ _ Hconv). unfold try_catch.
    rewrite (bind_of_throw _ _ _ _ _ Hcall). reflexivity.
  - intros Hconv Hcall. unfold GeminiApi.smartAnalyzeImage.
    rewrite (bind_of_return _ _ _ _ _ Hconv). unfold try_catch.
    rewrite (bind_of_return _ _ _ _ _ Hcall).
    destruct w2 as [en net tr]. run. unfold prop. run. same_world.
Qed.

(** X13.  A failed extraction ends the pipeline.  When the image is
    classified `ingredients' and the streamed extraction throws, the
    orchestrator rethrows the same error after one [console.error]: the
    analysis is not requested (two requests to the model were made, not
    three), and [onError] was invoked once. *)
Theorem smartAnalyzeImage_extraction_failure
    (imageUrl : string) (userAllergens : list string)
    (options : GeminiApi.ImageAnalysisOptions)
    (w w1 w2 w3 : World) (image : GeminiApi.EncodedImage) (typeResult : JSON) (e : Thrown) :
  GeminiApi.convertImageToBase64 imageUrl w = (Return image, w1) ->
  GeminiApi.callGeminiAPIForJSON (GeminiApi.typeMessages image options) options w1
  = (Return typeResult, w2) ->
  field typeResult "imageType" = Some (JStr "ingredients") ->
  GeminiApi.callGeminiAPIForStream
    (GeminiApi.user_text_image (Filled extractIngredientsPrompt [])
       (GeminiApi.data_url image) high)
    GeminiApi.append_chunk options EmptyString (logged w2 [Console LogLevel])
  = (Throw e, w3) ->
  GeminiApi.string_truthy (GeminiApi.resolve_apiKey options (env w)) = true
  /\ GeminiApi.smartAnalyzeImage imageUrl userAllergens options w
     = (Throw e, logged w3 [Console ErrorLevel])
  /\ exists events,
       trace (logged w3 [Console ErrorLevel]) = (trace w ++ events)%list
       /\ count is_model_call events = 2
       /\ count is_error events = 1.
Proof.
  intros Hconv Hcall Htag Hstream.
  assert (Henv : env w1 = env w).
  { apply convertImageToBase64_return in Hconv as [[_ ->]|[_ ->]]; reflexivity. }
  assert (Hkey : GeminiApi.string_truthy (GeminiApi.resolve_apiKey options (env w)) = true).
  { rewrite <- Henv. revert Hcall. unfold GeminiApi.callGeminiAPIForJSON.
    rewrite (bind_of_return get_env _ w1 w1 (env w1)) by reflexivity.
    destruct (GeminiApi.string_truthy (GeminiApi.resolve_apiKey options (env w1)));
      [reflexivity | discriminate]. }
  split; [exact Hkey|]. split.
  - rewrite (smartAnalyzeImage_classified _ _ _ _ _ _ _ _ _ Hconv Hcall Htag).
    unfold try_catch. cbn [GeminiApi.is_string String.eqb Ascii.eqb Bool.eqb]. cbv zeta.
    rewrite (bind_of_throw _ _ _ _ _ Hstream). reflexivity.
  - apply callGeminiAPIForJSON_return in Hcall. subst w2.
    apply callGeminiAPIForStream_shape in Hstream
      as [(Hk & _ & _) | (_ & cbs & Hcbs & [(a & Hr & _) | (e' & Hr & ->)])];
      [| discriminate Hr |].
    + cbn [env logged consumed] in Hk. rewrite Henv, Hkey in Hk. discriminate Hk.
    + injection Hr as <-.
      apply convertImageToBase64_return in Hconv as [[Hd ->]|[Hd ->]];
        (eexists; split;
         [ unfold logged, consumed; cbn [env network trace]; rewrite <- !app_assoc; reflexivity
         | unfold count; rewrite !filter_app, (stream_events_no_call _ Hcbs),
             (stream_events_no_error _ Hcbs);
           repeat split ]).
Qed.

Lemma analyzeFoodPhoto_return (imageUrl : string) (userAllergens : list string)
    (options : GeminiApi.ImageAnalysisOptions) (w w' : World) (analysis : JSON) :
  GeminiApi.analyzeFoodPhoto imageUrl userAllergens options w = (Return analysis, w') ->
  exists events,
    trace w' = (trace w ++ events)%list
    /\ count is_error events = 0 /\ count is_complete events = 0
    /\ count is_model_call events = 1.
Proof.
  unfold GeminiApi.analyzeFoodPhoto. intros H.
  apply bind_return_inv in H as (image2 & w5 & Hconv2 & Hcall2).
  apply callGeminiAPIForJSON_return in Hcall2. subst w'.
  apply convertImageToBase64_return in Hconv2 as [[Hd2 ->]|[Hd2 ->]];
    (eexists; split;
     [ unfold logged, consumed; cbn [env network trace]; rewrite <- ?app_assoc; reflexivity
     | repeat split ]).
Qed.

(** The orchestrator, inverted: a call that returns. *)
Lemma smartAnalyzeImage_returns
    (imageUrl : string) (userAllergens : list string)
    (options : GeminiApi.ImageAnalysisOptions)
    (w w' : World) (r : GeminiApi.SmartAnalysisResult) :
  GeminiApi.smartAnalyzeImage imageUrl userAllergens options w = (Return r, w') ->
  exists image w1 typeResult w2 events,
    GeminiApi.convertImageToBase64 imageUrl w = (Return image, w1)
    /\ GeminiApi.callGeminiAPIForJSON (GeminiApi.typeMessages image options) options w1
       = (Return typeResult, w2)
    /\ GeminiApi.confidence r = field typeResult "confidence"
    /\ (analysed_type (field typeResult "imageType") = true ->
        GeminiApi.imageType r = field typeResult "imageType"
        /\ GeminiApi.errorMessage r = None)
    /\ (analysed_type (field typeResult "imageType") = false -> r = unknown_result typeResult)
    /\ trace w' = (trace w ++ events)%list
    /\ count is_error events = 0
    /\ count is_model_call events
       = (if analysed_type (field typeResult "imageType") then
            if GeminiApi.is_string (field typeResult "imageType") "food" then 2 else 3
          else 1)
    /\ (count is_complete events = 0 <->
        (GeminiApi.is_string (field typeResult "imageType") "ingredients"
         || GeminiApi.is_string (field typeResult "imageType") "menu")%bool = false).
Proof.
  intros H. pose proof H as H0.
  unfold GeminiApi.smartAnalyzeImage in H0.
  apply bind_return_inv in H0 as (image & w1 & Hconv & Htry).
  apply try_catch_return_inv in Htry as [Hbody | (e & w5 & _ & Hh)].
  2:{ destruct w5. revert Hh. run. discriminate. }
  apply bind_return_inv in Hbody as (typeResult & w2 & Hcall & Hrest).
  apply bind_return_inv in Hrest as ([] & w3 & Hlog & Hrest).
  apply bind_return_inv in Hrest as (tag & w4 & Hprop & _).
  apply prop_return_inv in Hprop as (Hnull & _ & _).
  exists image, w1, typeResult, w2.
  rewrite (smartAnalyzeImage_branches _ userAllergens _ _ _ _ _ _ Hconv Hcall Hnull) in H.
  cbv zeta in H. unfold analysed_type.
  assert (Hpre : exists pre, trace (logged w2 [Console LogLevel]) = (trace w ++ pre)%list
                             /\ count is_error pre = 0 /\ count is_complete pre = 0
                             /\ count is_model_call pre = 1).
  { apply callGeminiAPIForJSON_return in Hcall. subst w2.
    apply convertImageToBase64_return in Hconv as [[Hd ->]|[Hd ->]];
      (eexists; split;
       [ unfold logged, consumed; cbn [env network trace]; rewrite <- ?app_assoc; reflexivity
       | repeat split ]). }
  destruct Hpre as (pre & Hpre & Epre & Cpre & Mpre).
  unfold logged in Hpre. cbn [trace] in Hpre.
  apply try_catch_return_inv in H as [Hbody | (e & w5 & _ & Hh)].
  2:{ destruct w5. revert Hh. run. discriminate. }
  destruct (GeminiApi.is_string (field typeResult "imageType") "ingredients") eqn:Hi;
    [|destruct (GeminiApi.is_string (field typeResult "imageType") "menu") eqn:Hm;
      [|destruct (GeminiApi.is_string (field typeResult "imageType") "food") eqn:Hf]];
    cbn [orb].
  - cbv zeta in Hbody.
    apply bind_return_inv in Hbody as (text & w6 & Hstream & Hrest).
    apply bind_return_inv in Hrest as (analysis & w7 & Han & Hret).
    injection Hret as <- <-.
    apply callGeminiAPIForStream_return in Hstream as (cbs & Hcbs & -> & Hn).
    unfold GeminiApi.analyzeIngredientsAllergens in Han.
    apply callGeminiAPIForJSON_return in Han. subst w7.
    eexists. split; [exact Hconv|]. split; [exact Hcall|]. split; [reflexivity|].
    split; [intros _; split; reflexivity|]. split; [discriminate|].
    split; [unfold consumed, logged; cbn [trace env network];
            rewrite Hpre, <- !app_assoc; reflexivity|].
    rewrite !count_app, Epre, Mpre, (stream_events_count_error _ Hcbs),
      (stream_events_count_call _ Hcbs).
    split; [reflexivity|]. split; [rewrite (is_string_true _ _ Hi); reflexivity|].
    split; [cbn; lia | discriminate].
  - cbv zeta in Hbody.
    apply bind_return_inv in Hbody as (text & w6 & Hstream & Hrest).
    apply bind_return_inv in Hrest as (analysis & w7 & Han & Hret).
    injection Hret as <- <-.
    apply callGeminiAPIForStream_return in Hstream as (cbs & Hcbs & -> & Hn).
    unfold GeminiApi.analyzeMenuRecommendations in Han.
    apply callGeminiAPIForJSON_return in Han. subst w7.
    eexists. split; [exact Hconv|]. split; [exact Hcall|]. split; [reflexivity|].
    split; [intros _; split; reflexivity|]. split; [discriminate|].
    split; [unfold consumed, logged; cbn [trace env network];
            rewrite Hpre, <- !app_assoc; reflexivity|].
    rewrite !count_app, Epre, Mpre, (stream_events_count_error _ Hcbs),
      (stream_events_count_call _ Hcbs).
    split; [reflexivity|]. split; [rewrite (is_string_true _ _ Hm); reflexivity|].
    split; [cbn; lia | discriminate].
  - apply bind_return_inv in Hbody as (analysis & w6 & Hfood & Hret).
    injection Hret as <- <-.
    apply analyzeFoodPhoto_return in Hfood as (ev & Hev & Eev & Cev & Mev).
    unfold logged in Hev. cbn [trace] in Hev.
    exists (pre ++ ev)%list. split; [exact Hconv|]. split; [exact Hcall|].
    split; [reflexivity|].
    split; [intros _; split; reflexivity|]. split; [discriminate|].
    split; [rewrite Hev, Hpre, app_assoc; reflexivity|].
    rewrite !count_app, Epre, Mpre, Eev, Mev, Cpre, Cev.
    repeat split.
  - injection Hbody as <- <-.
    exists pre. split; [exact Hconv|]. split; [exact Hcall|].
    split; [reflexivity|].
    split; [discriminate|]. split; [reflexivity|].
    split; [unfold logged; cbn [trace]; exact Hpre|].
    rewrite Epre, Mpre, Cpre. repeat split.
Qed.

(** X14.  Every call of the orchestrator that returns: the image was
    encoded and classified; [confidence] is the classifier's, untouched
    and unchecked; a result of an analysed type carries no error message;
    [onError] was never invoked; the model was asked once for an image
    that is not analysed, twice for a food photo, three times for a label
    or a menu; and [onComplete] was invoked only on a label or a menu
    (when the extraction of the text ended, before the analysis). *)
Theorem smartAnalyzeImage_return
    (imageUrl : string) (userAllergens : list string)
    (options : GeminiApi.ImageAnalysisOptions)
    (w w' : World) (r : GeminiApi.SmartAnalysisResult) :
  GeminiApi.smartAnalyzeImage imageUrl userAllergens options w = (Return r, w') ->
  exists image w1 typeResult w2 events,
    GeminiApi.convertImageToBase64 imageUrl w = (Return image, w1)
    /\ GeminiApi.callGeminiAPIForJSON (GeminiApi.typeMessages image options) options w1
       = (Return typeResult, w2)
    /\ GeminiApi.confidence r = field typeResult "confidence"
    /\ (analysed_type (field typeResult "imageType") = true ->
        GeminiApi.imageType r = field typeResult "imageType"
        /\ GeminiApi.errorMessage r = None)
    /\ (analysed_type (field typeResult "imageType") = false -> r = unknown_result typeResult)
    /\ trace w' = (trace w ++ events)%list
    /\ count is_error events = 0
    /\ count is_model_call events
       = (if analysed_type (field typeResult "imageType") then
            if GeminiApi.is_string (field typeResult "imageType") "food" then 2 else 3
          else 1)
    /\ (count is_complete events = 0 <->
        (GeminiApi.is_string (field typeResult "imageType") "ingredients"
         || GeminiApi.is_string (field typeResult "imageType") "menu")%bool = false).
Proof. exact (smartAnalyzeImage_returns imageUrl userAllergens options w w' r). Qed.

End OrchestratorStages.

(** ** The orchestrator on sample replies *)

Lemma smartAnalyzeImage_ingredients_witness :
  outcome (GeminiApi.smartAnalyzeImage (Num := LiteralNumber) Sample.data_png ["milk"; "egg"]
             (Sample.gemini_options "key"))
          (Sample.world Sample.no_env
             [Sample.classified "ingredients"; Sample.extraction; Sample.safe_analysis])
  = Return {| GeminiApi.imageType := Some (JStr "ingredients");
              GeminiApi.confidence := Some (JNum "0.9");
              GeminiApi.result := JObj [("riskLevel", JStr "safe")];
              GeminiApi.errorMessage := None |}.
Proof.
  set (w := Sample.world Sample.no_env
              [Sample.classified "ingredients"; Sample.extraction; Sample.safe_analysis]).
  set (o := Sample.gemini_options "key").
  run_to H1 (GeminiApi.convertImageToBase64 Sample.data_png w).
  match type of H1 with
  | _ = (Return ?image, ?w1) =>
      run_to H2 (GeminiApi.callGeminiAPIForJSON (Num := LiteralNumber)
                   (GeminiApi.typeMessages image o) o w1);
      match type of H2 with
      | _ = (Return ?typeResult, ?w2) =>
          run_to H4 (GeminiApi.callGeminiAPIForStream (Num := LiteralNumber)
                       (GeminiApi.user_text_image (Filled extractIngredientsPrompt [])
                          (GeminiApi.data_url image) high)
                       (GeminiApi.append_chunk (Num := LiteralNumber)) o EmptyString
                       (logged w2 [Console LogLevel]));
          match type of H4 with
          | _ = (Return ?text, ?w3) =>
              run_to H5 (GeminiApi.analyzeIngredientsAllergens (Num := LiteralNumber)
                           text ["milk"; "egg"] o w3);
              unfold outcome;
              rewrite (proj1 (smartAnalyzeImage_ingredients (Num := LiteralNumber)
                                Sample.data_png ["milk"; "egg"] o w _ _ _ _ image typeResult _ text
                                H1 H2 eq_refl H4 H5))
          end
      end
  end.
  reflexivity.
Defined.

Lemma smartAnalyzeImage_menu_witness :
  outcome (GeminiApi.smartAnalyzeImage (Num := LiteralNumber) Sample.data_png ["milk"; "egg"]
             (Sample.gemini_options "key"))
          (Sample.world Sample.no_env
             [Sample.classified "menu"; Sample.extraction; Sample.safe_analysis])
  = Return {| GeminiApi.imageType := Some (JStr "menu");
              GeminiApi.confidence := Some (JNum "0.9");
              GeminiApi.result := JObj [("riskLevel", JStr "safe")];
              GeminiApi.errorMessage := None |}.
Proof.
  set (w := Sample.world Sample.no_env
              [Sample.classified "menu"; Sample.extraction; Sample.safe_analysis]).
  set (o := Sample.gemini_options "key").
  run_to H1 (GeminiApi.convertImageToBase64 Sample.data_png w).
  match type of H1 with
  | _ = (Return ?image, ?w1) =>
      run_to H2 (GeminiApi.callGeminiAPIForJSON (Num := LiteralNumber)
                   (GeminiApi.typeMessages image o) o w1);
      match type of H2 with
      | _ = (Return ?typeResult, ?w2) =>
          run_to H4 (GeminiApi.callGeminiAPIForStream (Num := LiteralNumber)
                       (GeminiApi.user_text_image (Filled extractMenuPrompt [])
                          (GeminiApi.data_url image) high)
                       (GeminiApi.append_chunk (Num := LiteralNumber)) o EmptyString
                       (logged w2 [Console LogLevel]));
          match type of H4 with
          | _ = (Return ?text, ?w3) =>
              run_to H5 (GeminiApi.analyzeMenuRecommendations (Num := LiteralNumber)
                           text ["milk"; "egg"] o w3);
              unfold outcome;
              rewrite (proj1 (smartAnalyzeImage_menu (Num := LiteralNumber)
                                Sample.data_png ["milk"; "egg"] o w _ _ _ _ image typeResult _ text
                                H1 H2 eq_refl H4 H5))
          end
      end
  end.
  reflexivity.
Defined.

Lemma smartAnalyzeImage_food_witness :
  outcome (GeminiApi.smartAnalyzeImage (Num := LiteralNumber) Sample.data_png ["milk"]
             (Sample.gemini_options "key"))
          (Sample.world Sample.no_env [Sample.classified "food"; Sample.safe_analysis])
  = Return {| GeminiApi.imageType := Some (JStr "food");
              GeminiApi.confidence := Some (JNum "0.9");
              GeminiApi.result := JObj [("riskLevel", JStr "safe")];
              GeminiApi.errorMessage := None |}.
Proof.
  set (w := Sample.world Sample.no_env [Sample.classified "food"; Sample.safe_analysis]).
  set (o := Sample.gemini_options "key").
  run_to H1 (GeminiApi.convertImageToBase64 Sample.data_png w).
  match type of H1 with
  | _ = (Return ?image, ?w1) =>
      run_to H2 (GeminiApi.callGeminiAPIForJSON (Num := LiteralNumber)
                   (GeminiApi.typeMessages image o) o w1);
      match type of H2 with
      | _ = (Return ?typeResult, ?w2) =>
          run_to H4 (GeminiApi.analyzeFoodPhoto (Num := LiteralNumber)
                       Sample.data_png ["milk"] o (logged w2 [Console LogLevel]));
          unfold outcome;
          rewrite (proj1 (smartAnalyzeImage_food (Num := LiteralNumber)
                            Sample.data_png ["milk"] o w _ _ _ image typeResult _
                            H1 H2 eq_refl H4))
      end
  end.
  reflexivity.
Defined.

Lemma smartAnalyzeImage_early_failures_witness :
  outcome (GeminiApi.smartAnalyzeImage (Num := LiteralNumber) "https://example.com/label.jpg"
             ["milk"] (Sample.gemini_options "key"))
          (Sample.world Sample.no_env [Rejected failed_to_fetch])
  = Throw image_unloadable
  /\ outcome (GeminiApi.smartAnalyzeImage (Num := LiteralNumber) Sample.data_png
                ["milk"] (Sample.gemini_options "key"))
             (Sample.world Sample.no_env [Sample.chat_reply "null"])
     = Throw null_property_error.
Proof.
  set (o := Sample.gemini_options "key").
  split.
  - set (w := Sample.world Sample.no_env [Rejected failed_to_fetch]).
    run_to H1 (GeminiApi.convertImageToBase64 "https://example.com/label.jpg" w).
    match type of H1 with
    | _ = (Throw ?e, ?w1) =>
        unfold outcome;
        rewrite (proj1 (proj1 (smartAnalyzeImage_early_failures (Num := LiteralNumber)
                                 "https://example.com/label.jpg" ["milk"] o w w1 w1
                                 {| GeminiApi.base64 := None;
                                    GeminiApi.mimeType := GeminiApi.MimeType "" |} e) H1))
    end.
    reflexivity.
  - set (w := Sample.world Sample.no_env [Sample.chat_reply "null"]).
    run_to H1 (GeminiApi.convertImageToBase64 Sample.data_png w).
    match type of H1 with
    | _ = (Return ?image, ?w1) =>
        run_to H2 (GeminiApi.callGeminiAPIForJSON (Num := LiteralNumber)
                     (GeminiApi.typeMessages image o) o w1);
        match type of H2 with
        | _ = (_, ?w2) =>
            unfold outcome;
            rewrite (proj2 (proj2 (smartAnalyzeImage_early_failures (Num := LiteralNumber)
                                     Sample.data_png ["milk"] o w w1 w2 image
                                     null_property_error)) H1 H2)
        end
    end.
    reflexivity.
Defined.

Lemma smartAnalyzeImage_extraction_failure_witness :
  outcome (GeminiApi.smartAnalyzeImage (Num := LiteralNumber) Sample.data_png ["milk"]
             (Sample.gemini_options "key"))
          (Sample.world Sample.no_env
             [Sample.classified "ingredients";
              Fulfilled (Sample.error_response 500 "Internal Server Error" "oops")])
  = Throw (new_Error "API request failed: 500 Internal Server Error").
Proof.
  set (w := Sample.world Sample.no_env
              [Sample.classified "ingredients";
               Fulfilled (Sample.error_response 500 "Internal Server Error" "oops")]).
  set (o := Sample.gemini_options "key").
  run_to H1 (GeminiApi.convertImageToBase64 Sample.data_png w).
  match type of H1 with
  | _ = (Return ?image, ?w1) =>
      run_to H2 (GeminiApi.callGeminiAPIForJSON (Num := LiteralNumber)
                   (GeminiApi.typeMessages image o) o w1);
      match type of H2 with
      | _ = (Return ?typeResult, ?w2) =>
          run_to H4 (GeminiApi.callGeminiAPIForStream (Num := LiteralNumber)
                       (GeminiApi.user_text_image (Filled extractIngredientsPrompt [])
                          (GeminiApi.data_url image) high)
                       (GeminiApi.append_chunk (Num := LiteralNumber)) o EmptyString
                       (logged w2 [Console LogLevel]));
          match type of H4 with
          | _ = (Throw ?e, ?w3) =>
              unfold outcome;
              rewrite (proj1 (proj2 (smartAnalyzeImage_extraction_failure
                                       (Num := LiteralNumber)
                                       Sample.data_png ["milk"] o w _ _ w3 image typeResult e
                                       H1 H2 eq_refl H4)))
          end
      end
  end.
  reflexivity.
Defined.

Lemma smartAnalyzeImage_return_witness :
  exists events,
    trace (after (GeminiApi.smartAnalyzeImage (Num := LiteralNumber) Sample.data_png ["milk"]
                    (Sample.gemini_options "key"))
                 (Sample.world Sample.no_env [Sample.classified "food"; Sample.safe_analysis]))
    = events
    /\ count is_error events = 0
    /\ count is_model_call events = 2
    /\ count is_complete events = 0.
Proof.
  set (w := Sample.world Sample.no_env [Sample.classified "food"; Sample.safe_analysis]).
  set (o := Sample.gemini_options "key").
  run_to H (GeminiApi.smartAnalyzeImage (Num := LiteralNumber) Sample.data_png ["milk"] o w).
  match type of H with
  | _ = (Return ?r, ?w') =>
      destruct (smartAnalyzeImage_return (Num := LiteralNumber) Sample.data_png ["milk"] o w w' r H)
        as (image & w1 & typeResult & w2 & events & Hc & Hj & _ & _ & _ & Ht & He & Hm & Hk)
  end.
  run_to H1 (GeminiApi.convertImageToBase64 Sample.data_png w).
  rewrite H1 in Hc. injection Hc as <- <-.
  match type of Hj with
  | ?m = _ => run_to H2 m
  end.
  rewrite H2 in Hj. injection Hj as <- <-.
  exists events. unfold after. rewrite H. cbn [snd]. cbn [trace] in Ht.
  split; [exact Ht|]. split; [exact He|]. split; [exact Hm|].
  apply (proj2 Hk). reflexivity.
Defined.

(* ===================================================================== *)
(** * Further properties: the encoder and the formats                     *)
(* ===================================================================== *)

Lemma cut_line (sep : ascii) (t : string) :
  occurs sep t = false -> cut sep (t ++ String sep EmptyString) = ([t], EmptyString).
Proof.
  induction t as [|c r IH]; cbn [append cut occurs].
  - intros _. rewrite Ascii.eqb_refl. reflexivity.
  - intros H. apply Bool.orb_false_iff in H as [Hc Hr].
    rewrite (IH Hr), Hc. reflexivity.
Qed.

(** The last piece of a split: what follows the last separator. *)
Lemma last_piece (sep : ascii) (a b : string) :
  occurs sep b = false ->
  fst (pop (split sep (a ++ String sep b))) = Some b.
Proof.
  intros Hb. rewrite pop_split. cbn [fst]. f_equal.
  replace (a ++ String sep b) with ((a ++ String sep EmptyString) ++ b)
    by (rewrite string_app_assoc; reflexivity).
  rewrite cut_app. cbn [snd].
  rewrite (cut_app sep a (String sep EmptyString)). cbn [snd].
  rewrite (cut_line sep _ (cut_remainder sep a)). cbn [snd append].
  rewrite (cut_without_separator _ _ Hb). reflexivity.
Qed.

Lemma lower_ascii_question (c : ascii) :
  Ascii.eqb (lower_ascii c) "?" = Ascii.eqb c "?".
Proof. destruct c as [[] [] [] [] [] [] [] []]; reflexivity. Qed.

Lemma lower_ascii_dot (c : ascii) :
  Ascii.eqb (lower_ascii c) "." = Ascii.eqb c ".".
Proof. destruct c as [[] [] [] [] [] [] [] []]; reflexivity. Qed.


Lemma occurs_question_lower (s : string) :
  occurs "?" (toLowerCase s) = occurs "?" s.
Proof.
  induction s as [|c r IH]; [reflexivity|].
  cbn [toLowerCase occurs]. rewrite lower_ascii_question, IH. reflexivity.
Qed.

Lemma startsWith_app (p s : string) : startsWith (p ++ s) p = true.
Proof.
  induction p as [|c p IH]; [destruct s; reflexivity|].
  cbn [append startsWith]. rewrite Ascii.eqb_refl, IH. reflexivity.
Qed.

Lemma startsWith_trans (s p q : string) :
  startsWith s p = true -> startsWith p q = true -> startsWith s q = true.
Proof.
  revert s p. induction q as [|c q IH]; intros s p Hsp Hpq; [reflexivity|].
  destruct p as [|d p]; [discriminate|].
  cbn [startsWith] in Hpq. apply andb_prop in Hpq as [Hd Hq].
  apply Ascii.eqb_eq in Hd. subst d.
  destruct s as [|x s]; [discriminate|].
  cbn [startsWith] in Hsp |- *. apply andb_prop in Hsp as [Hx Hs].
  rewrite Hx. cbn [andb]. apply (IH s p Hs Hq).
Qed.



Section EncoderOutcomes.
Context {Num : JsNumber}.

(** X16.  A data URI without a comma is encoded without an error: the
    payload is undefined, and the data URL that the requests are built
    from ends in the text `undefined'.  Nothing is fetched. *)
Theorem convertImageToBase64_no_comma (url : string) (w : World)
    (options : GeminiApi.ImageAnalysisOptions) :
  startsWith url "data:" = true ->
  occurs "," url = false ->
  let image := {| GeminiApi.base64 := None;
                  GeminiApi.mimeType := GeminiApi.getMimeTypeFromUrl url |} in
  GeminiApi.convertImageToBase64 url w = (Return image, logged w [Encode url])
  /\ GeminiApi.data_url image
     = "data:" ++ GeminiApi.Mime_toString (GeminiApi.getMimeTypeFromUrl url)
       ++ ";base64,undefined"
  /\ GeminiApi.typeMessages image options
     = GeminiApi.user_text_image (Filled typePrompt [])
         ("data:" ++ GeminiApi.Mime_toString (GeminiApi.getMimeTypeFromUrl url)
          ++ ";base64,undefined")
         (GeminiApi.default (GeminiApi.detail options) auto).
Proof.
  intros Hd Hc image.
  rewrite (convertImageToBase64_data url w Hd).
  rewrite (split_without_separator "," url Hc).
  repeat split.
Qed.

(** X17.  A source that is not a data URI, when the fetch and the read
    succeed: one GET of the source; the payload is what stands between
    the first and the second comma of the reader's result; the media type
    is the type of the blob, and only when that is empty the one read off
    the URL.  The status of the reply plays no part: a reply that is not
    2xx is encoded like any other. *)
Theorem convertImageToBase64_remote (url : string) (w : World)
    (resp : Response) (rest : list (Settled Response)) (b : Blob) (result : string) :
  startsWith url "data:" = false ->
  network w = Fulfilled resp :: rest ->
  blob resp = Fulfilled b ->
  readAsDataURL b = Some result ->
  GeminiApi.convertImageToBase64 url w
  = (Return {| GeminiApi.base64 := nth_error (split "," result) 1;
               GeminiApi.mimeType :=
                 if String.eqb (blob_type b) EmptyString
                 then GeminiApi.getMimeTypeFromUrl url
                 else GeminiApi.MimeType (blob_type b) |},
     consumed (logged w [Encode url]) (Get url)).
Proof.
  intros Hd Hnet Hblob Hread.
  destruct w as [en net tr]. cbn [network] in Hnet. subst net.
  unfold GeminiApi.convertImageToBase64. run. rewrite Hd.
  unfold fetch. run. rewrite Hblob. run.
  unfold GeminiApi.read_blob. rewrite Hread. run. same_world.
Qed.

(** X18.  A source that is not a data URI, when something fails.  A
    fetch that is rejected and a blob that cannot be read out of the
    reply both end in the one Error `无法加载图片', after one
    [console.error]: the cause is not kept.  A FileReader that fails
    rejects with its event, which is no Error and passes the [catch]
    untouched.  In each case the source was requested once. *)
Theorem convertImageToBase64_remote_failure (url : string) (w : World)
    (resp : Response) (rest : list (Settled Response)) (b : Blob) (reason : Thrown) :
  startsWith url "data:" = false ->
  (network w = Rejected reason :: rest
   \/ (network w = Fulfilled resp :: rest /\ blob resp = Rejected reason) ->
   GeminiApi.convertImageToBase64 url w
   = (Throw image_unloadable,
      logged (consumed (logged w [Encode url]) (Get url)) [Console ErrorLevel]))
  /\ (network w = Fulfilled resp :: rest -> blob resp = Fulfilled b ->
      readAsDataURL b = None ->
      GeminiApi.convertImageToBase64 url w
      = (Throw reader_event, consumed (logged w [Encode url]) (Get url)))
  /\ (forall e w', GeminiApi.convertImageToBase64 url w = (Throw e, w') ->
      exists events, trace w' = (trace w ++ Encode url :: Fetch (Get url) :: events)%list
                     /\ count is_fetch events = 0).
Proof.
  intros Hd. destruct w as [en net tr]. cbn [network].
  unfold GeminiApi.convertImageToBase64. run. rewrite Hd.
  unfold fetch. run.
  split; [|split].
  - intros [-> | [-> Hblob]]; run; [same_world|].
    rewrite Hblob. run. same_world.
  - intros -> Hblob Hread. run. rewrite Hblob. run.
    unfold GeminiApi.read_blob. rewrite Hread. run. same_world.
  - intros e w'.
    destruct net as [|[r|e0] rest0]; run.
    + intros [= _ <-]. exists [Console ErrorLevel]. cbn [trace].
      rewrite <- !app_assoc. split; reflexivity.
    + destruct (blob r) as [b0|e1]; run.
      * unfold GeminiApi.read_blob. destruct (readAsDataURL b0); run; [discriminate|].
        intros [= _ <-]. exists []. cbn [trace]. rewrite <- !app_assoc. split; reflexivity.
      * intros [= _ <-]. exists [Console ErrorLevel]. cbn [trace].
        rewrite <- !app_assoc. split; reflexivity.
    + intros [= _ <-]. exists [Console ErrorLevel]. cbn [trace].
      rewrite <- !app_assoc. split; reflexivity.
Qed.

End EncoderOutcomes.

Lemma convertImageToBase64_no_comma_witness :
  GeminiApi.convertImageToBase64 "data:image/png" (Sample.world Sample.no_env [])
  = (Return {| GeminiApi.base64 := None; GeminiApi.mimeType := GeminiApi.MimeType "image/png" |},
     {| env := Sample.no_env; network := []; trace := [Encode "data:image/png"] |})
  /\ GeminiApi.data_url
       {| GeminiApi.base64 := None; GeminiApi.mimeType := GeminiApi.MimeType "image/png" |}
     = "data:image/png;base64,undefined".
Proof.
  destruct (convertImageToBase64_no_comma "data:image/png" (Sample.world Sample.no_env [])
              (Sample.gemini_options "key") eq_refl eq_refl) as (H1 & H2 & _).
  split; [exact H1 | exact H2].
Defined.

Lemma convertImageToBase64_remote_witness :
  GeminiApi.convertImageToBase64 "https://example.com/missing.png"
    (Sample.world Sample.no_env [Fulfilled Sample.not_found])
  = (Return {| GeminiApi.base64 := Some "PGh0bWw+";
               GeminiApi.mimeType := GeminiApi.MimeType "text/html" |},
     {| env := Sample.no_env; network := [];
        trace := [Encode "https://example.com/missing.png";
                  Fetch (Get "https://example.com/missing.png")] |}).
Proof.
  exact (convertImageToBase64_remote "https://example.com/missing.png"
           (Sample.world Sample.no_env [Fulfilled Sample.not_found])
           Sample.not_found [] _ _ eq_refl eq_refl eq_refl eq_refl).
Defined.

Lemma convertImageToBase64_remote_failure_witness :
  GeminiApi.convertImageToBase64 "https://example.com/label.jpg"
    (Sample.world Sample.no_env [Rejected (NonError "net::ERR_CERT_DATE_INVALID")])
  = (Throw image_unloadable,
     {| env := Sample.no_env; network := [];
        trace := [Encode "https://example.com/label.jpg";
                  Fetch (Get "https://example.com/label.jpg"); Console ErrorLevel] |}).
Proof.
  exact (proj1 (convertImageToBase64_remote_failure "https://example.com/label.jpg"
                  (Sample.world Sample.no_env [Rejected (NonError "net::ERR_CERT_DATE_INVALID")])
                  Sample.not_found [] {| blob_type := ""; readAsDataURL := None |}
                  (NonError "net::ERR_CERT_DATE_INVALID") eq_refl)
               (or_introl eq_refl)).
Defined.

(* ===================================================================== *)
(** * Further properties: the image functions of llm.ts                   *)
(* ===================================================================== *)

Lemma startsWith_app_l (s t p : string) :
  startsWith s p = true -> startsWith (s ++ t) p = true.
Proof.
  revert s. induction p as [|c p IH]; intros s H; [reflexivity|].
  destruct s as [|x s]; [discriminate|].
  cbn [append startsWith] in *. apply andb_prop in H as [Hx Hs].
  rewrite Hx, (IH s Hs). reflexivity.
Qed.

Lemma http_is_no_data_uri (s : string) :
  (startsWith s "http://" || startsWith s "https://")%bool = true ->
  startsWith s "data:" = false.
Proof.
  destruct s as [|c s]; [discriminate|].
  cbn [startsWith]. intros H.
  assert (Hc : Ascii.eqb c "h" = true).
  { destruct (Ascii.eqb c "h"); [reflexivity | discriminate H]. }
  apply Ascii.eqb_eq in Hc. subst c. reflexivity.
Qed.

Lemma includes_has_no_question (e : string) :
  includes ["jpg"; "jpeg"; "png"; "gif"; "webp"] e = true -> occurs "?" e = false.
Proof.
  unfold includes. cbn [existsb]. intros H.
  repeat (apply Bool.orb_true_iff in H as [H|H];
          [apply String.eqb_eq in H; subst e; reflexivity|]).
  discriminate H.
Qed.

(** X19.  What [isValidImageFormat] decides.  On an http or https URL
    it goes by what follows the last dot, whatever its case: the URL is
    accepted exactly when that is jpg, jpeg, png, gif or webp; a query
    string behind the extension is part of what is compared, so such a URL
    is always refused.  On a data URI it tests a prefix only: every string
    that begins with `data:' and one of the five supported media types is
    accepted, whatever follows (no `;base64,', no payload, a longer
    subtype).  Every other string is refused. *)
Theorem isValidImageFormat_decides :
  (forall stem ext,
     (startsWith stem "http://" || startsWith stem "https://")%bool = true ->
     occurs "." ext = false ->
     Llm.isValidImageFormat (stem ++ "." ++ ext)
     = includes ["jpg"; "jpeg"; "png"; "gif"; "webp"] (toLowerCase ext)
     /\ (occurs "?" ext = true -> Llm.isValidImageFormat (stem ++ "." ++ ext) = false))
  /\ (forall format suffix,
        In format Llm.supportedFormats ->
        Llm.isValidImageFormat ("data:" ++ format ++ suffix) = true)
  /\ (forall s, is_url_or_data_uri s = false -> Llm.isValidImageFormat s = false).
Proof.
  split; [|split].
  - intros stem ext Hhttp Hdot.
    assert (Hurl : (startsWith (stem ++ "." ++ ext) "http://"
                    || startsWith (stem ++ "." ++ ext) "https://")%bool = true).
    { apply Bool.orb_true_iff in Hhttp as [H|H];
        rewrite (startsWith_app_l _ _ _ H); [reflexivity | apply Bool.orb_true_r]. }
    assert (Heq : Llm.isValidImageFormat (stem ++ "." ++ ext)
                  = includes ["jpg"; "jpeg"; "png"; "gif"; "webp"] (toLowerCase ext)).
    { unfold Llm.isValidImageFormat.
      rewrite (http_is_no_data_uri _ Hurl), Hurl.
      change (stem ++ "." ++ ext) with (stem ++ String "." ext).
      rewrite (last_piece "." stem ext Hdot). reflexivity. }
    split; [exact Heq|].
    intros Hq. rewrite Heq.
    destruct (includes ["jpg"; "jpeg"; "png"; "gif"; "webp"] (toLowerCase ext)) eqn:Hin;
      [|reflexivity].
    apply includes_has_no_question in Hin.
    rewrite occurs_question_lower, Hq in Hin. discriminate Hin.
  - intros format suffix Hin. unfold Llm.isValidImageFormat.
    replace (startsWith ("data:" ++ format ++ suffix) "data:") with true by reflexivity.
    apply existsb_exists. exists format. split; [exact Hin|].
    change ("data:" ++ format ++ suffix) with (("data:" ++ format) ++ suffix).
    apply startsWith_app.
  - intros s Hs. unfold is_url_or_data_uri in Hs.
    apply Bool.orb_false_iff in Hs as [Hs Hd].
    unfold Llm.isValidImageFormat. rewrite Hd, Hs. reflexivity.
Qed.

Lemma isValidImageFormat_decides_witness :
  Llm.isValidImageFormat "https://example.com/Label.JPG" = true
  /\ Llm.isValidImageFormat "https://example.com/label.jpg?size=large" = false
  /\ Llm.isValidImageFormat "data:image/png-of-a-kind" = true
  /\ Llm.isValidImageFormat "blob:https://example.com/3f1c" = false.
Proof.
  destruct isValidImageFormat_decides as (Hurl & Hdata & Hother).
  split; [|split; [|split]].
  - exact (proj1 (Hurl "https://example.com/Label" "JPG" eq_refl eq_refl)).
  - exact (proj2 (Hurl "https://example.com/label" "jpg?size=large" eq_refl eq_refl) eq_refl).
  - apply (Hdata "image/png" "-of-a-kind"). cbn. auto.
  - exact (Hother "blob:https://example.com/3f1c" eq_refl).
Defined.

Section ImageFunctions.
Context {Num : JsNumber}.
Variable A : Type.
Variable onChunk : JSON -> A -> A.

(** The loop over the sources changes nothing in the world: it returns
    the texts of the sources when every blob can be read. *)
Lemma to_urls_texts (imageSources : list Llm.ImageSource) (urls : list string) (w : World) :
  map source_text imageSources = map Some urls ->
  Llm.to_urls imageSources w = (Return urls, w).
Proof.
  revert urls. induction imageSources as [|[s|b] rest IH]; intros [|u urls] H;
    try discriminate H; [reflexivity| |];
    cbn [map source_text] in H; injection H as Hu Hrest; cbn [Llm.to_urls].
  - subst u. rewrite (bind_of_return _ _ _ _ _ (IH urls Hrest)). reflexivity.
  - unfold Llm.fileToBase64. rewrite Hu.
    rewrite (bind_of_return (ret u) _ w w u) by reflexivity.
    rewrite (bind_of_return _ _ _ _ _ (IH urls Hrest)). reflexivity.
Qed.

Lemma to_urls_unreadable (imageSources : list Llm.ImageSource) (w : World) :
  In None (map source_text imageSources) ->
  Llm.to_urls imageSources w = (Throw reader_event, w).
Proof.
  induction imageSources as [|[s|b] rest IH]; cbn [map source_text In Llm.to_urls];
    intros H; [destruct H| |].
  - destruct H as [H|H]; [discriminate H|].
    rewrite (bind_of_throw _ _ _ _ _ (IH H)). reflexivity.
  - unfold Llm.fileToBase64. destruct (readAsDataURL b) as [r|] eqn:Hr.
    + destruct H as [H|H]; [discriminate H|].
      rewrite (bind_of_return (ret r) _ w w r) by reflexivity.
      rewrite (bind_of_throw _ _ _ _ _ (IH H)). reflexivity.
    + reflexivity.
Qed.

Lemma callGemini25ProWithHistory_shape
    (messages : list Message) (options : Llm.ImageAnalysisOptions) (acc : A)
    (w w' : World) (res : Result A) :
  Llm.callGemini25ProWithHistory messages onChunk options acc w = (res, w') ->
  (w' = w /\ exists e, res = Throw e)
  \/ stream_run w (llm_request messages options) res w'.
Proof.
  unfold Llm.callGemini25ProWithHistory.
  destruct (String.eqb (Llm.apiKey options) EmptyString);
    [intros [= <- <-]; left; eauto|].
  destruct (Nat.eqb (List.length messages) 0); [intros [= <- <-]; left; eauto|].
  destruct (Llm.budget_exceeds (Llm.thinking options)
              (Llm.default (Llm.maxTokens options) 8192%Z));
    [intros [= <- <-]; left; eauto|].
  intros H. right. apply (llm_send_stream_run _ _ _ _ _ _ _ _ H).
Qed.

(** X20.  A source that [analyzeImage] accepts is sent as it is: the
    call is [callGemini25ProWithHistory] on one message of the user, the
    prompt (or the default prompt) followed by the image, a URL being
    passed on without being fetched or encoded: no image is fetched,
    and the only fetch of the run, if any, is the request to the model. *)
Theorem analyzeImage_accepted
    (imageSource : Llm.ImageSource) (prompt : option string)
    (options : Llm.ImageAnalysisOptions) (acc : A) (w : World) (text : string) :
  source_text imageSource = Some text ->
  Llm.isValidImageFormat text = true ->
  let messages :=
    [{| role := user;
        content := Parts [TextPart (Literal (Llm.default prompt Llm.default_prompt));
                          ImagePart text (Llm.default (Llm.detail options) auto)] |}] in
  Llm.analyzeImage imageSource prompt onChunk options acc w
  = Llm.callGemini25ProWithHistory messages onChunk options acc w
  /\ exists events,
       trace (after (Llm.analyzeImage imageSource prompt onChunk options acc) w)
       = (trace w ++ events)%list
       /\ count is_image_fetch events = 0
       /\ count is_fetch events <= 1.
Proof.
  intros Htext Hvalid messages.
  assert (Heq : Llm.analyzeImage imageSource prompt onChunk options acc w
                = Llm.callGemini25ProWithHistory messages onChunk options acc w).
  { unfold Llm.analyzeImage.
    destruct imageSource as [s|b]; cbn [source_text] in Htext.
    - injection Htext as ->.
      assert (Hpre : (if (startsWith text "http://" || startsWith text "https://")%bool
                      then ret text
                      else if startsWith text "data:" then ret text
                           else throw Llm.invalid_source) = ret text).
      { revert Hvalid. unfold Llm.isValidImageFormat.
        destruct (startsWith text "data:").
        - destruct (startsWith text "http://" || startsWith text "https://")%bool; reflexivity.
        - destruct (startsWith text "http://" || startsWith text "https://")%bool;
            [reflexivity | discriminate]. }
      rewrite Hpre. rewrite (bind_of_return (ret text) _ w w text) by reflexivity.
      rewrite Hvalid. reflexivity.
    - unfold Llm.fileToBase64. rewrite Htext.
      rewrite (bind_of_return (ret text) _ w w text) by reflexivity.
      rewrite Hvalid. reflexivity. }
  split; [exact Heq|].
  unfold after. rewrite Heq.
  destruct (Llm.callGemini25ProWithHistory messages onChunk options acc w) as [res w'] eqn:Hrun.
  cbn [snd].
  apply callGemini25ProWithHistory_shape in Hrun.
  destruct Hrun as [[-> _] | (cbs & Hcbs & [(a & _ & -> & _) | (e & _ & ->)])].
  - exists []. rewrite app_nil_r. repeat split. cbn. lia.
  - exists (Fetch (llm_request messages options) :: cbs).
    unfold logged, consumed. cbn [trace]. rewrite <- app_assoc.
    split; [reflexivity|].
    unfold count. cbn [filter is_image_fetch is_fetch llm_request].
    rewrite (stream_events_filter is_image_fetch cbs Hcbs),
      (stream_events_filter is_fetch cbs Hcbs);
      [split; [reflexivity | cbn; lia] | |];
      intros [r| | | | |]; cbn; congruence.
  - exists (Fetch (llm_request messages options) :: cbs ++ [OnError e]).
    unfold logged, consumed. cbn [trace]. rewrite <- app_assoc.
    split; [reflexivity|].
    unfold count. cbn [filter is_image_fetch is_fetch llm_request].
    rewrite !filter_app.
    rewrite (stream_events_filter is_image_fetch cbs Hcbs),
      (stream_events_filter is_fetch cbs Hcbs);
      [split; [reflexivity | cbn; lia] | |];
      intros [r| | | | |]; cbn; congruence.
Qed.

Lemma pop_snoc {X : Type} (front : list X) (x : X) : pop (front ++ [x]) = (Some x, front).
Proof.
  induction front as [|y front IH]; [reflexivity|].
  cbn [app]. destruct (front ++ [x])%list as [|z l] eqn:E.
  - destruct front; discriminate E.
  - rewrite pop_cons, IH. reflexivity.
Qed.

(** X21.  The checks of [analyzeMultipleImages] come before everything
    else and before the key is looked at: no source at all is refused;
    a blob that cannot be read rejects with the reader's event; one
    source in a format that [isValidImageFormat] refuses makes the whole
    call fail, whatever the others are.  In each case the world is left
    as it was.  When every source passes, the call is
    [callGemini25ProWithHistory] on one message of the user: the prompt
    (or the default one) and then the images, in the order given. *)
Theorem analyzeMultipleImages_checks
    (imageSources : list Llm.ImageSource) (prompt : option string)
    (options : Llm.ImageAnalysisOptions) (acc : A) (w : World) (urls : list string) :
  Llm.analyzeMultipleImages [] prompt onChunk options acc w = (Throw Llm.no_image, w)
  /\ (imageSources <> [] -> In None (map source_text imageSources) ->
      Llm.analyzeMultipleImages imageSources prompt onChunk options acc w
      = (Throw reader_event, w))
  /\ (imageSources <> [] -> map source_text imageSources = map Some urls ->
      existsb (fun url => negb (Llm.isValidImageFormat url)) urls = true ->
      Llm.analyzeMultipleImages imageSources prompt onChunk options acc w
      = (Throw Llm.unsupported_formats, w))
  /\ (imageSources <> [] -> map source_text imageSources = map Some urls ->
      forallb Llm.isValidImageFormat urls = true ->
      Llm.analyzeMultipleImages imageSources prompt onChunk options acc w
      = Llm.callGemini25ProWithHistory
          [{| role := user;
              content :=
                Parts (TextPart (Literal (Llm.default prompt "请分析这些图片"))
                       :: map (fun url => ImagePart url (Llm.default (Llm.detail options) auto))
                              urls) |}]
          onChunk options acc w).
Proof.
  split; [reflexivity|].
  assert (Hlen : imageSources <> [] -> Nat.eqb (List.length imageSources) 0 = false).
  { destruct imageSources; [contradiction | reflexivity]. }
  repeat split; intros Hne H; unfold Llm.analyzeMultipleImages; rewrite (Hlen Hne).
  - rewrite (bind_of_throw _ _ _ _ _ (to_urls_unreadable _ w H)). reflexivity.
  - intros Hbad. rewrite (bind_of_return _ _ _ _ _ (to_urls_texts _ _ w H)).
    assert (Hall : forallb Llm.isValidImageFormat urls = false).
    { apply existsb_exists in Hbad as (u & Hin & Hu).
      destruct (forallb Llm.isValidImageFormat urls) eqn:Hf; [|reflexivity].
      rewrite forallb_forall in Hf. rewrite (Hf u Hin) in Hu. discriminate Hu. }
    rewrite Hall. reflexivity.
  - intros Hall. rewrite (bind_of_return _ _ _ _ _ (to_urls_texts _ _ w H)).
    rewrite Hall. reflexivity.
Qed.

(** X22.  [imageConversation] attaches the images to the last message
    of the history when the user wrote it: the parts it had (a string
    content counting as one text part) are followed by one image part per
    source, in order.  No source is checked: what [isValidImageFormat]
    refuses is sent like the rest.  When the last message is not the
    user's the history is sent as it is and the images are left out; with
    an empty history (and a key) the call throws. *)
Theorem imageConversation_attaches
    (imageSources : list Llm.ImageSource) (front : list Message) (last : Message)
    (options : Llm.ImageAnalysisOptions) (acc : A) (w : World) (urls : list string) :
  map source_text imageSources = map Some urls ->
  (role last = user ->
   Llm.imageConversation imageSources (front ++ [last]) onChunk options acc w
   = Llm.callGemini25ProWithHistory
       (front
        ++ [{| role := user;
               content :=
                 Parts (match content last with
                        | Plain text => [TextPart text]
                        | Parts parts => parts
                        end
                        ++ map (fun url => ImagePart url (Llm.default (Llm.detail options) auto))
                               urls) |}])
       onChunk options acc w)
  /\ (role last <> user ->
      Llm.imageConversation imageSources (front ++ [last]) onChunk options acc w
      = Llm.callGemini25ProWithHistory (front ++ [last]) onChunk options acc w)
  /\ (Llm.apiKey options <> EmptyString ->
      Llm.imageConversation imageSources [] onChunk options acc w
      = (Throw Llm.messages_required, w)).
Proof.
  intros Htexts. unfold Llm.imageConversation.
  rewrite !(bind_of_return _ _ _ _ _ (to_urls_texts _ _ w Htexts)).
  unfold Llm.attach_images. rewrite pop_snoc.
  repeat split.
  - intros ->. reflexivity.
  - intros Hrole. destruct (role last); [reflexivity | contradiction | reflexivity].
  - intros Hkey. apply String.eqb_neq in Hkey. cbn [pop].
    unfold Llm.callGemini25ProWithHistory. rewrite Hkey. reflexivity.
Qed.

End ImageFunctions.

Lemma analyzeImage_accepted_witness :
  Llm.analyzeImage (Num := LiteralNumber) (Llm.SourceString "https://example.com/label.png")
    None Sample.append_text (Sample.llm_options "key" None None) EmptyString
    (Sample.world Sample.no_env [Fulfilled (Sample.streaming [Fulfilled Sample.four_frames])])
  = (Return "foobar",
     {| env := Sample.no_env; network := [];
        trace :=
          [Fetch (llm_request
                    [{| role := user;
                        content := Parts [TextPart (Literal Llm.default_prompt);
                                          ImagePart "https://example.com/label.png" auto] |}]
                    (Sample.llm_options "key" None None));
           OnChunk (JStr "foo"); Console WarnLevel; OnChunk (JStr "bar"); OnComplete] |}).
Proof.
  rewrite (proj1 (analyzeImage_accepted (Num := LiteralNumber) string Sample.append_text
                    (Llm.SourceString "https://example.com/label.png") None
                    (Sample.llm_options "key" None None) EmptyString
                    (Sample.world Sample.no_env
                       [Fulfilled (Sample.streaming [Fulfilled Sample.four_frames])])
                    "https://example.com/label.png" eq_refl eq_refl)).
  vm_compute. reflexivity.
Defined.

Lemma analyzeMultipleImages_checks_witness :
  Llm.analyzeMultipleImages (Num := LiteralNumber)
    [Llm.SourceString "https://example.com/a.png"; Llm.SourceString "https://example.com/b.bmp"]
    None Sample.append_text (Sample.llm_options "" None None) EmptyString
    (Sample.world Sample.no_env [])
  = (Throw Llm.unsupported_formats, Sample.world Sample.no_env []).
Proof.
  refine (proj1 (proj2 (proj2 (analyzeMultipleImages_checks (Num := LiteralNumber) string
                                 Sample.append_text
                                 [Llm.SourceString "https://example.com/a.png";
                                  Llm.SourceString "https://example.com/b.bmp"]
                                 None (Sample.llm_options "" None None) EmptyString
                                 (Sample.world Sample.no_env [])
                                 ["https://example.com/a.png"; "https://example.com/b.bmp"])))
                _ eq_refl eq_refl).
  discriminate.
Defined.

Lemma imageConversation_attaches_witness :
  Llm.imageConversation (Num := LiteralNumber)
    [Llm.SourceString "https://example.com/b.bmp"]
    ([{| role := system; content := Plain (Literal "be brief") |}]
     ++ [{| role := user; content := Plain (Literal "what is this?") |}])
    Sample.append_text (Sample.llm_options "key" None None) EmptyString
    (Sample.world Sample.no_env [Fulfilled (Sample.streaming [Fulfilled Sample.four_frames])])
  = (Return "foobar",
     {| env := Sample.no_env; network := [];
        trace :=
          [Fetch (llm_request
                    [{| role := system; content := Plain (Literal "be brief") |};
                     {| role := user;
                        content := Parts [TextPart (Literal "what is this?");
                                          ImagePart "https://example.com/b.bmp" auto] |}]
                    (Sample.llm_options "key" None None));
           OnChunk (JStr "foo"); Console WarnLevel; OnChunk (JStr "bar"); OnComplete] |}).
Proof.
  rewrite (proj1 (imageConversation_attaches (Num := LiteralNumber) string Sample.append_text
                    [Llm.SourceString "https://example.com/b.bmp"]
                    [{| role := system; content := Plain (Literal "be brief") |}]
                    {| role := user; content := Plain (Literal "what is this?") |}
                    (Sample.llm_options "key" None None) EmptyString
                    (Sample.world Sample.no_env
                       [Fulfilled (Sample.streaming [Fulfilled Sample.four_frames])])
                    ["https://example.com/b.bmp"] eq_refl) eq_refl).
  vm_compute. reflexivity.
Defined.

(* ===================================================================== *)
(** * Further properties: the component that shows the analysis           *)
(* ===================================================================== *)

Section AnalysisResultProperties.
Context {Num : JsNumber}.
Import AnalysisResult.

Lemma added_events (w w' : World) (events : list Event) :
  trace w' = (trace w ++ events)%list -> added w w' = events.
Proof.
  intros H. unfold added. rewrite H.
  rewrite skipn_app, skipn_all, Nat.sub_diag. reflexivity.
Qed.

Lemma callbacks_keep_allergens (events : list Event) (st : State) :
  allergenList (fold_left on_callback events st) = allergenList st
  /\ analysisResult (fold_left on_callback events st) = analysisResult st.
Proof.
  revert st. induction events as [|e events IH]; intros st; [split; reflexivity|].
  cbn [fold_left]. destruct (IH (on_callback st e)) as [-> ->].
  destruct e; try (split; reflexivity).
  cbn [on_callback]. unfold onComplete.
  destruct (GeminiApi.string_truthy (errorMessage (set_isAnalyzing false st)));
    split; reflexivity.
Qed.

(** Without an invocation of [onError] the callbacks leave the error
    message as it is; when it is empty, each invocation of [onComplete]
    adds one success message. *)
Lemma callbacks_without_error (events : list Event) (st : State) :
  count is_error events = 0 ->
  errorMessage st = Some EmptyString ->
  errorMessage (fold_left on_callback events st) = Some EmptyString
  /\ List.length (filter is_success (notices (fold_left on_callback events st)))
     = List.length (filter is_success (notices st)) + count is_complete events.
Proof.
  revert st. induction events as [|e events IH]; intros st He Hm.
  - cbn. split; [exact Hm | lia].
  - cbn [fold_left].
    destruct e as [r|u|c| |err|l]; cbn [on_callback];
      try (unfold count in *; cbn [filter is_error is_complete] in *;
           apply (IH st He Hm)).
    + unfold count in He |- *. cbn [filter is_error is_complete] in He |- *.
      unfold onComplete. cbn [errorMessage set_isAnalyzing]. rewrite Hm.
      cbn [GeminiApi.string_truthy String.eqb negb].
      destruct (IH (notify (MessageSuccess "分析完成") (set_isAnalyzing false st)) He Hm)
        as [H1 H2].
      split; [exact H1|]. rewrite H2. cbn [notices notify set_isAnalyzing].
      rewrite filter_app, length_app. unfold count. cbn. lia.
    + unfold count in He. cbn in He. discriminate He.
Qed.

(** X23.  [performAnalysis] on an image always ends with the spinner
    hidden, whatever the analysis does.  And when the key of the
    component ([VITE_DASHSCOPE_API_KEY]) is missing, nothing is requested
    (the world is as it was, even if the environment holds the key that
    the transports would fall back to) and the error panel shows the
    configuration message.  When the analysis throws, no result is kept
    and the error message is the message of the Error (`分析失败' for
    what is no Error). *)
Theorem performAnalysis_ends
    (setup : Setup) (props : Props) (st : State) (w : World) (url : string) :
  imageUrl props = Some url ->
  url <> EmptyString ->
  isAnalyzing (fst (performAnalysis setup props st w)) = false
  /\ (GeminiApi.string_truthy (API_KEY setup) = false ->
      snd (performAnalysis setup props st w) = w
      /\ panel (fst (performAnalysis setup props st w)) = ErrorState missing_key_text
      /\ analysisResult (fst (performAnalysis setup props st w)) = None)
  /\ (forall key e w',
        API_KEY setup = Some key -> key <> EmptyString ->
        GeminiApi.smartAnalyzeImage url (allergenList st) (analysis_options key setup) w
        = (Throw e, w') ->
        snd (performAnalysis setup props st w) = w'
        /\ analysisResult (fst (performAnalysis setup props st w)) = None
        /\ errorMessage (fst (performAnalysis setup props st w))
           = Some (match e with Exn _ m => m | NonError _ => "分析失败" end)).
Proof.
  intros Hurl Hne. apply String.eqb_neq in Hne.
  unfold performAnalysis. rewrite Hurl, Hne.
  cbn [allergenList set_errorMessage set_analysisResult set_isAnalyzing].
  destruct (API_KEY setup) as [key|]; [destruct (String.eqb key EmptyString) eqn:Hk|].
  - split; [reflexivity|]. split; [intros _; repeat split|].
    intros key' e w' [= <-] Hk'. apply String.eqb_neq in Hk'. congruence.
  - split; [|split].
    + destruct (GeminiApi.smartAnalyzeImage _ _ _ w) as [[r|e] w'].
      * destruct (GeminiApi.is_string (GeminiApi.imageType r) "unknown"
                  || negb (truthy (Some (GeminiApi.result r))))%bool; reflexivity.
      * reflexivity.
    + cbn [GeminiApi.string_truthy]. rewrite Hk. discriminate.
    + intros key' e w' [= <-] _ Hrun. rewrite Hrun. cbn [fst snd].
      split; [reflexivity|]. split; [|destruct e; reflexivity].
      cbn [analysisResult notify set_errorMessage set_isAnalyzing].
      match goal with
      | |- analysisResult (fold_left on_callback ?ev ?s) = _ =>
          rewrite (proj2 (callbacks_keep_allergens ev s))
      end.
      reflexivity.
  - split; [reflexivity|]. split; [intros _; repeat split|].
    intros key' e w' [=].
Qed.

(** X24.  What the component shows after an analysis that returned.
    The result is kept.  For a result of the type `unknown', or one whose
    [result] is falsy, the error panel shows the error message of the
    result, or `无法识别图片类型' when it has none; otherwise the result
    panel shows the result: no callback can have left an error message,
    since a call that returns has not invoked [onError]. *)
Theorem performAnalysis_shows_result
    (setup : Setup) (props : Props) (st : State) (w w' : World) (url key : string)
    (r : GeminiApi.SmartAnalysisResult) :
  imageUrl props = Some url ->
  url <> EmptyString ->
  API_KEY setup = Some key ->
  key <> EmptyString ->
  GeminiApi.smartAnalyzeImage url (allergenList st) (analysis_options key setup) w
  = (Return r, w') ->
  let st' := fst (performAnalysis setup props st w) in
  snd (performAnalysis setup props st w) = w'
  /\ analysisResult st' = Some r
  /\ allergenList st' = allergenList st
  /\ panel st'
     = if (GeminiApi.is_string (GeminiApi.imageType r) "unknown"
           || negb (truthy (Some (GeminiApi.result r))))%bool
       then ErrorState (text_of (GeminiApi.or_string (GeminiApi.errorMessage r)
                                   (Some "无法识别图片类型")))
       else ResultContent r.
Proof.
  intros Hurl Hne Hkey Hk Hrun st'.
  apply String.eqb_neq in Hne. apply String.eqb_neq in Hk.
  destruct (smartAnalyzeImage_returns _ _ _ _ _ _ Hrun)
    as (image & w1 & typeResult & w2 & events & _ & _ & _ & _ & _ & Ht & He & _ & _).
  subst st'. unfold performAnalysis. rewrite Hurl, Hne, Hkey, Hk.
  cbn [allergenList set_errorMessage set_analysisResult set_isAnalyzing].
  rewrite Hrun. rewrite (added_events _ _ _ Ht).
  set (st1 := set_errorMessage (Some EmptyString)
                (set_analysisResult None (set_isAnalyzing true st))).
  destruct (callbacks_without_error events st1 He eq_refl) as [Hm _].
  destruct (callbacks_keep_allergens events st1) as [Hal _].
  destruct (GeminiApi.is_string (GeminiApi.imageType r) "unknown"
            || negb (truthy (Some (GeminiApi.result r))))%bool.
  - cbn [fst snd]. repeat split.
    + cbn. exact Hal.
    + unfold panel. cbn [isAnalyzing errorMessage notify set_errorMessage set_isAnalyzing
                           set_analysisResult].
      destruct (GeminiApi.errorMessage r) as [m|]; cbn [GeminiApi.or_string].
      * destruct (String.eqb m EmptyString) eqn:Em; cbn [GeminiApi.string_truthy];
          [reflexivity | rewrite Em; reflexivity].
      * reflexivity.
  - cbn [fst snd]. repeat split.
    + cbn. exact Hal.
    + unfold panel. cbn [isAnalyzing errorMessage analysisResult set_isAnalyzing
                           set_analysisResult].
      rewrite Hm. reflexivity.
Qed.

(** X25.  The success message `分析完成' is shown once for every
    invocation of [onComplete] during an analysis that returns, and so
    only for a label or a menu, whose text is extracted by the streaming
    transport: an analysis of a food photo, or of an image that is not
    recognised, ends without it. *)
Theorem performAnalysis_success_message
    (setup : Setup) (props : Props) (st : State) (w w' : World) (url key : string)
    (r : GeminiApi.SmartAnalysisResult) :
  imageUrl props = Some url ->
  url <> EmptyString ->
  API_KEY setup = Some key ->
  key <> EmptyString ->
  GeminiApi.smartAnalyzeImage url (allergenList st) (analysis_options key setup) w
  = (Return r, w') ->
  let st' := fst (performAnalysis setup props st w) in
  List.length (filter is_success (notices st'))
  = List.length (filter is_success (notices st)) + count is_complete (added w w')
  /\ (count is_complete (added w w') = 0 <->
      (GeminiApi.is_string (GeminiApi.imageType r) "ingredients"
       || GeminiApi.is_string (GeminiApi.imageType r) "menu")%bool = false).
Proof.
  intros Hurl Hne Hkey Hk Hrun st'.
  apply String.eqb_neq in Hne. apply String.eqb_neq in Hk.
  destruct (smartAnalyzeImage_returns _ _ _ _ _ _ Hrun)
    as (image & w1 & typeResult & w2 & events & _ & _ & _ & Han & Hun & Ht & He & _ & Hc).
  rewrite (added_events _ _ _ Ht).
  split.
  - subst st'. unfold performAnalysis. rewrite Hurl, Hne, Hkey, Hk.
    cbn [allergenList set_errorMessage set_analysisResult set_isAnalyzing].
    rewrite Hrun. rewrite (added_events _ _ _ Ht).
    set (st1 := set_errorMessage (Some EmptyString)
                  (set_analysisResult None (set_isAnalyzing true st))).
    destruct (callbacks_without_error events st1 He eq_refl) as [_ Hn].
    destruct (GeminiApi.is_string (GeminiApi.imageType r) "unknown"
              || negb (truthy (Some (GeminiApi.result r))))%bool;
      cbn [fst notices notify set_errorMessage set_isAnalyzing set_analysisResult].
    + rewrite filter_app, length_app. cbn [filter is_success List.length].
      rewrite Hn. subst st1. cbn. lia.
    + rewrite Hn. subst st1. reflexivity.
  - rewrite Hc.
    destruct (analysed_type (field typeResult "imageType")) eqn:Ha.
    + destruct (Han eq_refl) as [-> _]. reflexivity.
    + rewrite (Hun eq_refl). cbn [GeminiApi.imageType unknown_result GeminiApi.is_string].
      unfold analysed_type in Ha.
      apply Bool.orb_false_iff in Ha as [Ha _].
      rewrite Ha. cbn. split; reflexivity.
Qed.

End AnalysisResultProperties.

Lemma performAnalysis_ends_witness :
  snd (AnalysisResult.performAnalysis (Num := LiteralNumber) (Sample.view_setup "")
         (Sample.view_props Sample.data_png) AnalysisResult.initial
         (Sample.world Sample.env_with_key [Sample.classified "food"; Sample.safe_analysis]))
  = Sample.world Sample.env_with_key [Sample.classified "food"; Sample.safe_analysis]
  /\ AnalysisResult.panel
       (fst (AnalysisResult.performAnalysis (Num := LiteralNumber) (Sample.view_setup "")
               (Sample.view_props Sample.data_png) AnalysisResult.initial
               (Sample.world Sample.env_with_key
                  [Sample.classified "food"; Sample.safe_analysis])))
     = AnalysisResult.ErrorState AnalysisResult.missing_key_text.
Proof.
  assert (Hne : Sample.data_png <> EmptyString) by discriminate.
  destruct (proj1 (proj2 (performAnalysis_ends (Num := LiteralNumber) (Sample.view_setup "")
                            (Sample.view_props Sample.data_png) AnalysisResult.initial
                            (Sample.world Sample.env_with_key
                               [Sample.classified "food"; Sample.safe_analysis])
                            Sample.data_png eq_refl Hne)) eq_refl)
    as (H1 & H2 & _).
  split; [exact H1 | exact H2].
Defined.

Lemma performAnalysis_shows_result_witness :
  AnalysisResult.panel
    (fst (AnalysisResult.performAnalysis (Num := LiteralNumber) (Sample.view_setup "key")
            (Sample.view_props Sample.data_png) AnalysisResult.initial
            (Sample.world Sample.no_env [Sample.classified "food"; Sample.safe_analysis])))
  = AnalysisResult.ResultContent
      {| GeminiApi.imageType := Some (JStr "food");
         GeminiApi.confidence := Some (JNum "0.9");
         GeminiApi.result := JObj [("riskLevel", JStr "safe")];
         GeminiApi.errorMessage := None |}.
Proof.
  set (w := Sample.world Sample.no_env [Sample.classified "food"; Sample.safe_analysis]).
  run_to H (GeminiApi.smartAnalyzeImage (Num := LiteralNumber) Sample.data_png
              (AnalysisResult.allergenList AnalysisResult.initial)
              (AnalysisResult.analysis_options "key" (Sample.view_setup "key")) w).
  assert (Hne : Sample.data_png <> EmptyString) by discriminate.
  assert (Hk : "key" <> EmptyString) by discriminate.
  match type of H with
  | _ = (Return ?r, ?w') =>
      destruct (performAnalysis_shows_result (Num := LiteralNumber) (Sample.view_setup "key")
                  (Sample.view_props Sample.data_png) AnalysisResult.initial w w'
                  Sample.data_png "key" r eq_refl Hne eq_refl Hk H)
        as (_ & _ & _ & Hp)
  end.
  exact Hp.
Defined.

Lemma performAnalysis_success_message_witness :
  List.length
    (filter AnalysisResult.is_success
       (AnalysisResult.notices
          (fst (AnalysisResult.performAnalysis (Num := LiteralNumber) (Sample.view_setup "key")
                  (Sample.view_props Sample.data_png) AnalysisResult.initial
                  (Sample.world Sample.no_env
                     [Sample.classified "food"; Sample.safe_analysis])))))
  = 0.
Proof.
  set (w := Sample.world Sample.no_env [Sample.classified "food"; Sample.safe_analysis]).
  run_to H (GeminiApi.smartAnalyzeImage (Num := LiteralNumber) Sample.data_png
              (AnalysisResult.allergenList AnalysisResult.initial)
              (AnalysisResult.analysis_options "key" (Sample.view_setup "key")) w).
  assert (Hne : Sample.data_png <> EmptyString) by discriminate.
  assert (Hk : "key" <> EmptyString) by discriminate.
  match type of H with
  | _ = (Return ?r, ?w') =>
      destruct (performAnalysis_success_message (Num := LiteralNumber)
                  (Sample.view_setup "key")
                  (Sample.view_props Sample.data_png) AnalysisResult.initial w w'
                  Sample.data_png "key" r eq_refl Hne eq_refl Hk H)
        as (Hn & Hc)
  end.
  rewrite Hn. rewrite (proj2 Hc eq_refl). reflexivity.
Defined.

(* ===================================================================== *)
(** * Further properties: from the upload to the analysis                 *)
(* ===================================================================== *)

Lemma decode_encode_byte (c : ascii) (rest : string) :
  Url.decode (Url.encode_byte c ++ rest) = String c (Url.decode rest).
Proof. destruct c as [[] [] [] [] [] [] [] []]; reflexivity. Qed.

(** Percent-decoding undoes the serializer. *)
Lemma decode_encode (s : string) : Url.decode (Url.encode s) = s.
Proof.
  induction s as [|c r IH]; [reflexivity|].
  cbn [Url.encode]. rewrite decode_encode_byte, IH. reflexivity.
Qed.

Lemma every_app (p : ascii -> bool) (a b : string) :
  every p (a ++ b) = (every p a && every p b)%bool.
Proof.
  induction a as [|c a IH]; [reflexivity|].
  cbn [append every]. rewrite IH. apply Bool.andb_assoc.
Qed.

Lemma encode_byte_form (c : ascii) : every form_char (Url.encode_byte c) = true.
Proof. destruct c as [[] [] [] [] [] [] [] []]; reflexivity. Qed.

Lemma encode_form (s : string) : every form_char (Url.encode s) = true.
Proof.
  induction s as [|c r IH]; [reflexivity|].
  cbn [Url.encode]. rewrite every_app, encode_byte_form, IH. reflexivity.
Qed.

Lemma every_not_occurs (p : ascii -> bool) (sep : ascii) (s : string) :
  p sep = false -> every p s = true -> occurs sep s = false.
Proof.
  intros Hsep. induction s as [|c r IH]; [reflexivity|].
  cbn [every occurs]. intros H. apply andb_prop in H as [Hc Hr].
  rewrite (IH Hr), Bool.orb_false_r.
  destruct (Ascii.eqb c sep) eqn:E; [|reflexivity].
  apply Ascii.eqb_eq in E. subst c. congruence.
Qed.

Lemma form_char_fragment (c : ascii) : form_char c = true -> fragment_char c = true.
Proof.
  destruct c as [[] [] [] [] [] [] [] []]; vm_compute; intros H;
    first [reflexivity | discriminate H].
Qed.

Lemma fragment_unchanged (s : string) :
  every fragment_char s = true -> Url.fragment s = s.
Proof.
  induction s as [|c r IH]; [reflexivity|].
  cbn [every Url.fragment]. intros H. apply andb_prop in H as [Hc Hr].
  unfold fragment_char in Hc. apply Bool.negb_true_iff in Hc.
  rewrite !Bool.orb_false_iff in Hc. destruct Hc as [[[H9 H10] H13] Hf].
  rewrite H9, H10, H13, Hf, (IH Hr). reflexivity.
Qed.

Lemma every_weaken (p q : ascii -> bool) (s : string) :
  (forall c, p c = true -> q c = true) -> every p s = true -> every q s = true.
Proof.
  intros Hpq. induction s as [|c r IH]; [reflexivity|].
  cbn [every]. intros H. apply andb_prop in H as [Hc Hr].
  rewrite (Hpq c Hc), (IH Hr). reflexivity.
Qed.

(** The hash that [processFile] sets reads back as it was set. *)
Lemma hash_after_targetHash (eu en : string) :
  every form_char eu = true -> every form_char en = true ->
  Url.hash_after ("#analysis?image=" ++ eu ++ "&allergens=" ++ en)
  = "#analysis?image=" ++ eu ++ "&allergens=" ++ en.
Proof.
  intros Hu Hn. unfold Url.hash_after.
  cbn [append Ascii.eqb Bool.eqb].
  rewrite fragment_unchanged; [reflexivity|].
  cbn [every]. 
  repeat (match goal with
          | |- (fragment_char ?c && _)%bool = true =>
              replace (fragment_char c) with true by reflexivity; cbn [andb]
          end).
  rewrite every_app, (every_weaken _ _ _ form_char_fragment Hu). cbn [andb append every].
  repeat (match goal with
          | |- (fragment_char ?c && _)%bool = true =>
              replace (fragment_char c) with true by reflexivity; cbn [andb]
          end).
  apply (every_weaken _ _ _ form_char_fragment Hn).
Qed.

(** What [handleHashChange] of App.vue reads out of such a hash. *)
Lemma handleHashChange_analysis (eu en : string) :
  every form_char eu = true -> every form_char en = true ->
  App.handleHashChange ("#analysis?image=" ++ eu ++ "&allergens=" ++ en)
  = {| App.currentPage := App.analysis;
       App.pageParams := {| App.image := App.or_undefined (Some (Url.decode eu));
                            App.allergens := App.or_undefined (Some (Url.decode en)) |} |}.
Proof.
  intros Hu Hn.
  assert (Hu1 : occurs "?" ("image=" ++ eu) = false)
    by (rewrite occurs_app, (every_not_occurs form_char "?" eu eq_refl Hu); reflexivity).
  assert (Hn1 : occurs "?" ("allergens=" ++ en) = false)
    by (rewrite occurs_app, (every_not_occurs form_char "?" en eq_refl Hn); reflexivity).
  assert (Hu2 : occurs "&" ("image=" ++ eu) = false)
    by (rewrite occurs_app, (every_not_occurs form_char "&" eu eq_refl Hu); reflexivity).
  assert (Hn2 : occurs "&" ("allergens=" ++ en) = false)
    by (rewrite occurs_app, (every_not_occurs form_char "&" en eq_refl Hn); reflexivity).
  unfold App.handleHashChange.
  change (slice 1 ("#analysis?image=" ++ eu ++ "&allergens=" ++ en))
    with ("analysis" ++ String "?" (("image=" ++ eu) ++ String "&" ("allergens=" ++ en))).
  replace (startsWith ("analysis" ++ String "?" (("image=" ++ eu) ++ String "&"
                                                  ("allergens=" ++ en))) "analysis")
    with true by reflexivity.
  rewrite (split_at_first_separator "?" "analysis") by reflexivity.
  rewrite (split_without_separator "?")
    by (rewrite occurs_app, Hu1; cbn [occurs orb Ascii.eqb Bool.eqb]; exact Hn1).
  cbn [nth_error].
  unfold Url.parse.
  change (("image=" ++ eu) ++ String "&" ("allergens=" ++ en))
    with (String "i" ("mage=" ++ eu ++ String "&" ("allergens=" ++ en))).
  cbn [Ascii.eqb Bool.eqb].
  change (String "i" ("mage=" ++ eu ++ String "&" ("allergens=" ++ en)))
    with (("image=" ++ eu) ++ String "&" ("allergens=" ++ en)).
  rewrite (split_at_first_separator "&" ("image=" ++ eu) _ Hu2).
  rewrite (split_without_separator "&" _ Hn2).
  reflexivity.
Qed.

Lemma split_join (names : list string) :
  names <> [] ->
  Forall (fun n => occurs "," n = false) names ->
  split "," (join "," names) = names.
Proof.
  induction names as [|x [|y r] IH]; intros Hne Hall; [contradiction | |].
  - cbn [join String.concat]. inversion Hall; subst.
    apply split_without_separator. assumption.
  - inversion Hall as [|? ? Hx Hr]; subst.
    change (join "," (x :: y :: r)) with (x ++ String "," (join "," (y :: r))).
    rewrite (split_at_first_separator "," x _ Hx).
    rewrite IH; [reflexivity | discriminate | exact Hr].
Qed.

Lemma name_of_listed (allergenId n : string) :
  UploadImage.name_of allergenId = Some n ->
  In n (map UploadImage.name UploadImage.allergensList).
Proof.
  unfold UploadImage.name_of.
  destruct (find _ UploadImage.allergensList) as [a|] eqn:Hf; [|discriminate].
  intros [= <-]. apply find_some in Hf as [Hin _]. apply in_map, Hin.
Qed.

(** The ten names of the list are plain. *)
Lemma listed_names_plain :
  forallb plain_name (map UploadImage.name UploadImage.allergensList) = true.
Proof. vm_compute. reflexivity. Qed.

Lemma selected_names_plain (selected : list string) :
  Forall (fun n => plain_name n = true) (UploadImage.selected_names selected).
Proof.
  induction selected as [|x r IH]; [constructor|].
  cbn [UploadImage.selected_names].
  destruct (UploadImage.name_of x) as [n|] eqn:Hn; [|exact IH].
  destruct (String.eqb n EmptyString); [exact IH|].
  constructor; [|exact IH].
  pose proof listed_names_plain as H. rewrite forallb_forall in H.
  apply H, (name_of_listed x n Hn).
Qed.

(** The list that analysis-result.vue makes of the names joined by
    upload-image.vue. *)
Lemma names_round_trip (names : list string) :
  names <> [] ->
  Forall (fun n => plain_name n = true) names ->
  String.eqb (join "," names) EmptyString = false
  /\ filter (fun s => negb (String.eqb s EmptyString)) (map trim (split "," (join "," names)))
     = names.
Proof.
  intros Hne Hall.
  assert (Hparts : Forall (fun n => n <> EmptyString /\ occurs "," n = false /\ trim n = n)
                     names).
  { eapply Forall_impl; [|exact Hall]. intros n Hn. unfold plain_name in Hn.
    apply andb_prop in Hn as [Hn Ht]. apply andb_prop in Hn as [He Hc].
    apply Bool.negb_true_iff in He, Hc.
    apply String.eqb_neq in He. apply String.eqb_eq in Ht. auto. }
  split.
  - destruct names as [|x r]; [contradiction|].
    inversion Hparts as [|? ? (Hx & _ & _) _]; subst.
    destruct x as [|c x]; [contradiction|].
    destruct r; reflexivity.
  - rewrite split_join;
      [|exact Hne | eapply Forall_impl; [|exact Hparts]; intros n (_ & H & _); exact H].
    clear Hne Hall. induction Hparts as [|n r (He & _ & Ht) _ IH]; [reflexivity|].
    cbn [map filter]. rewrite Ht.
    apply String.eqb_neq in He. rewrite He. cbn [negb]. rewrite IH. reflexivity.
Qed.

Section Navigation.
Context {Num : JsNumber}.

(** X26.  From the upload to the analysis.  The hash that
    [processFile] of upload-image.vue sets for an image and a selection of
    allergens reads back as it was set; App.vue takes it for the analysis
    page and recovers the URL of the image unchanged; and
    analysis-result.vue, mounted with what App.vue read, runs its analysis
    with the names of the selected allergens of the list, in the order of
    the selection (an id that the list does not have is dropped).  Home
    .vue leaves its tab as it is on such a hash. *)
Theorem selection_reaches_analysis
    (imageUrl : string) (selected : list string)
    (setup : AnalysisResult.Setup) (w : World) (tab : Home.TabType) :
  imageUrl <> EmptyString ->
  let location_hash := Url.hash_after (UploadImage.targetHash imageUrl selected) in
  let page := App.handleHashChange location_hash in
  let props := {| AnalysisResult.imageUrl := App.image (App.pageParams page);
                  AnalysisResult.allergens := App.allergens (App.pageParams page) |} in
  location_hash = UploadImage.targetHash imageUrl selected
  /\ App.currentPage page = App.analysis
  /\ App.image (App.pageParams page) = Some imageUrl
  /\ AnalysisResult.onMounted setup props AnalysisResult.initial w
     = AnalysisResult.performAnalysis setup props
         (AnalysisResult.set_allergenList (UploadImage.selected_names selected)
            AnalysisResult.initial) w
  /\ Home.handleHashChange location_hash tab = tab.
Proof.
  intros Hurl location_hash page props.
  set (names := UploadImage.selected_names selected).
  assert (Hhash : UploadImage.targetHash imageUrl selected
                  = "#analysis?image=" ++ Url.encode imageUrl
                    ++ "&allergens=" ++ Url.encode (join "," names)).
  { unfold UploadImage.targetHash, Url.toString, UploadImage.allergenNames.
    cbn [map fst snd join String.concat]. fold names.
    change (Url.encode "image") with "image".
    change (Url.encode "allergens") with "allergens".
    rewrite !string_app_assoc. reflexivity. }
  assert (Hloc : location_hash = UploadImage.targetHash imageUrl selected).
  { subst location_hash. rewrite Hhash. apply hash_after_targetHash; apply encode_form. }
  assert (Hpage : page = {| App.currentPage := App.analysis;
                            App.pageParams :=
                              {| App.image := App.or_undefined (Some imageUrl);
                                 App.allergens := App.or_undefined (Some (join "," names)) |} |}).
  { subst page. rewrite Hloc, Hhash.
    rewrite handleHashChange_analysis by apply encode_form.
    rewrite !decode_encode. reflexivity. }
  apply String.eqb_neq in Hurl.
  split; [exact Hloc|]. split; [rewrite Hpage; reflexivity|].
  split; [rewrite Hpage; cbn [App.image App.pageParams App.or_undefined]; now rewrite Hurl|].
  split.
  - subst props. rewrite Hpage. cbn [App.image App.allergens App.pageParams App.or_undefined].
    rewrite Hurl. unfold AnalysisResult.onMounted.
    cbn [AnalysisResult.allergens AnalysisResult.imageUrl GeminiApi.string_truthy].
    rewrite Hurl. cbn [negb].
    destruct names as [|n r] eqn:Hnames.
    + cbn [join String.concat String.eqb]. reflexivity.
    + assert (Hne : n :: r <> []) by discriminate.
      pose proof (selected_names_plain selected) as Hplain. fold names in Hplain.
      rewrite Hnames in Hplain.
      destruct (names_round_trip (n :: r) Hne Hplain) as [He Hl].
      rewrite He. cbn [AnalysisResult.allergens]. rewrite He, Hl. reflexivity.
  - rewrite Hloc, Hhash. reflexivity.
Qed.

End Navigation.

Lemma selection_reaches_analysis_witness :
  App.image
    (App.pageParams
       (App.handleHashChange
          (Url.hash_after
             (UploadImage.targetHash "blob:http://localhost:5173/3f1c-77"
                ["milk"; "kiwi"; "peanuts"]))))
  = Some "blob:http://localhost:5173/3f1c-77".
Proof.
  assert (Hne : "blob:http://localhost:5173/3f1c-77" <> EmptyString) by discriminate.
  exact (proj1 (proj2 (proj2 (selection_reaches_analysis (Num := LiteralNumber)
                                "blob:http://localhost:5173/3f1c-77"
                                ["milk"; "kiwi"; "peanuts"]
                                (Sample.view_setup "key") (Sample.world Sample.no_env [])
                                Home.home Hne)))).
Defined.

(* ===================================================================== *)
(** * Further properties: the form of upload-image.vue                    *)
(* ===================================================================== *)

Lemma toggleAllergen_cons (x y : string) (r : list string) :
  UploadImage.toggleAllergen x (y :: r)
  = if String.eqb y x then r else y :: UploadImage.toggleAllergen x r.
Proof.
  unfold UploadImage.toggleAllergen. cbn [UploadImage.indexOf].
  destruct (String.eqb y x); [reflexivity|].
  destruct (UploadImage.indexOf x r); reflexivity.
Qed.

Lemma isSelected_In (x : string) (l : list string) :
  UploadImage.isSelected x l = true <-> In x l.
Proof.
  unfold UploadImage.isSelected, includes. rewrite existsb_exists. split.
  - intros (y & Hin & He). apply String.eqb_eq in He. now subst.
  - intros Hin. exists x. split; [exact Hin | apply String.eqb_refl].
Qed.

Lemma isSelected_cons (x y : string) (r : list string) :
  UploadImage.isSelected x (y :: r) = (String.eqb x y || UploadImage.isSelected x r)%bool.
Proof. reflexivity. Qed.

Lemma toggleAllergen_others (x y : string) (l : list string) :
  y <> x ->
  UploadImage.isSelected y (UploadImage.toggleAllergen x l) = UploadImage.isSelected y l.
Proof.
  intros Hyx. apply String.eqb_neq in Hyx.
  induction l as [|z r IH].
  - cbn. rewrite Hyx. reflexivity.
  - rewrite toggleAllergen_cons. destruct (String.eqb z x) eqn:Ez.
    + apply String.eqb_eq in Ez. subst z. rewrite isSelected_cons, Hyx. reflexivity.
    + rewrite !isSelected_cons, IH. reflexivity.
Qed.

(** X27.  [toggleAllergen] keeps the selection free of repetitions; it
    changes whether the toggled id is selected and nothing else; and
    toggling twice an id that was not selected gives back the selection
    as it was, in the same order. *)
Theorem toggleAllergen_flips (x : string) (l : list string) :
  NoDup l ->
  NoDup (UploadImage.toggleAllergen x l)
  /\ UploadImage.isSelected x (UploadImage.toggleAllergen x l)
     = negb (UploadImage.isSelected x l)
  /\ (forall y, y <> x ->
        UploadImage.isSelected y (UploadImage.toggleAllergen x l) = UploadImage.isSelected y l)
  /\ (UploadImage.isSelected x l = false ->
      UploadImage.toggleAllergen x (UploadImage.toggleAllergen x l) = l).
Proof.
  intros Hnd.
  split; [|split; [|split]].
  - induction Hnd as [|z r Hz Hr IH]; [repeat constructor; intros []|].
    rewrite toggleAllergen_cons. destruct (String.eqb z x) eqn:Ez; [exact Hr|].
    constructor; [|exact IH].
    intros Hin. apply isSelected_In in Hin.
    rewrite toggleAllergen_others in Hin by (apply String.eqb_neq; exact Ez).
    apply isSelected_In in Hin. contradiction.
  - induction Hnd as [|z r Hz Hr IH]; [cbn; now rewrite String.eqb_refl|].
    rewrite toggleAllergen_cons, isSelected_cons.
    destruct (String.eqb z x) eqn:Ez.
    + apply String.eqb_eq in Ez. subst z. rewrite String.eqb_refl. cbn [orb negb].
      destruct (UploadImage.isSelected x r) eqn:Hs; [|reflexivity].
      apply isSelected_In in Hs. contradiction.
    + rewrite isSelected_cons, IH. rewrite (String.eqb_sym x z), Ez. reflexivity.
  - intros y Hy. apply toggleAllergen_others, Hy.
  - clear Hnd. induction l as [|z r IH]; intros Hs.
    + change (UploadImage.toggleAllergen x []) with [x].
      rewrite toggleAllergen_cons, String.eqb_refl. reflexivity.
    + rewrite isSelected_cons in Hs. apply Bool.orb_false_iff in Hs as [Hxz Hr].
      rewrite toggleAllergen_cons, (String.eqb_sym z x), Hxz.
      rewrite toggleAllergen_cons, (String.eqb_sym z x), Hxz.
      rewrite (IH Hr). reflexivity.
Qed.

(** X28.  [beforeUpload] lets a file through exactly when its type
    starts with `image/' and it has at most 10 485 760 bytes; the type is
    checked first, and no list of formats is consulted: whatever calls
    itself an image passes. *)
Theorem beforeUpload_accepts (rawFile : UploadImage.RawFile) :
  (fst (UploadImage.beforeUpload rawFile) = true <->
   startsWith (UploadImage.file_type rawFile) "image/" = true
   /\ (UploadImage.size rawFile <= 10485760)%N)
  /\ (startsWith (UploadImage.file_type rawFile) "image/" = false ->
      UploadImage.beforeUpload rawFile = (false, Some "只能上传图片文件!"))
  /\ (startsWith (UploadImage.file_type rawFile) "image/" = true ->
      (10485760 < UploadImage.size rawFile)%N ->
      UploadImage.beforeUpload rawFile = (false, Some "图片大小不能超过 10MB!")).
Proof.
  assert (Hover : UploadImage.over_10_MB rawFile = true
                  <-> (10485760 < UploadImage.size rawFile)%N).
  { unfold UploadImage.over_10_MB.
    cbv [QArith_base.Qle_bool QArith_base.Qdiv QArith_base.Qmult QArith_base.Qinv
         QArith_base.inject_Z QArith_base.Qnum QArith_base.Qden].
    rewrite Bool.negb_true_iff, Z.leb_gt. cbn. lia. }
  unfold UploadImage.beforeUpload.
  destruct (startsWith (UploadImage.file_type rawFile) "image/"); cbn [negb].
  - destruct (UploadImage.over_10_MB rawFile) eqn:Ho; cbn [fst].
    + pose proof (proj1 Hover eq_refl) as Hgt. repeat split; try discriminate; try lia.
    + assert (Hle : (UploadImage.size rawFile <= 10485760)%N).
      { destruct (N.le_gt_cases (UploadImage.size rawFile) 10485760) as [H|H]; [exact H|].
        apply (proj2 Hover) in H. discriminate H. }
      repeat split; try discriminate; auto. intros _ H. lia.
  - cbn [fst]. repeat split; try discriminate. intros [H _]. discriminate H.
Qed.

Lemma toggleAllergen_flips_witness :
  UploadImage.toggleAllergen "milk" (UploadImage.toggleAllergen "milk" ["eggs"; "fish"])
  = ["eggs"; "fish"].
Proof.
  assert (Hnd : NoDup ["eggs"; "fish"]).
  { repeat constructor; cbn; intuition discriminate. }
  exact (proj2 (proj2 (proj2 (toggleAllergen_flips "milk" ["eggs"; "fish"] Hnd))) eq_refl).
Defined.

Lemma beforeUpload_accepts_witness :
  fst (UploadImage.beforeUpload {| UploadImage.file_type := "image/heic";
                                   UploadImage.size := 10485760 |}) = true.
Proof.
  apply (proj1 (beforeUpload_accepts {| UploadImage.file_type := "image/heic";
                                        UploadImage.size := 10485760 |})).
  split; [reflexivity | cbn; lia].
Defined.

(* ===================================================================== *)
(** * Further properties: what Home.vue keeps between visits              *)
(* ===================================================================== *)

Lemma scan_escape_byte (c : ascii) (rest : string) :
  scan_string (JsonText.escape_byte c ++ rest)
  = option_cons (written_unit c) (scan_string rest).
Proof. destruct c as [[] [] [] [] [] [] [] []]; reflexivity. Qed.

Lemma encode_written_unit (c : ascii) (units : list SUnit) :
  encode_units (written_unit c :: units) = String c (encode_units units).
Proof.
  destruct c as [[] [] [] [] [] [] [] []];
    first [ reflexivity | destruct units as [|[c'|n'] units']; reflexivity ].
Qed.

Lemma encode_written_units (s : string) : encode_units (written_units s) = s.
Proof.
  induction s as [|c r IH]; [reflexivity|].
  cbn [written_units]. rewrite encode_written_unit, IH. reflexivity.
Qed.

(** The lexer reads back what [JSON.stringify] wrote of a string. *)
Lemma scan_escape (s rest : string) :
  scan_string (JsonText.escape s ++ String dquote rest) = Some (written_units s, rest).
Proof.
  induction s as [|c r IH].
  - cbn [JsonText.escape append scan_string]. rewrite Ascii.eqb_refl. reflexivity.
  - cbn [JsonText.escape written_units]. rewrite string_app_assoc, scan_escape_byte, IH.
    reflexivity.
Qed.

Lemma length_app_r (a b : string) : String.length b <= String.length (a ++ b).
Proof. induction a as [|c a IH]; cbn [append String.length]; lia. Qed.

Lemma lex_enough (n : nat) (s : string) :
  String.length s <= n -> lex n s = lex (String.length s) s.
Proof. intros H. apply (lex_fuel_irrelevant n); [exact H | reflexivity]. Qed.

Lemma lex_quote (n : nat) (s rest : string) :
  String.length (JsonText.quote s ++ rest) <= n ->
  lex n (JsonText.quote s ++ rest)
  = option_tok (TStr s) (lex (String.length rest) rest).
Proof.
  intros Hn. unfold JsonText.quote in *. cbn [append] in *.
  destruct n as [|n]; [cbn [String.length] in Hn; lia|].
  cbn [lex]. replace (is_json_ws dquote) with false by reflexivity.
  replace (punctuator dquote) with (@None Token) by reflexivity.
  rewrite Ascii.eqb_refl.
  rewrite string_app_assoc. cbn [append].
  rewrite scan_escape, encode_written_units.
  f_equal. apply lex_enough.
  cbn [String.length] in Hn. rewrite string_app_assoc in Hn. cbn [append] in Hn.
  pose proof (length_app_r (JsonText.escape s) (String dquote rest)) as H.
  cbn [String.length] in H. lia.
Qed.

Lemma lex_punctuator (n : nat) (c : ascii) (t : Token) (rest : string) :
  punctuator c = Some t -> is_json_ws c = false ->
  String.length rest <= n ->
  lex (S n) (String c rest) = option_tok t (lex (String.length rest) rest).
Proof.
  intros Hp Hw Hn. cbn [lex]. rewrite Hw, Hp. f_equal. apply lex_enough, Hn.
Qed.

(** A quoted key, a colon and a quoted value, in front of [rest]. *)
Lemma lex_member (n : nat) (k v rest : string) :
  String.length (JsonText.quote k ++ ":" ++ JsonText.quote v ++ rest) <= n ->
  lex n (JsonText.quote k ++ ":" ++ JsonText.quote v ++ rest)
  = option_tok (TStr k) (option_tok TColon (option_tok (TStr v)
      (lex (String.length rest) rest))).
Proof.
  intros Hn. rewrite (lex_quote n k _ Hn). f_equal.
  change (":" ++ JsonText.quote v ++ rest) with (String ":" (JsonText.quote v ++ rest)).
  cbn [String.length].
  rewrite (lex_punctuator _ ":" TColon) by (reflexivity || lia). f_equal.
  apply lex_quote. lia.
Qed.

Lemma lex_more_members (members : list (string * string)) :
  lex (String.length (JsonText.more_members members)) (JsonText.more_members members)
  = Some (more_tokens members).
Proof.
  induction members as [|[k v] rest IH]; [reflexivity|].
  cbn [JsonText.more_members more_tokens].
  change ("," ++ JsonText.quote k ++ ":" ++ JsonText.quote v ++ JsonText.more_members rest)
    with (String "," (JsonText.quote k ++ ":" ++ JsonText.quote v
                      ++ JsonText.more_members rest)).
  cbn [String.length].
  rewrite (lex_punctuator _ "," TComma) by (reflexivity || lia).
  rewrite lex_member by lia. rewrite IH. reflexivity.
Qed.

Lemma run_more_tokens (members : list (string * string)) (done : list (string * JSON)) :
  run (PObjNext done []) (more_tokens members)
  = Some (PDone (JObj (rev done ++ map (fun p => (fst p, JStr (snd p))) members))).
Proof.
  revert done. induction members as [|[k v] rest IH]; intros done.
  - cbn. rewrite app_nil_r. reflexivity.
  - cbn [more_tokens run step start_value complete].
    rewrite IH. cbn [rev map fst snd]. rewrite <- app_assoc. reflexivity.
Qed.

(** [JSON.parse] undoes [JSON.stringify] on a record of strings. *)
Lemma parse_stringify_record (members : list (string * string)) :
  JSON_parse (JsonText.stringify_record members) = Some (JsonText.record_value members).
Proof.
  destruct members as [|[k v] rest]; [reflexivity|].
  unfold JSON_parse, JsonText.stringify_record, JsonText.record_value.
  change ("{" ++ JsonText.quote k ++ ":" ++ JsonText.quote v ++ JsonText.more_members rest)
    with (String "{" (JsonText.quote k ++ ":" ++ JsonText.quote v
                      ++ JsonText.more_members rest)).
  cbn [String.length].
  rewrite (lex_punctuator _ "{" TLBrace) by (reflexivity || lia).
  rewrite lex_member by lia. rewrite lex_more_members.
  cbn [option_tok run step start_value complete].
  rewrite run_more_tokens. reflexivity.
Qed.

Lemma getItem_setItem (key value : string) (items : JsonText.Storage) :
  JsonText.getItem key (JsonText.setItem key value items) = Some value.
Proof. cbn. rewrite String.eqb_refl. reflexivity. Qed.

Lemma getItem_removeItem (key : string) (items : JsonText.Storage) :
  JsonText.getItem key (JsonText.removeItem key items) = None.
Proof.
  induction items as [|[k v] rest IH]; [reflexivity|].
  cbn [JsonText.removeItem filter fst]. destruct (String.eqb k key) eqn:E; cbn [negb].
  - exact IH.
  - cbn [JsonText.getItem]. rewrite E. exact IH.
Qed.

Lemma tab_after_switch (tab previous : Home.TabType) :
  Home.handleHashChange (snd (Home.switchTab tab)) previous = tab.
Proof. destruct tab, previous; reflexivity. Qed.

(** X29.  What Home.vue restores when it is mounted again.  After
    [handleRegionSelect] has saved a region and [switchTab] has set the
    hash, the hook finds the region as it was selected, whatever its four
    texts are (quotes, backslashes and control characters included), and
    the tab that was chosen.  After [resetRegion] it finds no region.  And
    a saved text that [JSON.parse] refuses leaves the region as it is,
    without an error. *)
Theorem home_restores_region_and_tab
    (region : Home.Region) (tab : Home.TabType) (st : Home.State) (items : JsonText.Storage) :
  let saved := snd (Home.handleRegionSelect region st items) in
  let location_hash := snd (Home.switchTab tab) in
  Home.onMounted saved location_hash Home.initial
  = {| Home.currentTab := tab;
       Home.selectedRegion := JsonText.record_value (Home.region_members region) |}
  /\ Home.selectedRegion (fst (Home.handleRegionSelect region st items))
     = Home.selectedRegion (Home.onMounted saved location_hash Home.initial)
  /\ Home.onMounted (snd (Home.resetRegion st saved)) location_hash Home.initial
     = {| Home.currentTab := tab; Home.selectedRegion := JNull |}
  /\ (forall text, JSON_parse text = None ->
        Home.onMounted (JsonText.setItem "selectedRegion" text items) location_hash Home.initial
        = {| Home.currentTab := tab; Home.selectedRegion := JNull |}).
Proof.
  intros saved location_hash.
  assert (Hmount : Home.onMounted saved location_hash Home.initial
                   = {| Home.currentTab := tab;
                        Home.selectedRegion :=
                          JsonText.record_value (Home.region_members region) |}).
  { unfold Home.onMounted. subst saved location_hash.
    unfold Home.handleRegionSelect. cbn [snd].
    rewrite getItem_setItem, parse_stringify_record, tab_after_switch.
    reflexivity. }
  split; [exact Hmount|]. split; [rewrite Hmount; reflexivity|]. split.
  - unfold Home.onMounted, Home.resetRegion. cbn [snd].
    rewrite getItem_removeItem. subst location_hash. rewrite tab_after_switch. reflexivity.
  - intros text Hbad. unfold Home.onMounted.
    rewrite getItem_setItem, Hbad. subst location_hash. rewrite tab_after_switch.
    destruct (String.eqb text EmptyString); reflexivity.
Qed.

Lemma home_restores_region_and_tab_witness :
  Home.onMounted
    [("selectedRegion",
      JsonText.stringify_record
        (Home.region_members
           {| Home.code := "EU"; Home.flag := "🇪🇺"; Home.name := q "the 'old' continent";
              Home.description := "a\b" ++ Sample.nl ++ "c" |}))]
    "#records" Home.initial
  = {| Home.currentTab := Home.records;
       Home.selectedRegion :=
         JObj [("code", JStr "EU"); ("flag", JStr "🇪🇺");
               ("name", JStr (q "the 'old' continent"));
               ("description", JStr ("a\b" ++ Sample.nl ++ "c"))] |}.
Proof.
  exact (proj1 (home_restores_region_and_tab
                  {| Home.code := "EU"; Home.flag := "🇪🇺"; Home.name := q "the 'old' continent";
                     Home.description := "a\b" ++ Sample.nl ++ "c" |}
                  Home.records Home.initial [])).
Defined.

(* ===================================================================== *)
(** * Further properties: the key is looked at after the encoding         *)
(* ===================================================================== *)

Section LateKeyCheck.
Context {Num : JsNumber}.

(** X30.  The three functions of gemini-api.ts that take an image
    encode it before a transport looks at the key.  With no key in the
    options and none in the environment, [smartAnalyzeImage],
    [analyzeFoodPhoto] and [analyzeAllergens] still encode the image (a
    source that is not a data URI is requested and read) and only then
    fail with the error of the missing key; no request to the model is
    made, [onError] is not invoked, and [smartAnalyzeImage] alone writes
    to the console. *)
Theorem encoding_precedes_key_check
    {A : Type} (imageUrl : string) (allergens : list string) (onChunk : JSON -> A -> A)
    (options : GeminiApi.ImageAnalysisOptions) (acc : A)
    (w w1 : World) (image : GeminiApi.EncodedImage) :
  GeminiApi.string_truthy (GeminiApi.resolve_apiKey options (env w)) = false ->
  GeminiApi.convertImageToBase64 imageUrl w = (Return image, w1) ->
  GeminiApi.smartAnalyzeImage imageUrl allergens options w
  = (Throw GeminiApi.missing_key, logged w1 [Console ErrorLevel])
  /\ GeminiApi.analyzeFoodPhoto imageUrl allergens options w = (Throw GeminiApi.missing_key, w1)
  /\ GeminiApi.analyzeAllergens imageUrl allergens onChunk options acc w
     = (Throw GeminiApi.missing_key, w1)
  /\ w1 = (if startsWith imageUrl "data:" then logged w [Encode imageUrl]
           else consumed (logged w [Encode imageUrl]) (Get imageUrl)).
Proof.
  intros Hkey Hconv.
  assert (Hw1 : w1 = (if startsWith imageUrl "data:" then logged w [Encode imageUrl]
                      else consumed (logged w [Encode imageUrl]) (Get imageUrl))).
  { apply convertImageToBase64_return in Hconv as [[Hd ->]|[Hd ->]]; rewrite Hd; reflexivity. }
  assert (Henv : env w1 = env w).
  { rewrite Hw1. destruct (startsWith imageUrl "data:"); reflexivity. }
  assert (Hjson : forall messages,
             GeminiApi.callGeminiAPIForJSON messages options w1
             = (Throw GeminiApi.missing_key, w1)).
  { intros messages. unfold GeminiApi.callGeminiAPIForJSON.
    rewrite (bind_of_return get_env _ w1 w1 (env w1)) by reflexivity.
    rewrite Henv, Hkey. reflexivity. }
  assert (Hstream : forall messages,
             GeminiApi.callGeminiAPIForStream messages onChunk options acc w1
             = (Throw GeminiApi.missing_key, w1)).
  { intros messages. unfold GeminiApi.callGeminiAPIForStream.
    rewrite (bind_of_return get_env _ w1 w1 (env w1)) by reflexivity.
    rewrite Henv, Hkey. reflexivity. }
  split; [|split; [|split; [|exact Hw1]]].
  - unfold GeminiApi.smartAnalyzeImage.
    rewrite (bind_of_return _ _ _ _ _ Hconv). unfold try_catch.
    rewrite (bind_of_throw _ _ _ _ _ (Hjson _)). reflexivity.
  - unfold GeminiApi.analyzeFoodPhoto.
    rewrite (bind_of_return _ _ _ _ _ Hconv). apply Hjson.
  - unfold GeminiApi.analyzeAllergens.
    rewrite (bind_of_return _ _ _ _ _ Hconv). apply Hstream.
Qed.

End LateKeyCheck.

Lemma encoding_precedes_key_check_witness :
  GeminiApi.analyzeAllergens (Num := LiteralNumber) "https://example.com/label.jpg" []
    Sample.append_text (Sample.gemini_options "") EmptyString
    (Sample.world Sample.no_env [Sample.image_reply; Sample.extraction])
  = (Throw GeminiApi.missing_key,
     {| env := Sample.no_env; network := [Sample.extraction];
        trace := [Encode "https://example.com/label.jpg";
                  Fetch (Get "https://example.com/label.jpg")] |}).
Proof.
  set (w := Sample.world Sample.no_env [Sample.image_reply; Sample.extraction]).
  run_to H1 (GeminiApi.convertImageToBase64 "https://example.com/label.jpg" w).
  match type of H1 with
  | _ = (Return ?image, ?w1) =>
      exact (proj1 (proj2 (proj2 (encoding_precedes_key_check (Num := LiteralNumber)
                                    "https://example.com/label.jpg" [] Sample.append_text
                                    (Sample.gemini_options "") EmptyString w w1 image
                                    eq_refl H1))))
  end.
Defined.
